(** * The OData query-plan compiler of mcp-1c-hack: a shallow embedding

    The development follows the Python sources under
    [src/mcp_servers/mcp-1c-hack]: [odata_tool/filter_builder.py],
    [odata_tool/url_builder.py], [odata_tool/plan_validator.py],
    [odata_tool/models.py], [odata_tool/llm_client.py],
    [odata_tool/odata_client.py] and [query_tool.py].

    Conventions.
    - A Python [str] is a Rocq [string] whose characters are the code points
      of the text; the model covers the code points below 256, on which the
      character classes used by the sources ([str.isspace], [str.lower], the
      regular-expression classes [\d] and [\s]) are written out exactly.
    - A call that may raise returns a [Result]: [Ok v] or [Raise e].
    - A [dict] whose iteration order reaches the output is an association
      list in insertion order; a [dict] or [set] that is only looked up is a
      [gmap] or [gset].
    - Of the standard library, [datetime.strptime], [urllib.parse.quote],
      the two regular expressions and the string methods are written out
      for the arguments the sources give them.  Of the third-party
      libraries, the retry loop of [tenacity] is written out from its
      documented behaviour; the score of [thefuzz], the listing order of a
      [set], [json.loads], [QueryPlan.model_validate] and the two HTTP
      services are parameters, and [Json.loads] is a decoder of the JSON
      grammar to run the parsing code on concrete texts; of [aiohttp],
      the check that [BasicAuth] makes of the login is written out. *)

From Stdlib Require Import String Ascii List ZArith Lia Bool.
From stdpp Require Import gmap strings.

#[local] Set Warnings "-clear-no-such-hyp".

Open Scope string_scope.
Open Scope Z_scope.

#[local] Arguments String.append !s1 s2 / : simpl nomatch.

(** ** Python strings *)

Module PyStr.

Definition code (c : ascii) : N := N_of_ascii c.

(** [str.isspace] on one character, which is also the class [\s] of [re]
    for text patterns: TAB..CR, FS..US, SPACE, NEL and NBSP. *)
Definition isspace (c : ascii) : bool :=
  let n := code c in
  ((9 <=? n) && (n <=? 13) || (28 <=? n) && (n <=? 32)
   || (n =? 133) || (n =? 160))%N.

(** The class [\d] of [re]: the decimal digits. *)
Definition isdecimal (c : ascii) : bool :=
  let n := code c in ((48 <=? n) && (n <=? 57))%N.

Definition digit_value (c : ascii) : Z := Z.of_N (code c) - 48.

(** [str.lower] on one character: A..Z and the upper-case letters
    À..Þ (without the multiplication sign) move up by 32. *)
Definition lower_char (c : ascii) : ascii :=
  let n := code c in
  if ((65 <=? n) && (n <=? 90)
      || (192 <=? n) && (n <=? 222) && negb (n =? 215))%N
  then ascii_of_N (n + 32) else c.

Fixpoint lower (s : string) : string :=
  match s with
  | EmptyString => EmptyString
  | String c s' => String (lower_char c) (lower s')
  end.

(** [s.startswith(p)] and [s.endswith(p)]. *)
Fixpoint startswith (s p : string) {struct p} : bool :=
  match p, s with
  | EmptyString, _ => true
  | String _ _, EmptyString => false
  | String a p', String b s' => Ascii.eqb a b && startswith s' p'
  end.

(** [s[n:]]. *)
Fixpoint drop (n : nat) (s : string) : string :=
  match n, s with
  | O, _ => s
  | S _, EmptyString => EmptyString
  | S n', String _ s' => drop n' s'
  end.

Definition endswith (s p : string) : bool :=
  (String.length p <=? String.length s)%nat
  && String.eqb (drop (String.length s - String.length p) s) p.

(** [sub in s]. *)
Fixpoint contains (s sub : string) : bool :=
  startswith s sub
  || match s with
     | EmptyString => false
     | String _ s' => contains s' sub
     end.

(** [s.lstrip()], [s.rstrip()] and [s.strip()]. *)
Fixpoint lstrip (s : string) : string :=
  match s with
  | EmptyString => EmptyString
  | String c s' => if isspace c then lstrip s' else s
  end.

Fixpoint rstrip (s : string) : string :=
  match s with
  | EmptyString => EmptyString
  | String c s' =>
      match rstrip s' with
      | EmptyString => if isspace c then EmptyString else String c EmptyString
      | r => String c r
      end
  end.

Definition strip (s : string) : string := rstrip (lstrip s).

(** [s.lstrip(ch)] and [s.rstrip(ch)] for a one-character argument. *)
Fixpoint lstrip_char (ch : ascii) (s : string) : string :=
  match s with
  | EmptyString => EmptyString
  | String c s' => if Ascii.eqb c ch then lstrip_char ch s' else s
  end.

Fixpoint rstrip_char (ch : ascii) (s : string) : string :=
  match s with
  | EmptyString => EmptyString
  | String c s' =>
      match rstrip_char ch s' with
      | EmptyString => if Ascii.eqb c ch then EmptyString else String c EmptyString
      | r => String c r
      end
  end.

(** [sep.join(parts)]. *)
Fixpoint join (sep : string) (parts : list string) : string :=
  match parts with
  | [] => EmptyString
  | [p] => p
  | p :: rest => p +:+ sep +:+ join sep rest
  end.

(** [s.replace(ch, by)] for a one-character pattern. *)
Fixpoint replace_char (ch : ascii) (by_ : string) (s : string) : string :=
  match s with
  | EmptyString => EmptyString
  | String c s' =>
      (if Ascii.eqb c ch then by_ else String c EmptyString)
      +:+ replace_char ch by_ s'
  end.

(** [s.split(ch)] for a one-character separator: always at least one
    piece. *)
Fixpoint split (ch : ascii) (s : string) : list string :=
  match s with
  | EmptyString => [EmptyString]
  | String c s' =>
      if Ascii.eqb c ch then EmptyString :: split ch s'
      else match split ch s' with
           | [] => [String c EmptyString]
           | p :: ps => String c p :: ps
           end
  end.

(** [s.split(ch, 1)]: the text before the first [ch], and the text after
    it when there is one. *)
Fixpoint split1 (ch : ascii) (s : string) : string * option string :=
  match s with
  | EmptyString => (EmptyString, None)
  | String c s' =>
      if Ascii.eqb c ch then (EmptyString, Some s')
      else let '(a, b) := split1 ch s' in (String c a, b)
  end.

(** Decimal text of a number, as [str(n)] writes it. *)
Definition digit_char (d : Z) : ascii := ascii_of_N (Z.to_N (48 + d)).

Fixpoint digits_fuel (fuel : nat) (n : Z) (acc : string) : string :=
  match fuel with
  | O => acc
  | S f =>
      let acc' := String (digit_char (n mod 10)) acc in
      if n / 10 =? 0 then acc' else digits_fuel f (n / 10) acc'
  end.

Definition str_of_Z (n : Z) : string :=
  if n <? 0 then String "-" (digits_fuel (Z.to_nat (- n)) (- n) EmptyString)
  else digits_fuel (S (Z.to_nat n)) n EmptyString.

(** [s.zfill(width)] on the text of a non-negative number. *)
Definition zfill (width : nat) (s : string) : string :=
  string_of_list_ascii (repeat "0"%char (width - String.length s)) +:+ s.

(** [%02d] and [%04d] on a non-negative number: the low digits written
    out while the number fits the width, its plain text beyond. *)
Definition fmt2 (n : Z) : string :=
  if (0 <=? n) && (n <? 100)
  then String (digit_char (n / 10)) (String (digit_char (n mod 10)) EmptyString)
  else str_of_Z n.

Definition fmt4 (n : Z) : string :=
  if (0 <=? n) && (n <? 10000)
  then String (digit_char (n / 1000))
         (String (digit_char (n / 100 mod 10))
            (String (digit_char (n / 10 mod 10))
               (String (digit_char (n mod 10)) EmptyString)))
  else str_of_Z n.

End PyStr.

(** ** Exceptions and results of calls that may raise *)

(** The exception classes the sources raise, catch or name in a retry
    policy.  [JSONDecodeError] is the [ValueError] subclass of [json], with
    the document that did not decode (its message is not modelled);
    [httpx_TimeoutException] and [httpx_NetworkError] are the transport
    classes of httpx with their subclasses; [aiohttp_ClientError] stands for
    the subclasses of [aiohttp.ClientError] that are not timeouts,
    [aiohttp_ServerTimeoutError] inherits from both [aiohttp.ClientError] and
    [asyncio.TimeoutError], and [asyncio_TimeoutError] is the plain timeout;
    [RetryError] is what tenacity raises when a policy gives up; [PyError]
    is an error of another built-in class, by the name of the class. *)
Inductive PyExn : Type :=
| ValueError (msg : string)
| JSONDecodeError (doc : string)
| PyError (cls msg : string)
| PlanParseError (msg : string)
| LLMClientError (msg : string)
| ODataClientError (msg : string) (status_code : option Z) (url : option string)
| httpx_TimeoutException (msg : string)
| httpx_NetworkError (msg : string)
| aiohttp_ClientError (msg : string)
| aiohttp_ServerTimeoutError (msg : string)
| asyncio_TimeoutError
| RetryError (last : PyExn).

(** [str(exc)]. *)
Definition exn_str (e : PyExn) : string :=
  match e with
  | JSONDecodeError _ => "JSONDecodeError"
  | ValueError m | PyError _ m | PlanParseError m
  | LLMClientError m | ODataClientError m _ _ | httpx_TimeoutException m
  | httpx_NetworkError m | aiohttp_ClientError m
  | aiohttp_ServerTimeoutError m => m
  | asyncio_TimeoutError => ""
  | RetryError _ => "RetryError"
  end.

Inductive Result (A : Type) : Type :=
| Ok (a : A)
| Raise (e : PyExn).
Arguments Ok {A} a.
Arguments Raise {A} e.

Definition bind {A B} (r : Result A) (k : A -> Result B) : Result B :=
  match r with
  | Ok a => k a
  | Raise e => Raise e
  end.

Notation "'let*' x ':=' c1 'in' c2" := (bind c1 (fun x => c2))
  (at level 10, x name, c1 at level 100, c2 at level 200).

(** ** Python values held by plans and parameter maps *)

(** A [float] is kept as its [repr] text with its truth value, the only two
    things the sources ask of it; date and datetime values are the naive
    ones of the [datetime] module. *)
Inductive PyValue : Type :=
| VNone
| VBool (b : bool)
| VInt (n : Z)
| VFloat (repr : string) (nonzero : bool)
| VStr (s : string)
| VDate (year month day : Z)
| VDatetime (year month day hour minute second microsecond : Z).

Definition iso_date (y m d : Z) : string :=
  PyStr.fmt4 y +:+ "-" +:+ PyStr.fmt2 m +:+ "-" +:+ PyStr.fmt2 d.

Definition iso_time (h mi s : Z) : string :=
  PyStr.fmt2 h +:+ ":" +:+ PyStr.fmt2 mi +:+ ":" +:+ PyStr.fmt2 s.

(** [datetime.isoformat()] of a naive value without microseconds. *)
Definition isoformat (y m d h mi s : Z) : string :=
  iso_date y m d +:+ "T" +:+ iso_time h mi s.

(** [str(value)]. *)
Definition py_str (v : PyValue) : string :=
  match v with
  | VNone => "None"
  | VBool true => "True"
  | VBool false => "False"
  | VInt n => PyStr.str_of_Z n
  | VFloat r _ => r
  | VStr s => s
  | VDate y m d => iso_date y m d
  | VDatetime y m d h mi s us =>
      iso_date y m d +:+ " " +:+ iso_time h mi s
      +:+ (if us =? 0 then "" else "." +:+ PyStr.zfill 6 (PyStr.str_of_Z us))
  end.

(** [bool(value)]. *)
Definition py_bool (v : PyValue) : bool :=
  match v with
  | VNone => false
  | VBool b => b
  | VInt n => negb (n =? 0)
  | VFloat _ nz => nz
  | VStr s => negb (String.eqb s "")
  | VDate _ _ _ => true
  | VDatetime _ _ _ _ _ _ _ => true
  end.


(** ** [datetime.strptime] for the directives the filter builder uses *)

Module Strptime.

Inductive directive := DY | Dm | Dd | DH | DM | DS.

(** One piece of a format: a directive, a run of white space (which the
    library turns into [\s+]) or a literal character. *)
Inductive item :=
| Dir (d : directive)
| Space
| Lit (c : ascii).

(** The format string read left to right; the six directives below are
    the only ones the sources write. *)
Fixpoint parse_format (fmt : string) : list item :=
  match fmt with
  | EmptyString => []
  | String "%" (String "Y" r) => Dir DY :: parse_format r
  | String "%" (String "m" r) => Dir Dm :: parse_format r
  | String "%" (String "d" r) => Dir Dd :: parse_format r
  | String "%" (String "H" r) => Dir DH :: parse_format r
  | String "%" (String "M" r) => Dir DM :: parse_format r
  | String "%" (String "S" r) => Dir DS :: parse_format r
  | String c r =>
      if PyStr.isspace c then
        match parse_format r with
        | Space :: _ as tl => tl
        | tl => Space :: tl
        end
      else Lit c :: parse_format r
  end.

(** A one-character class of the directives' regular expressions. *)
Inductive cls :=
| Digit                      (* \d *)
| Range (lo hi : Z)          (* [lo-hi] over the ASCII digits *)
| Blank.                     (* a literal space *)

Definition cls_matches (k : cls) (c : ascii) : bool :=
  match k with
  | Digit => PyStr.isdecimal c
  | Range lo hi =>
      PyStr.isdecimal c && (lo <=? PyStr.digit_value c) && (PyStr.digit_value c <=? hi)
  | Blank => Ascii.eqb c " "
  end.

(** The alternatives of each directive, in the order the library tries
    them. *)
Definition alternatives (d : directive) : list (list cls) :=
  match d with
  | DY => [[Digit; Digit; Digit; Digit]]
  | Dm => [[Range 1 1; Range 0 2]; [Range 0 0; Range 1 9]; [Range 1 9]]
  | Dd => [[Range 3 3; Range 0 1]; [Range 1 2; Digit]; [Range 0 0; Range 1 9];
           [Range 1 9]; [Blank; Range 1 9]]
  | DH => [[Range 2 2; Range 0 3]; [Range 0 1; Digit]; [Digit]]
  | DM => [[Range 0 5; Digit]; [Digit]]
  | DS => [[Range 6 6; Range 0 1]; [Range 0 5; Digit]; [Digit]]
  end.

(** Matching a sequence of classes at the head of the input: the number
    read (a blank counts for nothing, as [int] skips it) and the rest. *)
Fixpoint match_seq (ks : list cls) (s : string) (acc : Z) : option (Z * string) :=
  match ks, s with
  | [], _ => Some (acc, s)
  | _ :: _, EmptyString => None
  | k :: ks', String c s' =>
      if cls_matches k c
      then match_seq ks' s'
             (match k with Blank => acc | _ => acc * 10 + PyStr.digit_value c end)
      else None
  end.

Fixpoint match_alts (alts : list (list cls)) (s : string) : list (Z * string) :=
  match alts with
  | [] => []
  | a :: rest =>
      match match_seq a s 0 with
      | Some r => r :: match_alts rest s
      | None => match_alts rest s
      end
  end.

(** The ways [\s+] can match, longest first. *)
Fixpoint space_runs (s : string) : list string :=
  match s with
  | String c s' => if PyStr.isspace c then (space_runs s' ++ [s'])%list else []
  | EmptyString => []
  end.

Definition Fields := list (directive * Z).

Fixpoint first_success {A B} (l : list A) (k : A -> option B) : option B :=
  match l with
  | [] => None
  | x :: rest => match k x with Some r => Some r | None => first_success rest k end
  end.

(** The first match of the whole format in the library's search order
    (the expression is matched at the start of the input, ignoring case,
    and is not anchored at the end). *)
Fixpoint match_items (items : list item) (s : string) (acc : Fields)
  : option (Fields * string) :=
  match items with
  | [] => Some (acc, s)
  | Dir d :: rest =>
      first_success (match_alts (alternatives d) s)
        (fun '(v, s') => match_items rest s' (acc ++ [(d, v)])%list)
  | Space :: rest =>
      first_success (space_runs s) (fun s' => match_items rest s' acc)
  | Lit c :: rest =>
      match s with
      | String c' s' =>
          if Ascii.eqb (PyStr.lower_char c') (PyStr.lower_char c)
          then match_items rest s' acc else None
      | EmptyString => None
      end
  end.

Definition directive_eqb (a b : directive) : bool :=
  match a, b with
  | DY, DY | Dm, Dm | Dd, Dd | DH, DH | DM, DM | DS, DS => true
  | _, _ => false
  end.

(** The value a directive was given; a later occurrence overrides. *)
Fixpoint field_of (d : directive) (default : Z) (fs : Fields) : Z :=
  match fs with
  | [] => default
  | (d', v) :: rest => field_of d (if directive_eqb d d' then v else default) rest
  end.

Definition is_leap (y : Z) : bool :=
  (y mod 4 =? 0) && (negb (y mod 100 =? 0) || (y mod 400 =? 0)).

Definition days_in_month (y m : Z) : Z :=
  if m =? 2 then (if is_leap y then 29 else 28)
  else if (m =? 4) || (m =? 6) || (m =? 9) || (m =? 11) then 30 else 31.

Record datetime := mk_datetime
  { year : Z; month : Z; day : Z; hour : Z; minute : Z; second : Z }.

(** What the [datetime] constructor accepts. *)
Definition valid_datetime (t : datetime) : bool :=
  (1 <=? year t) && (year t <=? 9999)
  && (1 <=? month t) && (month t <=? 12)
  && (1 <=? day t) && (day t <=? days_in_month (year t) (month t))
  && (0 <=? hour t) && (hour t <=? 23)
  && (0 <=? minute t) && (minute t <=? 59)
  && (0 <=? second t) && (second t <=? 59).

(** [datetime.strptime(raw, fmt)]; [None] is its [ValueError]: the text
    does not match, text is left over, or the fields are not a date. *)
Definition strptime (raw fmt : string) : option datetime :=
  match match_items (parse_format fmt) raw [] with
  | Some (fs, EmptyString) =>
      let t := {| year := field_of DY 1900 fs; month := field_of Dm 1 fs;
                  day := field_of Dd 1 fs; hour := field_of DH 0 fs;
                  minute := field_of DM 0 fs; second := field_of DS 0 fs |} in
      if valid_datetime t then Some t else None
  | _ => None
  end.

End Strptime.


(** ** The plan model ([odata_tool/models.py]) *)

Inductive FilterOperator := EQ | NE | GT | LT | GE | LE.

(** [FilterOperator.value]. *)
Definition operator_value (op : FilterOperator) : string :=
  match op with
  | EQ => "eq" | NE => "ne" | GT => "gt" | LT => "lt" | GE => "ge" | LE => "le"
  end.

Inductive ValueType := TString | TNumber | TBoolean | TDatetime | TGuid.

Record FilterCondition := mkFilterCondition
  { field : string;
    operator : FilterOperator;
    value : PyValue;
    value_type : ValueType }.

Inductive Logic := And | Or.

Definition logic_str (l : Logic) : string :=
  match l with And => "and" | Or => "or" end.

(** A group owns an ordered list of members, each a condition or a nested
    group. *)
Inductive FilterGroup : Type :=
| mkFilterGroup (logic : Logic) (conditions : list FilterNode)
with FilterNode : Type :=
| Cond (c : FilterCondition)
| Group (g : FilterGroup).

Definition logic (g : FilterGroup) : Logic :=
  match g with mkFilterGroup l _ => l end.

Definition conditions (g : FilterGroup) : list FilterNode :=
  match g with mkFilterGroup _ cs => cs end.

Inductive Direction := Asc | Desc.

Definition direction_str (d : Direction) : string :=
  match d with Asc => "asc" | Desc => "desc" end.

Record QueryPlan := mkQueryPlan
  { entity : string;
    filter_group : option FilterGroup;
    select : list string;
    orderby : list (string * Direction);
    top : option Z;
    expand : list string }.

(** ** The filter renderer ([odata_tool/filter_builder.py]) *)

Module ODataFilterBuilder.

Import Strptime.

(** The formats of [_normalize_datetime] with their [add_time] flags, in
    the order of the source. *)
Definition patterns : list (string * bool) :=
  [ ("%Y-%m-%dT%H:%M:%S", false);
    ("%Y-%m-%dT%H:%M", true);
    ("%Y-%m-%d", true);
    ("%d.%m.%Y %H:%M:%S", false);
    ("%d.%m.%Y %H:%M", false);
    ("%d.%m.%Y", true) ].

Definition isoformat_of (t : datetime) : string :=
  isoformat (year t) (month t) (day t) (hour t) (minute t) (second t).

(** [parsed.replace(hour=0, minute=0, second=0, microsecond=0)]. *)
Definition at_midnight (t : datetime) : datetime :=
  {| year := year t; month := month t; day := day t;
     hour := 0; minute := 0; second := 0 |}.

(** The loop over the formats: the first one that parses decides. *)
Fixpoint try_patterns (pats : list (string * bool)) (raw : string) : option string :=
  match pats with
  | [] => None
  | (fmt, add_time) :: rest =>
      match strptime raw fmt with
      | Some parsed =>
          Some (isoformat_of (if add_time then at_midnight parsed else parsed))
      | None => try_patterns rest raw
      end
  end.

(** [while len(time_bits) < 3: time_bits.append("00")]. *)
Definition pad_time_bits (time_bits : list string) : list string :=
  (time_bits ++ repeat "00" (3 - List.length time_bits))%list.

Definition _normalize_datetime (value : PyValue) : Result string :=
  match value with
  | VDatetime y m d h mi s _ => Ok (isoformat y m d h mi s)
  | VDate y m d => Ok (isoformat y m d 0 0 0)
  | _ =>
      let raw := PyStr.strip (py_str value) in
      match try_patterns patterns raw with
      | Some normalized => Ok normalized
      | None =>
          if PyStr.contains raw "T" then
            let '(date_part, after) := PyStr.split1 "T" raw in
            let time_part := match after with Some t => t | None => "00:00:00" end in
            let time_bits := pad_time_bits (PyStr.split ":" time_part) in
            let normalized_time := PyStr.join ":" (firstn 3 time_bits) in
            Ok (date_part +:+ "T" +:+ normalized_time)
          else
            Raise (ValueError ("Unrecognized datetime format: " +:+ py_str value))
      end
  end.

Definition _format_value (value : PyValue) (value_type : ValueType) : Result string :=
  match value_type with
  | TString =>
      let escaped := PyStr.replace_char "'" "''" (py_str value) in
      Ok ("'" +:+ escaped +:+ "'")
  | TDatetime =>
      let* normalized := _normalize_datetime value in
      Ok ("datetime'" +:+ normalized +:+ "'")
  | TGuid => Ok ("guid'" +:+ py_str value +:+ "'")
  | TBoolean => Ok (if py_bool value then "true" else "false")
  | TNumber => Ok (py_str value)
  end.

Definition _render_condition (cond : FilterCondition) : Result string :=
  let operator := operator_value (operator cond) in
  let* value := _format_value (value cond) (value_type cond) in
  Ok (field cond +:+ " " +:+ operator +:+ " " +:+ value).

(** [p.startswith("(") and p.endswith(")")]. *)
Definition parenthesized (p : string) : bool :=
  PyStr.startswith p "(" && PyStr.endswith p ")".

Definition wrap (p : string) : string :=
  if parenthesized p then p else "(" +:+ p +:+ ")".

(** The tail of [_build_group], from [if not parts] on. *)
Definition assemble (l : Logic) (parts : list string) : string :=
  match parts with
  | [] => ""
  | [p] => p
  | _ =>
      let separator := " " +:+ logic_str l +:+ " " in
      PyStr.join separator (map wrap parts)
  end.

(** [_build_group]; the inner loop [collect] is the [for] that fills
    [parts]. *)
Fixpoint _build_group (group : FilterGroup) : Result string :=
  match group with
  | mkFilterGroup l conds =>
      let fix collect (cs : list FilterNode) : Result (list string) :=
        match cs with
        | [] => Ok []
        | Group g :: rest =>
            let* nested := _build_group g in
            let* parts := collect rest in
            Ok (if String.eqb nested "" then parts
                else ("(" +:+ nested +:+ ")") :: parts)
        | Cond c :: rest =>
            let* p := _render_condition c in
            let* parts := collect rest in
            Ok (p :: parts)
        end in
      let* parts := collect conds in
      Ok (assemble l parts)
  end.

(** The list [parts] of [_build_group] when its loop ends. *)
Fixpoint group_parts (cs : list FilterNode) : Result (list string) :=
  match cs with
  | [] => Ok []
  | Group g :: rest =>
      let* nested := _build_group g in
      let* parts := group_parts rest in
      Ok (if String.eqb nested "" then parts
          else ("(" +:+ nested +:+ ")") :: parts)
  | Cond c :: rest =>
      let* p := _render_condition c in
      let* parts := group_parts rest in
      Ok (p :: parts)
  end.

Definition build (group : option FilterGroup) : Result string :=
  match group with
  | None => Ok ""
  | Some g =>
      match conditions g with
      | [] => Ok ""
      | _ => _build_group g
      end
  end.

End ODataFilterBuilder.


(** ** Parameter maps *)

(** A [dict] from text keys to values, in insertion order. *)
Definition Dict := list (string * PyValue).

Fixpoint dict_get (k : string) (d : Dict) : option PyValue :=
  match d with
  | [] => None
  | (k', v) :: rest => if String.eqb k' k then Some v else dict_get k rest
  end.

(** [k in d]. *)
Definition dict_contains (k : string) (d : Dict) : bool :=
  match dict_get k d with Some _ => true | None => false end.

(** [d[k] = v]: an existing key keeps its place, a new one goes last. *)
Fixpoint dict_set (k : string) (v : PyValue) (d : Dict) : Dict :=
  match d with
  | [] => [(k, v)]
  | (k', v') :: rest =>
      if String.eqb k' k then (k, v) :: rest else (k', v') :: dict_set k v rest
  end.

(** [d.update(other)]. *)
Definition dict_update (d other : Dict) : Dict :=
  fold_left (fun acc kv => dict_set (fst kv) (snd kv) acc) other d.

(** [value is None or value == ""], which is also [value in (None, "")]. *)
Definition none_or_empty (v : PyValue) : bool :=
  match v with
  | VNone => true
  | VStr s => String.eqb s ""
  | _ => false
  end.

(** ** [urllib.parse.quote] *)

Module Quote.

Definition hex_digit (n : N) : ascii :=
  if (n <? 10)%N then ascii_of_N (48 + n) else ascii_of_N (55 + n).

Definition percent (b : N) : string :=
  String "%" (String (hex_digit (b / 16)) (String (hex_digit (b mod 16)) EmptyString)).

(** The UTF-8 bytes of one character. *)
Definition utf8 (c : ascii) : list N :=
  let n := PyStr.code c in
  if (n <? 128)%N then [n] else [(192 + n / 64)%N; (128 + n mod 64)%N].

(** Letters, digits and [_.-~] are never quoted. *)
Definition always_safe (c : ascii) : bool :=
  let n := PyStr.code c in
  ((65 <=? n) && (n <=? 90) || (97 <=? n) && (n <=? 122)
   || (48 <=? n) && (n <=? 57)
   || (n =? 95) || (n =? 46) || (n =? 45) || (n =? 126))%N.

Fixpoint mem (c : ascii) (s : string) : bool :=
  match s with
  | EmptyString => false
  | String c' s' => Ascii.eqb c c' || mem c s'
  end.

Definition quote_char (safe : string) (c : ascii) : string :=
  let n := PyStr.code c in
  if ((n <? 128)%N && (always_safe c || mem c safe))
  then String c EmptyString
  else String.concat "" (map percent (utf8 c)).

Fixpoint quote (s safe : string) : string :=
  match s with
  | EmptyString => EmptyString
  | String c s' => quote_char safe c +:+ quote s' safe
  end.

End Quote.

(** ** The URL encoder ([odata_tool/url_builder.py]) *)

Definition prefixes : list string :=
  ["Catalog"; "Document"; "InformationRegister"; "AccumulationRegister";
   "ChartOfAccounts"].

(** The [for prefix in prefixes] loop of [normalize_entity_name], on the
    stripped name. *)
Fixpoint normalize_with (ps : list string) (entity : string) : string :=
  match ps with
  | [] => entity
  | prefix :: rest =>
      if PyStr.startswith (PyStr.lower entity) (PyStr.lower prefix) then
        let rest_ := PyStr.lstrip_char "_" (PyStr.drop (String.length prefix) entity) in
        prefix +:+ "_" +:+ rest_
      else normalize_with rest entity
  end.

Definition normalize_entity_name (entity : string) : string :=
  if String.eqb entity "" then entity
  else normalize_with prefixes (PyStr.strip entity).

Module ODataUrlBuilder.

Definition SAFE_CHARS : string := "$'(),=<>:+-".

Definition _encode_filter (filter_str : string) : string :=
  Quote.quote filter_str SAFE_CHARS.

(** One round of the loop over the parameters: the text appended to
    [query_parts], if any. *)
Definition query_part (key : string) (value : PyValue) : option string :=
  if none_or_empty value then None
  else
    let encoded_value :=
      match value with
      | VStr v => if String.eqb key "$filter" then _encode_filter v
                  else Quote.quote (py_str value) "$,:'"
      | _ => Quote.quote (py_str value) "$,:'"
      end in
    let encoded_key := Quote.quote key "$" in
    Some (encoded_key +:+ "=" +:+ encoded_value).

Definition query_parts (normalized_params : Dict) : list string :=
  omap (fun kv => query_part (fst kv) (snd kv)) normalized_params.

Definition normalized_base_of (base_url : string) : string :=
  let base := PyStr.rstrip_char "/" base_url in
  let lower := PyStr.lower base in
  if PyStr.endswith lower "/odata/standard.odata" then base
  else if PyStr.endswith lower "/odata" then base +:+ "/standard.odata"
  else base +:+ "/odata/standard.odata".

Definition root_of (base_url entity : string) : string :=
  let fixed_entity := normalize_entity_name entity in
  let encoded_entity := Quote.quote fixed_entity "$()_-~." in
  normalized_base_of base_url +:+ "/" +:+ encoded_entity.

Definition build (base_url entity : string) (params : option Dict) : Result string :=
  if String.eqb base_url "" then
    Raise (ODataClientError "OData base URL is not configured" None None)
  else if String.eqb entity "" then
    Raise (ODataClientError "OData entity is not specified" None None)
  else
    let normalized_params := match params with Some d => d | None => [] end in
    let normalized_params :=
      if dict_contains "$format" normalized_params then normalized_params
      else dict_set "$format" (VStr "json") normalized_params in
    let root := root_of base_url entity in
    match query_parts normalized_params with
    | [] => Ok root
    | parts => Ok (root +:+ "?" +:+ PyStr.join "&" parts)
    end.

End ODataUrlBuilder.


(** ** The raw-parameter pass ([query_tool.py]) *)

Module QueryTool.

(** [\d{n}] at the head of the input: the digits and the rest. *)
Fixpoint take_digits (n : nat) (s : string) : option (string * string) :=
  match n, s with
  | O, _ => Some (EmptyString, s)
  | S n', String c s' =>
      if PyStr.isdecimal c then
        match take_digits n' s' with
        | Some (ds, r) => Some (String c ds, r)
        | None => None
        end
      else None
  | S _, EmptyString => None
  end.

(** One literal character at the head of the input. *)
Definition take_char (p : ascii -> bool) (s : string) : option (string * string) :=
  match s with
  | String c s' => if p c then Some (String c EmptyString, s') else None
  | EmptyString => None
  end.

Definition seq2 (a b : string -> option (string * string)) (s : string)
  : option (string * string) :=
  match a s with
  | Some (x, r) =>
      match b r with
      | Some (y, r') => Some (x +:+ y, r')
      | None => None
      end
  | None => None
  end.

Definition is_char (ch : ascii) (c : ascii) : bool := Ascii.eqb c ch.

(** [\d{4}-\d{2}-\d{2}]. *)
Definition date_part_re : string -> option (string * string) :=
  seq2 (take_digits 4) (seq2 (take_char (is_char "-"))
    (seq2 (take_digits 2) (seq2 (take_char (is_char "-")) (take_digits 2)))).

(** [[Tt]\d{2}:\d{2}:\d{2}]. *)
Definition time_part_re : string -> option (string * string) :=
  seq2 (take_char (fun c => is_char "T" c || is_char "t" c))
    (seq2 (take_digits 2) (seq2 (take_char (is_char ":"))
      (seq2 (take_digits 2) (seq2 (take_char (is_char ":")) (take_digits 2))))).

(** The part of [_DATE_RE] after its look-behinds, at the head of the
    input: group 1 and the text after the closing quote.  The optional
    time is tried first, as the greedy [?] does. *)
Definition quoted_date (s : string) : option (string * string) :=
  match s with
  | String "'" s1 =>
      match date_part_re s1 with
      | Some (d, r) =>
          let without_time :=
            match r with
            | String "'" r' => Some (d, r')
            | _ => None
            end in
          match time_part_re r with
          | Some (t, String "'" r') => Some (d +:+ t, r')
          | _ => without_time
          end
      | None => None
      end
  | _ => None
  end.

(** [_repl] of [_normalize_filter_dates], on group 1 of a match.  When the
    group has a [T] or a [t] the split has two pieces; the case without a
    second piece is there for totality only. *)
Definition _repl (raw : string) : string :=
  let '(date_part, time_part) :=
    if PyStr.contains raw "T" || PyStr.contains raw "t" then
      match PyStr.split1 "T" (PyStr.replace_char "t" "T" raw) with
      | (d, Some t) => (d, t)
      | (d, None) => (d, "")
      end
    else (raw, "00:00:00") in
  let parts := ODataFilterBuilder.pad_time_bits (PyStr.split ":" time_part) in
  let normalized_time := PyStr.join ":" (firstn 3 parts) in
  let normalized := date_part +:+ "T" +:+ normalized_time in
  "datetime'" +:+ normalized +:+ "'".

(** [_DATE_RE.sub(_repl, s)]: the scan from left to right.  [before] is
    the text already passed, last character first, for the two
    look-behinds; [skip] counts the characters of a match still to pass. *)
Fixpoint sub_dates (skip : nat) (before : string) (s : string) : string :=
  match s with
  | EmptyString => EmptyString
  | String c s' =>
      match skip with
      | S k => sub_dates k (String c before) s'
      | O =>
          let blocked :=
            PyStr.startswith before "emitetad" || PyStr.startswith before "'" in
          match (if blocked then None else quoted_date s) with
          | Some (raw, rest) =>
              _repl raw
              +:+ sub_dates (String.length s - String.length rest - 1)
                    (String c before) s'
          | None => String c (sub_dates O (String c before) s')
          end
      end
  end.

Definition _normalize_filter_dates (filter_expr : string) : string :=
  if PyStr.contains (PyStr.lower filter_expr) "datetime'" then filter_expr
  else sub_dates O EmptyString filter_expr.

Definition keywords : list string :=
  ["filter"; "select"; "top"; "orderby"; "format"; "expand"].

Definition is_keyword (bare : string) : bool :=
  existsb (String.eqb bare) keywords.

(** The key under which an entry is stored, once stripped. *)
Definition canonical_key (key : string) : string :=
  let bare := PyStr.lower (PyStr.lstrip_char "$" key) in
  if negb (PyStr.startswith key "$") && is_keyword bare
  then "$" +:+ bare else key.

(** One round of the loop of [normalize_params]. *)
Definition normalize_entry (normalized : Dict) (entry : string * PyValue) : Dict :=
  let '(key, value) := entry in
  if none_or_empty value then normalized
  else
    let key := PyStr.strip key in
    if String.eqb key "" then normalized
    else
      let key := canonical_key key in
      let value :=
        if String.eqb key "$format" && negb (py_bool value)
        then VStr "json" else value in
      let value :=
        match value with
        | VStr v => if String.eqb key "$filter"
                    then VStr (_normalize_filter_dates v) else value
        | _ => value
        end in
      dict_set key value normalized.

Definition normalize_params (params : option Dict) : Dict :=
  match params with
  | None => [("$format", VStr "json")]
  | Some ps =>
      let normalized := fold_left normalize_entry ps [] in
      if dict_contains "$format" normalized then normalized
      else dict_set "$format" (VStr "json") normalized
  end.

End QueryTool.


(** ** The validator and repairer ([odata_tool/plan_validator.py]) *)

(** A record of the metadata index, with the three keys the validator
    reads. *)
Record MetadataItem := mkMetadataItem
  { m_type : string;
    m_name : string;
    m_fields : list string }.

Module PlanValidator.

Record t := mk
  { entities : gset string;
    fields_by_entity : gmap string (gset string) }.

Definition entity_of (item : MetadataItem) : string :=
  m_type item +:+ "_" +:+ m_name item.

Definition _build_fields_index (metadata : list MetadataItem)
  : gmap string (gset string) :=
  fold_left (fun index item => <[entity_of item := list_to_set (m_fields item)]> index)
    metadata ∅.

(** [PlanValidator(metadata)]. *)
Definition new (metadata : list MetadataItem) : t :=
  {| entities := list_to_set (map entity_of metadata);
     fields_by_entity := _build_fields_index metadata |}.

(** [self.fields_by_entity.get(plan.entity, set())]. *)
Definition valid_fields_of (self : t) (plan : QueryPlan) : gset string :=
  default ∅ (fields_by_entity self !! entity plan).

(** [valid_fields and name not in valid_fields]. *)
Definition unknown (valid_fields : gset string) (name : string) : bool :=
  negb (bool_decide (valid_fields = ∅)) && negb (bool_decide (name ∈ valid_fields)).

Fixpoint _check_fields (group : FilterGroup) (valid_fields : gset string) : list string :=
  match group with
  | mkFilterGroup _ conds =>
      let fix go (cs : list FilterNode) : list string :=
        match cs with
        | [] => []
        | Group g :: rest => (_check_fields g valid_fields ++ go rest)%list
        | Cond c :: rest =>
            if unknown valid_fields (field c)
            then ("Unknown field in filter: " +:+ field c) :: go rest
            else go rest
        end in
      go conds
  end.

(** [validate]: the unknown-entity error, then the errors of the filter,
    then one error for each unknown name of [select] and of [orderby], in
    order. *)
Definition validate (self : t) (plan : QueryPlan) : list string :=
  let errors :=
    if bool_decide (entity plan ∈ entities self) then []
    else ["Unknown entity: " +:+ entity plan] in
  let valid_fields := valid_fields_of self plan in
  let errors :=
    match filter_group plan with
    | Some g => (errors ++ _check_fields g valid_fields)%list
    | None => errors
    end in
  let errors :=
    (errors ++ map (fun f => "Unknown field in select: " +:+ f)
                 (filter (fun f => unknown valid_fields f = true) (select plan)))%list in
  let errors :=
    (errors ++ map (fun f => "Unknown field in orderby: " +:+ f)
                 (filter (fun f => unknown valid_fields f = true)
                    (map fst (orderby plan))))%list in
  errors.

(** [_fix_group]: every condition of the tree gets [fixer] applied to its
    field. *)
Fixpoint _fix_group (group : FilterGroup) (fixer : string -> string) : FilterGroup :=
  match group with
  | mkFilterGroup l conds =>
      let fix go (cs : list FilterNode) : list FilterNode :=
        match cs with
        | [] => []
        | Group g :: rest => Group (_fix_group g fixer) :: go rest
        | Cond c :: rest =>
            Cond {| field := fixer (field c); operator := operator c;
                    value := value c; value_type := value_type c |} :: go rest
        end in
      mkFilterGroup l (go conds)
  end.

Section Fuzzy.

(** The two things the repair asks of its environment: the score
    [fuzz.WRatio] gives a name against a choice, as [process.extractOne]
    computes it, and the order in which a [set] is listed. *)
Variable scorer : string -> string -> Z.
Variable set_order : gset string -> list string.

(** The best choice so far against the remaining ones: a later choice
    wins only with a strictly higher score. *)
Fixpoint best_of (query : string) (best : string * Z) (choices : list string)
  : string * Z :=
  match choices with
  | [] => best
  | c :: rest =>
      let sc := scorer query c in
      if snd best <? sc then best_of query (c, sc) rest
      else best_of query best rest
  end.

(** [process.extractOne(query, choices, scorer=fuzz.WRatio)]. *)
Definition extractOne (query : string) (choices : list string)
  : option (string * Z) :=
  match choices with
  | [] => None
  | c :: rest => Some (best_of query (c, scorer query c) rest)
  end.

Definition _fix_field (valid_fields : gset string) (name : string) : string :=
  match extractOne name (set_order valid_fields) with
  | Some best => fst best
  | None => name
  end.

Definition suggest_fixes (self : t) (plan : QueryPlan) (errors : list string)
  : QueryPlan :=
  match errors with
  | [] => plan
  | _ =>
      let valid_fields := valid_fields_of self plan in
      if bool_decide (valid_fields = ∅) then plan
      else
        let fix_unless_valid f :=
          if bool_decide (f ∈ valid_fields) then f else _fix_field valid_fields f in
        {| entity := entity plan;
           filter_group :=
             match filter_group plan with
             | Some g => Some (_fix_group g (_fix_field valid_fields))
             | None => None
             end;
           select := map fix_unless_valid (select plan);
           orderby := map (fun fd => (fix_unless_valid (fst fd), snd fd)) (orderby plan);
           top := top plan;
           expand := expand plan |}
  end.

End Fuzzy.

End PlanValidator.


(** ** JSON values *)

#[local] Set Warnings "-register-all".

(** The numbers [json.loads] builds.  A literal without fraction and
    exponent is an [int]; any other is the [float] nearest to its decimal
    value, kept here as that value, [mantissa * 10 ^ exponent]; the three
    constants the decoder accepts besides are floats too. *)
Inductive PyNumber : Type :=
| PyInt (n : Z)
| PyFloat (mantissa exponent : Z)
| PyNaN
| PyInfinity (negative : bool).

(** What [json.loads] and [response.json()] build: an object is a
    [dict] with its keys in first-seen order. *)
Inductive JSON : Type :=
| JNull
| JBool (b : bool)
| JNumber (n : PyNumber)
| JString (s : string)
| JArray (items : list JSON)
| JObject (members : list (string * JSON)).

Module Json.

Fixpoint obj_get (k : string) (ms : list (string * JSON)) : option JSON :=
  match ms with
  | [] => None
  | (k', v) :: rest => if String.eqb k' k then Some v else obj_get k rest
  end.

Fixpoint obj_set (k : string) (v : JSON) (ms : list (string * JSON))
  : list (string * JSON) :=
  match ms with
  | [] => [(k, v)]
  | (k', v') :: rest =>
      if String.eqb k' k then (k, v) :: rest else (k', v') :: obj_set k v rest
  end.

(** The [dict] of an object's pairs: a repeated key keeps its first
    place and its last value. *)
Definition of_pairs (pairs : list (string * JSON)) : list (string * JSON) :=
  fold_left (fun d kv => obj_set (fst kv) (snd kv) d) pairs [].

(** The double quote. *)
Definition dquote : ascii := ascii_of_N 34.

Definition is_ws (c : ascii) : bool :=
  let n := PyStr.code c in ((n =? 32) || (n =? 9) || (n =? 10) || (n =? 13))%N.

Fixpoint skip_ws (s : string) : string :=
  match s with
  | String c r => if is_ws c then skip_ws r else s
  | EmptyString => EmptyString
  end.

Definition hex_value (c : ascii) : option N :=
  let n := PyStr.code c in
  if PyStr.isdecimal c then Some (n - 48)%N
  else if ((65 <=? n) && (n <=? 70))%N then Some (n - 55)%N
  else if ((97 <=? n) && (n <=? 102))%N then Some (n - 87)%N
  else None.

(** The text of a string after its opening quote, up to the closing one.
    A [\uXXXX] escape below 256 is decoded; one beyond the text model is
    kept as written. *)
Fixpoint string_body (s : string) : option (string * string) :=
  match s with
  | EmptyString => None
  | String c r =>
      if Ascii.eqb c dquote then Some (EmptyString, r)
      else if Ascii.eqb c "\" then
        match r with
        | String e r1 =>
            let simple (d : ascii) :=
              match string_body r1 with
              | Some (t, r') => Some (String d t, r')
              | None => None
              end in
            if Ascii.eqb e dquote then simple dquote
            else if Ascii.eqb e "\" then simple "\"%char
            else if Ascii.eqb e "/" then simple "/"%char
            else if Ascii.eqb e "b" then simple (ascii_of_N 8)
            else if Ascii.eqb e "f" then simple (ascii_of_N 12)
            else if Ascii.eqb e "n" then simple (ascii_of_N 10)
            else if Ascii.eqb e "r" then simple (ascii_of_N 13)
            else if Ascii.eqb e "t" then simple (ascii_of_N 9)
            else if Ascii.eqb e "u" then
              match r1 with
              | String h1 (String h2 (String h3 (String h4 r2))) =>
                  match hex_value h1, hex_value h2, hex_value h3, hex_value h4,
                        string_body r2 with
                  | Some a, Some b, Some c', Some d, Some (t, r') =>
                      let n := (((a * 16 + b) * 16 + c') * 16 + d)%N in
                      if (n <? 256)%N then Some (String (ascii_of_N n) t, r')
                      else Some (String "\" (String "u" (String h1 (String h2
                                   (String h3 (String h4 t))))), r')
                  | _, _, _, _, _ => None
                  end
              | _ => None
              end
            else None
        | EmptyString => None
        end
      else if (PyStr.code c <? 32)%N then None
      else match string_body r with
           | Some (t, r') => Some (String c t, r')
           | None => None
           end
  end.

(** [\d*] and [\d+] at the head of the input. *)
Fixpoint digits0 (s : string) : string * string :=
  match s with
  | String c r =>
      if PyStr.isdecimal c then let '(d, r') := digits0 r in (String c d, r')
      else (EmptyString, s)
  | EmptyString => (EmptyString, EmptyString)
  end.

Definition digits1 (s : string) : option (string * string) :=
  match digits0 s with
  | (EmptyString, _) => None
  | (d, r) => Some (d, r)
  end.

(** [int(digits)] for a run of decimal digits. *)
Fixpoint digits_value (acc : Z) (digits : string) : Z :=
  match digits with
  | EmptyString => acc
  | String c r => digits_value (10 * acc + PyStr.digit_value c) r
  end.

(** A number: an optional sign, [0] or a run of digits without a leading
    zero, then an optional fraction (a dot and digits) and an optional
    exponent (e or E, an optional sign, digits); a fraction or exponent
    that is not complete is left in the input.  Without fraction and
    exponent the value is [int(text)], with one of them [float(text)]. *)
Definition number (s : string) : option (PyNumber * string) :=
  let '(negative, s1) :=
    match s with
    | String "-" r => (true, r)
    | _ => (false, s)
    end in
  let integer :=
    match s1 with
    | String "0" r => Some ("0", r)
    | String c _ => if PyStr.isdecimal c then Some (digits0 s1) else None
    | EmptyString => None
    end in
  match integer with
  | None => None
  | Some (i, s2) =>
      let '(frac, s3) :=
        match s2 with
        | String "." r =>
            match digits1 r with
            | Some (d, r') => (Some d, r')
            | None => (None, s2)
            end
        | _ => (None, s2)
        end in
      let '(exp, s4) :=
        match s3 with
        | String e r =>
            if Ascii.eqb e "e" || Ascii.eqb e "E" then
              let '(minus, r1) :=
                match r with
                | String "+" r' => (false, r')
                | String "-" r' => (true, r')
                | _ => (false, r)
                end in
              match digits1 r1 with
              | Some (d, r') =>
                  (Some (if minus then - digits_value 0 d else digits_value 0 d), r')
              | None => (None, s3)
              end
            else (None, s3)
        | EmptyString => (None, s3)
        end in
      let signed (n : Z) := if negative then - n else n in
      let n :=
        match frac, exp with
        | None, None => PyInt (signed (digits_value 0 i))
        | _, _ =>
            let f := match frac with Some d => d | None => "" end in
            let e := match exp with Some e => e | None => 0 end in
            PyFloat (signed (digits_value 0 (i +:+ f)))
                    (e - Z.of_nat (String.length f))
        end in
      Some (n, s4)
  end.

Definition literal (word : string) (v : JSON) (s : string) : option (JSON * string) :=
  if PyStr.startswith s word then Some (v, PyStr.drop (String.length word) s)
  else None.

Definition scalar (s : string) : option (JSON * string) :=
  match literal "null" JNull s with Some r => Some r | None =>
  match literal "true" (JBool true) s with Some r => Some r | None =>
  match literal "false" (JBool false) s with Some r => Some r | None =>
  match literal "NaN" (JNumber PyNaN) s with Some r => Some r | None =>
  match literal "Infinity" (JNumber (PyInfinity false)) s with Some r => Some r | None =>
  match literal "-Infinity" (JNumber (PyInfinity true)) s with Some r => Some r | None =>
  match number s with
  | Some (n, r) => Some (JNumber n, r)
  | None => None
  end end end end end end end.

(** One value at the head of the input; [elements] and [members] read
    the items of an array and the pairs of an object, in order. *)
Fixpoint value (fuel : nat) (s : string) {struct fuel} : option (JSON * string) :=
  match fuel with
  | O => None
  | S f =>
      match s with
      | String c r =>
          if Ascii.eqb c "{" then
            match skip_ws r with
            | String "}" r' => Some (JObject [], r')
            | r1 =>
                match members f r1 with
                | Some (ms, r') => Some (JObject (of_pairs ms), r')
                | None => None
                end
            end
          else if Ascii.eqb c "[" then
            match skip_ws r with
            | String "]" r' => Some (JArray [], r')
            | r1 =>
                match elements f r1 with
                | Some (vs, r') => Some (JArray vs, r')
                | None => None
                end
            end
          else if Ascii.eqb c dquote then
            match string_body r with
            | Some (t, r') => Some (JString t, r')
            | None => None
            end
          else scalar s
      | EmptyString => None
      end
  end
with elements (fuel : nat) (s : string) {struct fuel} : option (list JSON * string) :=
  match fuel with
  | O => None
  | S f =>
      match value f s with
      | Some (v, r) =>
          match skip_ws r with
          | String "," r' =>
              match elements f (skip_ws r') with
              | Some (vs, r'') => Some (v :: vs, r'')
              | None => None
              end
          | String "]" r' => Some ([v], r')
          | _ => None
          end
      | None => None
      end
  end
with members (fuel : nat) (s : string) {struct fuel}
  : option (list (string * JSON) * string) :=
  match fuel with
  | O => None
  | S f =>
      match (if PyStr.startswith s (String dquote EmptyString)
             then string_body (PyStr.drop 1 s) else None) with
      | Some (k, r1) =>
          match skip_ws r1 with
          | String ":" r2 =>
              match value f (skip_ws r2) with
              | Some (v, r3) =>
                  match skip_ws r3 with
                  | String "," r4 =>
                      match members f (skip_ws r4) with
                      | Some (ms, r5) => Some ((k, v) :: ms, r5)
                      | None => None
                      end
                  | String "}" r4 => Some ([(k, v)], r4)
                  | _ => None
                  end
              | None => None
              end
          | _ => None
          end
      | None => None
      end
  end.

(** A decoder with the grammar of [json.loads]: one value between
    optional white space, nothing after it.  [None] is its
    [JSONDecodeError]. *)
Definition loads (s : string) : option JSON :=
  match value (2 * String.length s + 2) (skip_ws s) with
  | Some (v, r) =>
      match skip_ws r with
      | EmptyString => Some v
      | _ => None
      end
  | None => None
  end.

(** What a call of [json.loads] on a text raises: its own
    [JSONDecodeError] for a text that is not JSON, or one of the errors
    that are not of that class, [RecursionError] for a nesting deeper
    than the interpreter allows and the plain [ValueError] for an integer
    with more digits than the interpreter converts. *)
Inductive LoadsError : Type :=
| NotJSON
| TooDeep (msg : string)
| TooManyDigits (msg : string).

Inductive Loaded : Type :=
| Decoded (v : JSON)
| Fails (e : LoadsError).

(** The exception of a failed call on the document [doc]. *)
Definition loads_exn (doc : string) (e : LoadsError) : PyExn :=
  match e with
  | NotJSON => JSONDecodeError doc
  | TooDeep msg => PyError "RecursionError" msg
  | TooManyDigits msg => ValueError msg
  end.

(** [json.loads] on a text within the two limits of the interpreter,
    where the grammar decides alone. *)
Definition loads_text (s : string) : Loaded :=
  match loads s with
  | Some v => Decoded v
  | None => Fails NotJSON
  end.

End Json.


(** ** The plan generator ([odata_tool/llm_client.py]) *)

Module LLM.

(** [_JSON_PATTERN.search(raw)]: the pattern is an opening brace, any
    text (line ends included, as much as possible) and a closing brace,
    so the match runs from the first opening brace to the last closing
    brace after it. *)
Fixpoint upto_last_brace (s : string) : option string :=
  match s with
  | EmptyString => None
  | String c r =>
      match upto_last_brace r with
      | Some p => Some (String c p)
      | None => if Ascii.eqb c "}" then Some (String c EmptyString) else None
      end
  end.

Fixpoint _JSON_PATTERN_search (s : string) : option string :=
  match s with
  | EmptyString => None
  | String c r =>
      if Ascii.eqb c "{" then
        match upto_last_brace r with
        | Some p => Some (String c p)
        | None => None
        end
      else _JSON_PATTERN_search r
  end.

(** Whether the [float] nearest to [mantissa * 10 ^ exponent] is zero:
    the conversion rounds to the nearest double, ties to even, and the
    smallest double above zero is [2 ^ -1074], so a value becomes [0.0]
    exactly when it is at most [2 ^ -1075] in size. *)
Definition float_is_zero (mantissa exponent : Z) : bool :=
  (mantissa =? 0)
  || ((exponent <? 0) && (Z.abs mantissa * 2 ^ 1075 <=? 10 ^ (- exponent))).

(** [bool(n)] for a number. *)
Definition number_truthy (n : PyNumber) : bool :=
  match n with
  | PyInt z => negb (z =? 0)
  | PyFloat m e => negb (float_is_zero m e)
  | PyNaN => true
  | PyInfinity _ => true
  end.

(** Truth value of a decoded JSON value. *)
Definition truthy (j : JSON) : bool :=
  match j with
  | JNull => false
  | JBool b => b
  | JNumber n => number_truthy n
  | JString s => negb (String.eqb s "")
  | JArray l => match l with [] => false | _ => true end
  | JObject ms => match ms with [] => false | _ => true end
  end.

(** [key in obj] for a text key. *)
Definition py_in (key : string) (obj : JSON) : Result bool :=
  match obj with
  | JObject ms => Ok (match Json.obj_get key ms with Some _ => true | None => false end)
  | JArray l =>
      Ok (existsb (fun x => match x with JString s => String.eqb s key | _ => false end) l)
  | JString s => Ok (PyStr.contains s key)
  | _ => Raise (PyError "TypeError" "argument is not iterable")
  end.

(** [obj[key]] for a text key. *)
Definition getitem (obj : JSON) (key : string) : Result JSON :=
  match obj with
  | JObject ms =>
      match Json.obj_get key ms with
      | Some v => Ok v
      | None => Raise (PyError "KeyError" key)
      end
  | _ => Raise (PyError "TypeError" "indices must be integers")
  end.

(** [obj[0]]. *)
Definition getitem0 (obj : JSON) : Result JSON :=
  match obj with
  | JArray (x :: _) => Ok x
  | JArray [] => Raise (PyError "IndexError" "list index out of range")
  | JString (String c _) => Ok (JString (String c EmptyString))
  | JString EmptyString => Raise (PyError "IndexError" "string index out of range")
  | JObject _ => Raise (PyError "KeyError" "0")
  | _ => Raise (PyError "TypeError" "object is not subscriptable")
  end.

(** [obj.get(key)]. *)
Definition get (obj : JSON) (key : string) : Result JSON :=
  match obj with
  | JObject ms => Ok (match Json.obj_get key ms with Some v => v | None => JNull end)
  | _ => Raise (PyError "AttributeError" "object has no attribute 'get'")
  end.

(** [key in obj and isinstance(obj[key], str)], with the text found. *)
Definition str_at (obj : JSON) (key : string) : Result (option string) :=
  let* present := py_in key obj in
  if present then
    let* v := getitem obj key in
    Ok (match v with JString s => Some s | _ => None end)
  else Ok None.

Definition no_text : PyExn :=
  LLMClientError "Unexpected LLM response format, no text content found".

Definition result_or_fail (payload : JSON) : Result string :=
  let* r := str_at payload "result" in
  match r with
  | Some s => Ok s
  | None => Raise no_text
  end.

Definition _extract_llm_text (payload : JSON) : Result string :=
  let* has_choices := py_in "choices" payload in
  let* choices := if has_choices then getitem payload "choices" else Ok JNull in
  if has_choices && truthy choices then
    let* choice := getitem0 choices in
    let* m := get choice "message" in
    let message := if truthy m then m else JObject [] in
    let* content := str_at message "content" in
    match content with
    | Some s => Ok s
    | None =>
        let* text := str_at choice "text" in
        match text with
        | Some s => Ok s
        | None => result_or_fail payload
        end
    end
  else result_or_fail payload.

Section Parsing.

(** [json.loads], and [QueryPlan.model_validate], which builds the
    plan or raises. *)
Variable json_loads : string -> Json.Loaded.
Variable model_validate : JSON -> Result QueryPlan.

Definition _parse_structured_plan (text : string) : Result QueryPlan :=
  if String.eqb text "" || String.eqb (PyStr.strip text) "" then
    Raise (PlanParseError "LLM response is empty")
  else
    let raw := PyStr.strip text in
    let* parsed :=
      match json_loads raw with
      | Json.Decoded parsed => Ok parsed
      | Json.Fails Json.NotJSON =>
          match _JSON_PATTERN_search raw with
          | None => Raise (PlanParseError "LLM response is not valid JSON")
          | Some span =>
              match json_loads span with
              | Json.Decoded parsed => Ok parsed
              | Json.Fails e => Raise (Json.loads_exn span e)
              end
          end
      | Json.Fails e => Raise (Json.loads_exn raw e)
      end in
    match model_validate parsed with
    | Ok plan => Ok plan
    | Raise exc =>
        Raise (PlanParseError ("Invalid plan structure: " +:+ exn_str exc))
    end.

(** The last lines of [generate_plan]: the parse of the assistant
    text, where a [PlanParseError] is raised again with the raw text. *)
Definition parse_with_raw (text : string) : Result QueryPlan :=
  match _parse_structured_plan text with
  | Raise (PlanParseError msg) =>
      Raise (PlanParseError (msg +:+ ". Raw: " +:+ text))
  | r => r
  end.

End Parsing.

End LLM.

(** ** Retry policies (the [tenacity] decorators of the two clients) *)

(** What a client has done so far: the HTTP requests it has sent, the times
    the decorated body has run, and the waits between attempts, in
    milliseconds. *)
Record World := mkWorld
  { requests : nat;
    attempts : nat;
    slept : list Z }.

Definition world0 : World := {| requests := 0; attempts := 0; slept := [] |}.

Definition begin_attempt (w : World) : World :=
  {| requests := requests w; attempts := S (attempts w); slept := slept w |}.

Definition sent (w : World) : World :=
  {| requests := S (requests w); attempts := attempts w; slept := slept w |}.

Definition sleep (ms : Z) (w : World) : World :=
  {| requests := requests w; attempts := attempts w; slept := (slept w ++ [ms])%list |}.

Module Tenacity.

(** [retry(stop=stop_after_attempt(n), wait=wait_exponential(multiplier,
    min, max), retry=retry_if_exception_type(classes))], times in
    milliseconds. *)
Record Policy := mkPolicy
  { stop_after_attempt : nat;
    multiplier : Z;
    min_wait : Z;
    max_wait : Z;
    retry_if_exception_type : PyExn -> bool }.

(** [wait_exponential] after attempt [attempt_number] (counted from 1). *)
Definition wait_exponential (p : Policy) (attempt_number : nat) : Z :=
  let result := multiplier p * 2 ^ Z.of_nat (attempt_number - 1) in
  Z.max (Z.max 0 (min_wait p)) (Z.min result (max_wait p)).

Section Retry.

Context {A : Type}.
Variable policy : Policy.
Variable body : World -> Result A * World.

(** The loop of the decorator: an exception outside the retried
    classes is raised as it is; a retried one ends the call with
    [RetryError] once the attempts are used up, and otherwise the
    policy waits and runs the body again.  [left] counts the attempts
    left after this one. *)
Fixpoint attempt (left : nat) (attempt_number : nat) (w : World)
  : Result A * World :=
  let '(r, w1) := body w in
  match r with
  | Ok a => (Ok a, w1)
  | Raise e =>
      if retry_if_exception_type policy e then
        match left with
        | O => (Raise (RetryError e), w1)
        | S left' =>
            attempt left' (S attempt_number)
              (sleep (wait_exponential policy attempt_number) w1)
        end
      else (Raise e, w1)
  end.

(** The decorated function.  Without the [tenacity] package the
    modules fall back to a decorator that returns the function
    unchanged. *)
Definition retry (tenacity_installed : bool) (w : World) : Result A * World :=
  if tenacity_installed then attempt (stop_after_attempt policy - 1) 1 w
  else body w.

End Retry.

End Tenacity.

(** ** [LLMClient.generate_plan] *)

Module LLMClient.

Record t := mk
  { api_key : string;
    model_id : string;
    base_url : string;
    auth_scheme : string;
    use_structured_output : bool }.

(** What one POST to the backend comes to: an exception of the HTTP
    library, or a response with its status, its text and what
    [response.json()] gives. *)
Record Response := mkResponse
  { status_code : Z;
    text : string;
    json : Result JSON }.

Inductive PostOutcome :=
| PostFails (e : PyExn)
| PostResponds (r : Response).

Definition policy : Tenacity.Policy :=
  {| Tenacity.stop_after_attempt := 3;
     Tenacity.multiplier := 1000;
     Tenacity.min_wait := 1000;
     Tenacity.max_wait := 10000;
     Tenacity.retry_if_exception_type := fun e =>
       match e with
       | httpx_TimeoutException _ | httpx_NetworkError _ => true
       | _ => false
       end |}.

Section Client.

Variable json_loads : string -> Json.Loaded.
Variable model_validate : JSON -> Result QueryPlan.
(** The backend: the outcome of the n-th request sent, given whether
    the request asks for a JSON object; and the time an attempt
    measures. *)
Variable backend : nat -> bool -> PostOutcome.
Variable clock : nat -> Z.

(** From [if response.status_code >= 400] to the end. *)
Definition after_response (response : Response) (elapsed_ms : Z)
  : Result (QueryPlan * Z * string) :=
  if 400 <=? status_code response then
    Raise (LLMClientError ("LLM HTTP " +:+ PyStr.str_of_Z (status_code response)
                           +:+ ": " +:+ text response))
  else
    match json response with
    | Raise exc =>
        Raise (LLMClientError ("Cannot decode LLM response JSON: " +:+ exn_str exc))
    | Ok payload_json =>
        let* text := LLM._extract_llm_text payload_json in
        let* plan := LLM.parse_with_raw json_loads model_validate text in
        Ok (plan, elapsed_ms, text)
    end.

Definition request_failed (exc : PyExn) : PyExn :=
  LLMClientError ("LLM request failed: " +:+ exn_str exc).

(** The body under the decorator. *)
Definition generate_plan_body (self : t) (w : World)
  : Result (QueryPlan * Z * string) * World :=
  let w := begin_attempt w in
  if String.eqb (api_key self) "" then
    (Raise (LLMClientError "API_KEY is not set"), w)
  else if String.eqb (model_id self) "" then
    (Raise (LLMClientError "CLOUD_MODEL_ID is not set"), w)
  else
    let elapsed_ms := clock (attempts w) in
    match backend (requests w) (use_structured_output self) with
    | PostFails exc => (Raise (request_failed exc), sent w)
    | PostResponds response =>
        let w := sent w in
        if (400 <=? status_code response) && use_structured_output self then
          match backend (requests w) false with
          | PostFails exc => (Raise (request_failed exc), sent w)
          | PostResponds response => (after_response response elapsed_ms, sent w)
          end
        else (after_response response elapsed_ms, w)
    end.

Definition generate_plan (tenacity_installed : bool) (self : t) (w : World)
  : Result (QueryPlan * Z * string) * World :=
  Tenacity.retry policy (generate_plan_body self) tenacity_installed w.

End Client.

End LLMClient.

(** ** [ODataClient.fetch] ([odata_tool/odata_client.py]) *)

Module ODataClient.

Record t := mk
  { base_url : string;
    username : string;
    password : string }.

Record Response := mkResponse
  { status : Z;
    text : string;
    json : Result JSON }.

Inductive GetOutcome :=
| GetFails (e : PyExn)
| GetResponds (r : Response).

Record Envelope := mkEnvelope
  { url : string;
    payload : JSON;
    elapsed_ms : Z;
    status_code : Z;
    params : Dict }.

Definition policy : Tenacity.Policy :=
  {| Tenacity.stop_after_attempt := 3;
     Tenacity.multiplier := 500;
     Tenacity.min_wait := 500;
     Tenacity.max_wait := 5000;
     Tenacity.retry_if_exception_type := fun e =>
       match e with
       | aiohttp_ClientError _ | aiohttp_ServerTimeoutError _
       | asyncio_TimeoutError => true
       | _ => false
       end |}.

(** [aiohttp.BasicAuth(login, password, encoding="utf-8")]: the
    constructor refuses a login with a colon in it. *)
Definition colon_in_login : string :=
  "A " +:+ String Json.dquote (":" +:+ String Json.dquote
    " is not allowed in login (RFC 1945#section-11.1)").

Definition BasicAuth (login password : string) : Result (string * string) :=
  if PyStr.contains login ":" then Raise (ValueError colon_in_login)
  else Ok (login, password).

(** The [auth] of a request: credentials when the client has a user
    name or a password, [None] otherwise. *)
Definition auth_of (self : t) : Result (option (string * string)) :=
  if negb (String.eqb (username self) "") || negb (String.eqb (password self) "") then
    let* auth := BasicAuth (username self) (password self) in
    Ok (Some auth)
  else Ok None.

(** [isinstance(exc, aiohttp.ClientError)]. *)
Definition is_ClientError (e : PyExn) : bool :=
  match e with
  | aiohttp_ClientError _ | aiohttp_ServerTimeoutError _ => true
  | _ => false
  end.

Definition set_if (cond : bool) (k : string) (v : PyValue) (d : Dict) : Dict :=
  if cond then dict_set k v d else d.

(** The parameters [fetch] compiles from a plan. *)
Definition plan_params (plan : QueryPlan) (extra_params : option Dict)
  : Result Dict :=
  let* params :=
    match filter_group plan with
    | Some g =>
        let* filter_str := ODataFilterBuilder.build (Some g) in
        Ok (set_if (negb (String.eqb filter_str "")) "$filter" (VStr filter_str) [])
    | None => Ok []
    end in
  let params :=
    set_if (match select plan with [] => false | _ => true end)
      "$select" (VStr (PyStr.join "," (select plan))) params in
  let params :=
    match top plan with
    | Some n => set_if (negb (n =? 0)) "$top" (VInt n) params
    | None => params
    end in
  let order_parts :=
    map (fun fd => fst fd +:+ " " +:+ direction_str (snd fd)) (orderby plan) in
  let params :=
    set_if (match orderby plan with [] => false | _ => true end)
      "$orderby" (VStr (PyStr.join "," order_parts)) params in
  let params :=
    set_if (match expand plan with [] => false | _ => true end)
      "$expand" (VStr (PyStr.join "," (expand plan))) params in
  Ok (dict_update params (match extra_params with Some d => d | None => [] end)).

Section Client.

(** The data service: the outcome of the n-th GET of a client, given
    its URL; and the time an attempt measures. *)
Variable server : nat -> string -> GetOutcome.
Variable clock : nat -> Z.

Definition fetch_body (self : t) (plan : QueryPlan) (extra_params : option Dict)
  (w : World) : Result Envelope * World :=
  let w := begin_attempt w in
  match plan_params plan extra_params with
  | Raise e => (Raise e, w)
  | Ok params =>
      match ODataUrlBuilder.build (base_url self) (entity plan) (Some params) with
      | Raise exc => (Raise (ODataClientError (exn_str exc) None None), w)
      | Ok full_url =>
          match auth_of self with
          | Raise e => (Raise e, w)
          | Ok auth =>
              let elapsed := clock (attempts w) in
              match server (requests w) full_url with
              | GetFails exc =>
                  if is_ClientError exc then
                    (Raise (ODataClientError ("OData request failed: " +:+ exn_str exc)
                              None (Some full_url)), sent w)
                  else (Raise exc, sent w)
              | GetResponds response =>
                  if 400 <=? status response then
                    (Raise (ODataClientError
                              ("OData HTTP " +:+ PyStr.str_of_Z (status response))
                              (Some (status response)) (Some full_url)), sent w)
                  else
                    match json response with
                    | Raise exc =>
                        (Raise (ODataClientError
                                  ("Failed to parse OData JSON: " +:+ exn_str exc)
                                  (Some (status response)) (Some full_url)), sent w)
                    | Ok payload =>
                        (Ok {| url := full_url; payload := payload;
                               elapsed_ms := elapsed;
                               status_code := status response;
                               params := params |}, sent w)
                    end
              end
          end
      end
  end.

Definition fetch (tenacity_installed : bool) (self : t) (plan : QueryPlan)
  (extra_params : option Dict) (w : World) : Result Envelope * World :=
  Tenacity.retry policy (fetch_body self plan extra_params) tenacity_installed w.

End Client.

End ODataClient.

(** ** The legacy plan and its translation ([query_tool.py]) *)

(** [from odata_tool import QueryPlan as StructuredPlan]. *)
Definition StructuredPlan : Type := QueryPlan.

(** The legacy [QueryPlan] of [query_tool.py]: an entity and a plain
    parameter map. *)
Module LegacyPlan.

Record t := mk
  { entity : string;
    params : Dict }.

End LegacyPlan.

Module Legacy.

Definition _structured_to_legacy (plan : StructuredPlan) : Result LegacyPlan.t :=
  let* params :=
    match filter_group plan with
    | Some g =>
        let* filter_str := ODataFilterBuilder.build (Some g) in
        Ok (if String.eqb filter_str "" then []
            else dict_set "$filter" (VStr filter_str) [])
    | None => Ok []
    end in
  let params :=
    match select plan with
    | [] => params
    | _ => dict_set "$select" (VStr (PyStr.join "," (select plan))) params
    end in
  let params :=
    match top plan with
    | Some n => if n =? 0 then params else dict_set "$top" (VInt n) params
    | None => params
    end in
  let params :=
    match orderby plan with
    | [] => params
    | _ =>
        dict_set "$orderby"
          (VStr (PyStr.join ","
                   (map (fun '(field, direction) =>
                           field +:+ " " +:+ direction_str direction)
                      (orderby plan))))
          params
    end in
  let params :=
    match expand plan with
    | [] => params
    | _ => dict_set "$expand" (VStr (PyStr.join "," (expand plan))) params
    end in
  Ok {| LegacyPlan.entity := entity plan; LegacyPlan.params := params |}.

(** [build_odata_url]: the root is [full_url.split("?", 1)[0]]. *)
Definition build_odata_url (base_url entity : string) (params : option Dict)
  : Result (string * Dict) :=
  let normalized_params := QueryTool.normalize_params params in
  let* full_url := ODataUrlBuilder.build base_url entity (Some normalized_params) in
  let root := fst (PyStr.split1 "?" full_url) in
  Ok (root, normalized_params).

Section Client.

Variable json_loads : string -> Json.Loaded.
Variable model_validate : JSON -> Result QueryPlan.
Variable backend : nat -> bool -> LLMClient.PostOutcome.
Variable clock : nat -> Z.

(** [CloudLLMClient.generate_plan]: the plan of the structured client,
    translated. *)
Definition generate_plan (tenacity_installed : bool) (self : LLMClient.t) (w : World)
  : Result (LegacyPlan.t * Z * string) * World :=
  match LLMClient.generate_plan json_loads model_validate backend clock
          tenacity_installed self w with
  | (Ok (structured_plan, elapsed_ms, raw_text), w') =>
      (let* legacy_plan := _structured_to_legacy structured_plan in
       Ok (legacy_plan, elapsed_ms, raw_text), w')
  | (Raise e, w') => (Raise e, w')
  end.

(** The data service, as for the structured client. *)
Variable server : nat -> string -> ODataClient.GetOutcome.

(** [ODataClient.fetch] of [query_tool.py]: it takes an entity and raw
    parameters, and has no retry decorator. *)
Definition fetch (self : ODataClient.t) (entity : string) (params : Dict) (w : World)
  : Result ODataClient.Envelope * World :=
  let normalized_params := QueryTool.normalize_params (Some params) in
  match ODataUrlBuilder.build (ODataClient.base_url self) entity
          (Some normalized_params) with
  | Raise exc => (Raise (ODataClientError (exn_str exc) None None), w)
  | Ok full_url =>
      match ODataClient.auth_of self with
      | Raise e => (Raise e, w)
      | Ok auth =>
          let elapsed := clock (requests w) in
          match server (requests w) full_url with
          | ODataClient.GetFails exc =>
              if ODataClient.is_ClientError exc then
                (Raise (ODataClientError ("OData request failed: " +:+ exn_str exc)
                          None (Some full_url)), sent w)
              else (Raise exc, sent w)
          | ODataClient.GetResponds response =>
              if 400 <=? ODataClient.status response then
                (Raise (ODataClientError
                          ("OData HTTP " +:+ PyStr.str_of_Z (ODataClient.status response))
                          (Some (ODataClient.status response)) (Some full_url)), sent w)
              else
                match ODataClient.json response with
                | Raise exc =>
                    (Raise (ODataClientError
                              ("Failed to parse OData JSON: " +:+ exn_str exc)
                              (Some (ODataClient.status response)) (Some full_url)),
                     sent w)
                | Ok payload =>
                    (Ok {| ODataClient.url := full_url;
                           ODataClient.payload := payload;
                           ODataClient.elapsed_ms := elapsed;
                           ODataClient.status_code := ODataClient.status response;
                           ODataClient.params := normalized_params |}, sent w)
                end
          end
      end
  end.

End Client.

End Legacy.

(** ** Pieces of regular expressions *)

Module Re.

(** A literal of a pattern at the head of the input, letters in either
    case when [ignorecase] is set: the text matched and the rest. *)
Fixpoint take_literal (ignorecase : bool) (lit s : string) {struct lit}
  : option (string * string) :=
  match lit, s with
  | EmptyString, _ => Some (EmptyString, s)
  | String _ _, EmptyString => None
  | String a lit', String c s' =>
      if (if ignorecase then Ascii.eqb (PyStr.lower_char c) (PyStr.lower_char a)
          else Ascii.eqb c a)
      then match take_literal ignorecase lit' s' with
           | Some (m, r) => Some (String c m, r)
           | None => None
           end
      else None
  end.

(** As many characters of a class as the input has at its head, up to
    [limit]. *)
Fixpoint take_while (limit : nat) (p : ascii -> bool) (s : string) : string * string :=
  match limit, s with
  | S n, String c s' =>
      if p c then let '(m, r) := take_while n p s' in (String c m, r)
      else (EmptyString, s)
  | _, _ => (EmptyString, s)
  end.

(** One of the alternatives of a group, the first that matches. *)
Fixpoint take_alternative (ignorecase : bool) (alts : list string) (s : string)
  : option (string * string) :=
  match alts with
  | [] => None
  | a :: rest =>
      match take_literal ignorecase a s with
      | Some r => Some r
      | None => take_alternative ignorecase rest s
      end
  end.

(** The class [\w] for text patterns: what [str.isalnum] accepts, and
    the underscore. *)
Definition isword (c : ascii) : bool :=
  let n := PyStr.code c in
  ((48 <=? n) && (n <=? 57) || (65 <=? n) && (n <=? 90) || (n =? 95)
   || (97 <=? n) && (n <=? 122) || (n =? 170) || (178 <=? n) && (n <=? 179)
   || (n =? 181) || (185 <=? n) && (n <=? 186) || (188 <=? n) && (n <=? 190)
   || (192 <=? n) && (n <=? 214) || (216 <=? n) && (n <=? 246)
   || (248 <=? n) && (n <=? 255))%N.

End Re.

(** ** The check of the entity name ([odata_tool/models.py]) *)

Module Models.

(** The pattern of [validate_entity_format] under [re.match]: one of the
    prefixes, an underscore, word characters, and the end of the text or
    a line end that ends it.  No prefix starts another, and after the
    word characters comes none, so the first alternative that matches
    and the longest run decide. *)
Definition entity_format_matches (v : string) : bool :=
  match Re.take_alternative false prefixes v with
  | Some (_, r1) =>
      match Re.take_literal false "_" r1 with
      | Some (_, r2) =>
          match Re.take_while (String.length r2) Re.isword r2 with
          | (EmptyString, _) => false
          | (_, r3) =>
              String.eqb r3 "" || String.eqb r3 (String (ascii_of_N 10) "")
          end
      | None => false
      end
  | None => false
  end.

Definition validate_entity_format (v : string) : Result string :=
  if entity_format_matches v then Ok v
  else Raise (ValueError ("Invalid entity format: " +:+ v)).

End Models.

(** ** Helpers of the tools ([tools/list_entities.py], [tools/query_data.py]) *)

Module Tools.

Import Re.

Definition _metadata_url (base_url : string) : string :=
  let base := PyStr.rstrip_char "/" base_url in
  if negb (PyStr.endswith (PyStr.lower base) "$metadata")
  then base +:+ "/$metadata" else base.

(** [_ENTITY_PATTERN] at the head of the input.  The pattern is written
    in a raw string with doubled backslashes, so each [\\b] is a
    backslash and the letter b, and [\\w+] is a backslash and a run of
    the letter w: the groups [prefix] and [name] of a match.  What
    follows the run is not the letter w, so giving characters back does
    not help and the longest run decides. *)
Definition entity_pattern_at (s : string) : option (string * string) :=
  match take_literal true "\b" s with
  | Some (_, r1) =>
      match take_alternative true prefixes r1 with
      | Some (prefix, r2) =>
          match take_literal true "_" r2 with
          | Some (_, r3) =>
              match take_literal true "\" r3 with
              | Some (backslash, r4) =>
                  match take_while (String.length r4)
                          (fun c => Ascii.eqb (PyStr.lower_char c) "w") r4 with
                  | (EmptyString, _) => None
                  | (run, r5) =>
                      match take_literal true "\b" r5 with
                      | Some _ => Some (prefix, backslash +:+ run)
                      | None => None
                      end
                  end
              | None => None
              end
          | None => None
          end
      | None => None
      end
  | None => None
  end.

(** [_ENTITY_PATTERN.search(text)]: the leftmost match. *)
Fixpoint entity_pattern_search (s : string) : option (string * string) :=
  match entity_pattern_at s with
  | Some m => Some m
  | None =>
      match s with
      | EmptyString => None
      | String _ s' => entity_pattern_search s'
      end
  end.

Definition _extract_explicit_entity (text : string) : option string :=
  match entity_pattern_search text with
  | None => None
  | Some (prefix, name) => Some (prefix +:+ "_" +:+ name)
  end.

(** The pattern of [_extract_top_hint] at the head of the input: a
    backslash and the letter b, the group (a backslash and one to three
    times the letter d), a backslash and the letter b.  The group and
    the rest. *)
Definition top_pattern_at (s : string) : option (string * string) :=
  match take_literal false "\b" s with
  | Some (_, r1) =>
      match take_literal false "\" r1 with
      | Some (backslash, r2) =>
          match take_while 3 (fun c => Ascii.eqb c "d") r2 with
          | (EmptyString, _) => None
          | (run, r3) =>
              match take_literal false "\b" r3 with
              | Some (_, r4) => Some (backslash +:+ run, r4)
              | None => None
              end
          end
      | None => None
      end
  | None => None
  end.

(** [re.findall] for that pattern: group 1 of the matches, from left to
    right, a match starting where the last one ended at the earliest.
    [skip] counts the characters of a match still to pass. *)
Fixpoint top_pattern_findall (skip : nat) (s : string) : list string :=
  match s with
  | EmptyString => []
  | String _ s' =>
      match skip with
      | S k => top_pattern_findall k s'
      | O =>
          match top_pattern_at s with
          | Some (group, rest) =>
              group :: top_pattern_findall
                         (String.length s - String.length rest - 1) s'
          | None => top_pattern_findall O s'
          end
      end
  end.

(** Digits with single underscores between them, as [int] reads them:
    the value read so far and, in [sep], whether the last character was
    an underscore. *)
Fixpoint int_digits (acc : Z) (sep : bool) (s : string) : option Z :=
  match s with
  | EmptyString => if sep then None else Some acc
  | String c s' =>
      if PyStr.isdecimal c then int_digits (10 * acc + PyStr.digit_value c) false s'
      else if Ascii.eqb c "_" && negb sep then int_digits acc true s'
      else None
  end.

(** [int(text)]: white space around, an optional sign, then digits. *)
Definition py_int (text : string) : Result Z :=
  let s := PyStr.strip text in
  let '(negative, body) :=
    match s with
    | String "-" r => (true, r)
    | String "+" r => (false, r)
    | _ => (false, s)
    end in
  let parsed :=
    match body with
    | String c _ =>
        if PyStr.isdecimal c then int_digits 0 false body else None
    | EmptyString => None
    end in
  match parsed with
  | Some n => Ok (if negative then - n else n)
  | None =>
      Raise (ValueError ("invalid literal for int() with base 10: '"
                         +:+ PyStr.replace_char "\" "\\" text +:+ "'"))
  end.

(** The list comprehension of [_extract_top_hint]: for each group the
    condition [int(n) <= 100] and then the element [int(n)]. *)
Fixpoint top_numbers (groups : list string) : Result (list Z) :=
  match groups with
  | [] => Ok []
  | n :: rest =>
      let* bound := py_int n in
      let* kept := if bound <=? 100
                   then (let* v := py_int n in Ok [v]) else Ok [] in
      let* more := top_numbers rest in
      Ok (kept ++ more)%list
  end.

Definition _extract_top_hint (text : string) (default : Z) : Result Z :=
  let* numbers := top_numbers (top_pattern_findall O text) in
  match numbers with
  | [] => Ok default
  | n :: rest => Ok (fold_left Z.min rest n)
  end.

End Tools.


(** * Properties *)

(** ** The tests of the repository, on the model *)

Module RepositoryTests.

Import ODataFilterBuilder.

Definition name_is (v : string) : FilterGroup :=
  mkFilterGroup And
    [Cond {| field := "Name"; operator := EQ; value := VStr v; value_type := TString |}].

(** [tests/test_filter_builder.py], the cases in ASCII. *)
Example test_filter_builder_string : build (Some (name_is "Test")) = Ok "Name eq 'Test'".
Proof. reflexivity. Qed.

Example test_filter_builder_escapes_quote :
  build (Some (name_is "It's test")) = Ok "Name eq 'It''s test'".
Proof. reflexivity. Qed.

Example test_filter_builder_date :
  build (Some (mkFilterGroup And
                [Cond {| field := "Date"; operator := LT; value := VStr "2024-01-15";
                         value_type := TDatetime |}]))
  = Ok "Date lt datetime'2024-01-15T00:00:00'".
Proof. reflexivity. Qed.

(** [tests/test_query_tool.py]. *)
Example test_normalize_filter_dates_wraps_iso :
  QueryTool._normalize_filter_dates "Date lt '2024-01-02'"
  = "Date lt datetime'2024-01-02T00:00:00'".
Proof. reflexivity. Qed.

Example test_normalize_filter_dates_keeps_wrapped :
  QueryTool._normalize_filter_dates "Date lt datetime'2024-01-02T00:00:00'"
  = "Date lt datetime'2024-01-02T00:00:00'".
Proof. reflexivity. Qed.

(** The decoder on a plan as the backend writes one. *)
Definition quoted (s : string) : string :=
  String Json.dquote (s +:+ String Json.dquote EmptyString).

Example loads_plan :
  Json.loads ("{" +:+ quoted "entity" +:+ ": " +:+ quoted "Catalog_Items" +:+ ", "
              +:+ quoted "top" +:+ ": 5, " +:+ quoted "select" +:+ ": ["
              +:+ quoted "Name" +:+ ", " +:+ quoted "Code" +:+ "]}")
  = Some (JObject [("entity", JString "Catalog_Items"); ("top", JNumber (PyInt 5));
                   ("select", JArray [JString "Name"; JString "Code"])]).
Proof. reflexivity. Qed.

Example loads_rejects_trailing_text :
  Json.loads ("{" +:+ quoted "a" +:+ ": 1} and more") = None.
Proof. reflexivity. Qed.

End RepositoryTests.

(** ** Text lemmas *)

Module PyStrFacts.

Import PyStr.

Lemma length_app (a b : string) :
  String.length (a +:+ b) = (String.length a + String.length b)%nat.
Proof. induction a as [|c a IH]; simpl; [reflexivity | now rewrite IH]. Qed.

Lemma app_nil_r (a : string) : a +:+ "" = a.
Proof. induction a as [|c a IH]; [reflexivity | simpl; f_equal; exact IH]. Qed.

Lemma app_assoc (a b c : string) : (a +:+ b) +:+ c = a +:+ (b +:+ c).
Proof. induction a as [|x a IH]; [reflexivity | simpl; f_equal; exact IH]. Qed.

Lemma eqb_empty_false (s : string) : s <> "" -> String.eqb s "" = false.
Proof. intros H. now apply String.eqb_neq. Qed.

Lemma drop_app_length (a b : string) : drop (String.length a) (a +:+ b) = b.
Proof. induction a as [|c a IH]; simpl; [now destruct b | exact IH]. Qed.

Lemma endswith_app (a b : string) : endswith (a +:+ b) b = true.
Proof.
  unfold endswith. rewrite length_app.
  replace (String.length a + String.length b - String.length b)%nat
    with (String.length a) by lia.
  rewrite drop_app_length, String.eqb_refl.
  rewrite andb_true_r. apply Nat.leb_le. lia.
Qed.

(** Joining with one more part at the end. *)
Lemma join_snoc sep (parts : list string) x :
  join sep (parts ++ [x])%list
  = match parts with
    | [] => x
    | _ => join sep parts +:+ sep +:+ x
    end.
Proof.
  induction parts as [|p parts IH]; [reflexivity|].
  destruct parts as [|q parts]; [reflexivity|].
  change (join sep ((p :: q :: parts) ++ [x])%list)
    with (p +:+ sep +:+ join sep ((q :: parts) ++ [x])%list).
  rewrite IH.
  change (join sep (p :: q :: parts)) with (p +:+ sep +:+ join sep (q :: parts)).
  now rewrite !app_assoc.
Qed.

Lemma rstrip_cons c x : rstrip x = x -> x <> "" -> rstrip (String c x) = String c x.
Proof. intros E Hne. simpl. rewrite E. destruct x; [congruence | reflexivity]. Qed.

Lemma rstrip_last c : isspace c = false -> rstrip (String c "") = String c "".
Proof. intros E. simpl. now rewrite E. Qed.

End PyStrFacts.

(** ** The filter renderer *)

Module FilterFacts.

Import ODataFilterBuilder PyStrFacts.

(** Induction on a group that reaches the nested groups of its members. *)
Section GroupInduction.

Variable P : FilterGroup -> Prop.

Definition on_groups (m : FilterNode) : Prop :=
  match m with
  | Group g => P g
  | Cond _ => True
  end.

Hypothesis step : forall l cs, Forall on_groups cs -> P (mkFilterGroup l cs).

Fixpoint group_ind (g : FilterGroup) : P g :=
  match g with
  | mkFilterGroup l cs =>
      step l cs
        ((fix members (cs : list FilterNode) : Forall on_groups cs :=
            match cs with
            | [] => List.Forall_nil on_groups
            | m :: rest =>
                @List.Forall_cons _ on_groups m rest
                  (match m return on_groups m with
                   | Group g' => group_ind g'
                   | Cond _ => I
                   end)
                  (members rest)
            end) cs)
  end.

End GroupInduction.

(** The text of one member: a condition's expression, or the rendering of
    a nested group. *)
Definition member_expr (m : FilterNode) : Result string :=
  match m with
  | Cond c => _render_condition c
  | Group g => _build_group g
  end.

(** What a member adds to [parts], given its text: a condition adds its
    expression, a nested group its rendering in parentheses unless it is
    empty. *)
Definition part_of (m : FilterNode) (expr : string) : option string :=
  match m with
  | Cond _ => Some expr
  | Group _ => if String.eqb expr "" then None else Some ("(" +:+ expr +:+ ")")
  end.

Fixpoint parts_of (cs : list FilterNode) (exprs : list string) : list string :=
  match cs, exprs with
  | m :: cs', e :: exprs' =>
      match part_of m e with
      | Some p => p :: parts_of cs' exprs'
      | None => parts_of cs' exprs'
      end
  | _, _ => []
  end.

(** A group none of whose members, at any depth, is a condition. *)
Fixpoint all_empty (g : FilterGroup) : bool :=
  match g with
  | mkFilterGroup _ cs =>
      (fix go (cs : list FilterNode) : bool :=
         match cs with
         | [] => true
         | Group g' :: rest => all_empty g' && go rest
         | Cond _ :: _ => false
         end) cs
  end.

Definition member_all_empty (m : FilterNode) : bool :=
  match m with
  | Group g => all_empty g
  | Cond _ => false
  end.

Lemma all_empty_unfold l cs :
  all_empty (mkFilterGroup l cs) = forallb member_all_empty cs.
Proof.
  simpl. induction cs as [|[c|g] cs IH]; simpl; [reflexivity | reflexivity |].
  now rewrite IH.
Qed.

(** [_build_group] is its loop followed by its tail. *)
Lemma _build_group_unfold l cs :
  _build_group (mkFilterGroup l cs)
  = let* parts := group_parts cs in Ok (assemble l parts).
Proof.
  simpl.
  match goal with
  | |- bind (?f cs) _ = _ => assert (E : forall xs, f xs = group_parts xs)
  end.
  { induction xs as [|[c|g] xs IH]; simpl; [reflexivity | |]; now rewrite IH. }
  now rewrite E.
Qed.

Lemma group_parts_cons m cs :
  group_parts (m :: cs)
  = let* e := member_expr m in
    let* parts := group_parts cs in
    Ok (match part_of m e with Some p => p :: parts | None => parts end).
Proof.
  destruct m as [c|g]; [reflexivity|].
  simpl. destruct (_build_group g) as [e|]; simpl; [|reflexivity].
  destruct (group_parts cs) as [parts|]; simpl; [|reflexivity].
  now destruct (String.eqb e "").
Qed.

Lemma group_parts_of cs exprs :
  Forall2 (fun m e => member_expr m = Ok e) cs exprs ->
  group_parts cs = Ok (parts_of cs exprs).
Proof.
  induction 1 as [|m e cs exprs Hm _ IH]; [reflexivity |].
  rewrite group_parts_cons, Hm. simpl. rewrite IH. simpl.
  now destruct (part_of m e).
Qed.

Lemma group_parts_app cs1 cs2 :
  group_parts (cs1 ++ cs2)%list
  = let* p1 := group_parts cs1 in
    let* p2 := group_parts cs2 in
    Ok (p1 ++ p2)%list.
Proof.
  induction cs1 as [|m cs1 IH].
  - simpl. now destruct (group_parts cs2).
  - change ((m :: cs1) ++ cs2)%list with (m :: (cs1 ++ cs2))%list.
    rewrite !group_parts_cons, IH.
    destruct (member_expr m) as [e|]; simpl; [|reflexivity].
    destruct (group_parts cs1) as [p1|]; simpl; [|reflexivity].
    destruct (group_parts cs2) as [p2|]; simpl; [|reflexivity].
    now destruct (part_of m e).
Qed.

(** A condition's expression has at least four characters. *)
Lemma render_condition_length c s :
  _render_condition c = Ok s -> (4 <= String.length s)%nat.
Proof.
  unfold _render_condition. destruct (_format_value _ _) as [v|]; simpl; [|discriminate].
  intros [= <-]. rewrite !length_app.
  destruct (operator c); simpl; lia.
Qed.

Lemma wrap_cases p : wrap p = p \/ wrap p = "(" +:+ p +:+ ")".
Proof. unfold wrap. destruct (parenthesized p); auto. Qed.

Lemma startswith_paren s : PyStr.startswith ("(" +:+ s) "(" = true.
Proof. reflexivity. Qed.

Lemma parenthesized_parens s : parenthesized ("(" +:+ s +:+ ")") = true.
Proof.
  unfold parenthesized. rewrite startswith_paren. simpl.
  change (String "(" (s +:+ ")")) with (("(" +:+ s) +:+ ")").
  apply endswith_app.
Qed.

Lemma parenthesized_wrap p : parenthesized (wrap p) = true.
Proof.
  unfold wrap. destruct (parenthesized p) eqn:E; [exact E|].
  apply parenthesized_parens.
Qed.

Lemma Forall_parenthesized_wrap parts :
  Forall (fun w => parenthesized w = true) (map wrap parts).
Proof. induction parts; constructor; auto using parenthesized_wrap. Qed.

Lemma Forall2_wrap parts :
  Forall2 (fun p w => w = p \/ w = "(" +:+ p +:+ ")") parts (map wrap parts).
Proof. induction parts; constructor; auto using wrap_cases. Qed.

Lemma parts_of_length cs exprs :
  Forall2 (fun m e => member_expr m = Ok e) cs exprs ->
  Forall (fun e => e <> "") exprs ->
  List.length (parts_of cs exprs) = List.length cs.
Proof.
  induction 1 as [|m e cs exprs Hm _ IH]; [reflexivity |].
  intros Hne. inversion Hne as [|? ? He Hrest]; subst.
  simpl. destruct m as [c|g]; simpl.
  - now rewrite IH.
  - rewrite (eqb_empty_false e He). simpl. now rewrite IH.
Qed.

Lemma parens_not_empty e : e <> "" -> "(" +:+ e +:+ ")" <> "()".
Proof.
  intros He H. destruct e as [|a e]; [congruence|].
  simpl in H. injection H as _ H. destruct e; discriminate H.
Qed.

Lemma part_nonempty m e p :
  member_expr m = Ok e -> part_of m e = Some p -> p <> "" /\ p <> "()".
Proof.
  destruct m as [c|g]; simpl.
  - intros Hr [= <-]. apply render_condition_length in Hr.
    split; intros ->; simpl in Hr; lia.
  - intros _. destruct (String.eqb_spec e "") as [->|Hne]; [discriminate|].
    intros [= <-]. split; [discriminate|].
    now apply parens_not_empty.
Qed.

Lemma group_parts_nonempty cs parts :
  group_parts cs = Ok parts -> Forall (fun p => p <> "" /\ p <> "()") parts.
Proof.
  revert parts. induction cs as [|m cs IH]; intros parts.
  - intros [= <-]. constructor.
  - rewrite group_parts_cons.
    destruct (member_expr m) as [e|] eqn:Hm; simpl; [|discriminate].
    destruct (group_parts cs) as [ps|]; simpl; [|discriminate].
    destruct (part_of m e) as [p|] eqn:Hp; intros [= <-]; auto.
    constructor; eauto using part_nonempty.
Qed.

Lemma wrap_nonempty p : p <> "" -> p <> "()" -> wrap p <> "" /\ wrap p <> "()".
Proof.
  intros H1 H2. unfold wrap. destruct (parenthesized p); [auto|].
  split; [discriminate|]. now apply parens_not_empty.
Qed.

(** A group, some member of which is a nested group without conditions:
    the first case the two-member reading of the renderer misses. *)
Definition one_and_empty : list FilterNode :=
  [ Cond {| field := "A"; operator := EQ; value := VInt 1; value_type := TNumber |};
    Group (mkFilterGroup And []) ].

(** The reading under which every member of a group of two or more is
    rendered, parenthesized, and joined by the logic keyword. *)
Definition joins_all_members (l : Logic) (cs : list FilterNode) : Prop :=
  forall exprs,
    Forall2 (fun m e => member_expr m = Ok e) cs exprs ->
    exists ws,
      Forall2 (fun e w => w = e \/ w = "(" +:+ e +:+ ")") exprs ws
      /\ Forall (fun w => parenthesized w = true) ws
      /\ _build_group (mkFilterGroup l cs)
         = Ok (PyStr.join (" " +:+ logic_str l +:+ " ") ws).

(** The group of scenario C. *)
Definition scenario_C : FilterGroup :=
  mkFilterGroup Or
    [ Cond {| field := "Status"; operator := EQ; value := VInt 1; value_type := TNumber |};
      Group (mkFilterGroup And
        [ Cond {| field := "Price"; operator := GT; value := VInt 100;
                  value_type := TNumber |};
          Cond {| field := "Active"; operator := EQ; value := VBool true;
                  value_type := TBoolean |} ]) ].

(** C3, as stated, fails: the group [{and: [A eq 1, {and: []}]}] has two
    members and renders to [A eq 1], with no parentheses and no logic
    keyword, because the empty nested group is skipped. *)
Lemma build_group_two_members_one_part :
  (2 <= List.length one_and_empty)%nat
  /\ _build_group (mkFilterGroup And one_and_empty) = Ok "A eq 1"
  /\ ~ joins_all_members And one_and_empty.
Proof.
  split; [simpl; lia|]. split; [reflexivity|].
  intros H. destruct (H ["A eq 1"; ""]) as (ws & H2 & Hp & Hj).
  { repeat constructor. }
  inversion H2 as [|? w1 ? ws1 Hw1 H2']; subst.
  inversion H2' as [|? w2 ? ws2 Hw2 H2'']; subst.
  inversion H2''; subst.
  inversion Hp as [|? ? Hp1 Hp']; subst.
  destruct Hw1 as [->| ->]; [discriminate Hp1|].
  destruct Hw2 as [->| ->]; discriminate Hj.
Qed.

(** C3, amended: a lone condition renders to its expression as it is; in
    general the members that are empty nested groups are skipped, one
    remaining part is the output as it is (a nested group's rendering in
    its parentheses), and two or more remaining parts are each put in
    parentheses unless they already start and end with one, and joined in
    order by the logic keyword; when no member renders to the empty text
    every member is a part; and scenario C renders as the spec gives
    it. *)
Theorem build_group_renders_parts :
  (forall l c e,
      _render_condition c = Ok e ->
      _build_group (mkFilterGroup l [Cond c]) = Ok e)
  /\ (forall l cs exprs,
        Forall2 (fun m e => member_expr m = Ok e) cs exprs ->
        let parts := parts_of cs exprs in
        let out := _build_group (mkFilterGroup l cs) in
        (parts = [] -> out = Ok "")
        /\ (forall p, parts = [p] -> out = Ok p)
        /\ ((2 <= List.length parts)%nat ->
            out = Ok (PyStr.join (" " +:+ logic_str l +:+ " ") (map wrap parts))
            /\ Forall (fun w => parenthesized w = true) (map wrap parts)
            /\ Forall2 (fun p w => w = p \/ w = "(" +:+ p +:+ ")") parts (map wrap parts))
        /\ (Forall (fun e => e <> "") exprs -> List.length parts = List.length cs))
  /\ build (Some scenario_C)
     = Ok "(Status eq 1) or ((Price gt 100) and (Active eq true))".
Proof.
  split; [|split; [|reflexivity]].
  - intros l c e He. rewrite _build_group_unfold. simpl. now rewrite He.
  - intros l cs exprs H parts out.
    assert (E : out = Ok (assemble l parts)).
    { unfold out. rewrite _build_group_unfold, (group_parts_of cs exprs H).
      reflexivity. }
    split; [|split; [|split]].
    + intros Hp. now rewrite E, Hp.
    + intros p Hp. now rewrite E, Hp.
    + intros Hlen. split; [|split].
      * rewrite E. destruct parts as [|p1 [|p2 ps]]; simpl in *; try lia.
        reflexivity.
      * apply Forall_parenthesized_wrap.
      * apply Forall2_wrap.
    + intros Hne. now apply parts_of_length.
Qed.

Lemma build_group_renders_parts_witness :
  _build_group scenario_C
  = Ok (PyStr.join " or " (map wrap ["Status eq 1"; "((Price gt 100) and (Active eq true))"])).
Proof.
  pose proof (proj1 (proj2 build_group_renders_parts)) as H.
  specialize (H Or (conditions scenario_C)
                ["Status eq 1"; "(Price gt 100) and (Active eq true)"]).
  destruct H as (_ & _ & H & _).
  - repeat constructor.
  - destruct H as [H _]; [simpl; lia | exact H].
Defined.

(** C10: a nested group that renders to the empty text adds nothing to
    its parent; a group with no condition at any depth renders to the
    empty text; and every operand the renderer joins is non-empty and is
    not an empty pair of parentheses, the parentheses it writes itself
    being around non-empty text. *)
Theorem empty_groups_are_omitted :
  (forall l pre g post,
      _build_group g = Ok "" ->
      _build_group (mkFilterGroup l (pre ++ Group g :: post)%list)
      = _build_group (mkFilterGroup l (pre ++ post)%list))
  /\ (forall g, all_empty g = true ->
                _build_group g = Ok "" /\ build (Some g) = Ok "")
  /\ (forall l cs parts,
        group_parts cs = Ok parts ->
        _build_group (mkFilterGroup l cs) = Ok (assemble l parts)
        /\ Forall (fun p => p <> "" /\ p <> "()") parts
        /\ Forall (fun w => w <> "" /\ w <> "()") (map wrap parts)
        /\ (forall g e, In (Group g) cs -> _build_group g = Ok e ->
                        e <> "" -> In ("(" +:+ e +:+ ")") parts)).
Proof.
  split; [|split].
  - intros l pre g post Hg.
    rewrite !_build_group_unfold, !group_parts_app, group_parts_cons.
    simpl. rewrite Hg. simpl.
    destruct (group_parts pre); simpl; [|reflexivity].
    now destruct (group_parts post).
  - assert (Hall : forall g, all_empty g = true -> _build_group g = Ok "").
    { intros g. induction g as [l cs IH] using group_ind.
      rewrite all_empty_unfold, _build_group_unfold. intros Hcs.
      assert (E : group_parts cs = Ok []).
      { induction cs as [|m cs IHcs]; [reflexivity|].
        simpl in Hcs. apply andb_true_iff in Hcs as [Hm Hrest].
        inversion IH as [|? ? IHm IHrest]; subst.
        rewrite group_parts_cons.
        destruct m as [c|g]; [discriminate Hm|].
        simpl in *. rewrite (IHm Hm). simpl.
        now rewrite (IHcs IHrest Hrest). }
      now rewrite E. }
    intros g Hg. split; [auto|].
    unfold build. destruct (conditions g); [reflexivity | auto].
  - intros l cs parts Hparts.
    pose proof (group_parts_nonempty cs parts Hparts) as Hne.
    split; [|split; [|split]].
    + now rewrite _build_group_unfold, Hparts.
    + exact Hne.
    + clear Hparts.
      induction Hne as [|p ps [H1 H2] _ IH]; constructor; auto using wrap_nonempty.
    + revert parts Hparts Hne.
      induction cs as [|m cs IH]; intros parts Hparts Hne g e Hin Hg He;
        [destruct Hin|].
      rewrite group_parts_cons in Hparts.
      destruct (member_expr m) as [em|] eqn:Hm; simpl in Hparts; [|discriminate].
      destruct (group_parts cs) as [ps|] eqn:Hps; simpl in Hparts; [|discriminate].
      assert (Hps_ne : Forall (fun p => p <> "" /\ p <> "()") ps)
        by (eapply group_parts_nonempty; eauto).
      destruct Hin as [->|Hin].
      * simpl in Hm. rewrite Hg in Hm. injection Hm as <-.
        simpl in Hparts. rewrite (eqb_empty_false e He) in Hparts.
        injection Hparts as <-. now left.
      * specialize (IH ps eq_refl Hps_ne g e Hin Hg He).
        destruct (part_of m em); injection Hparts as <-; [now right | exact IH].
Qed.

Lemma empty_groups_are_omitted_witness :
  _build_group (mkFilterGroup And
                  [Group (mkFilterGroup Or [Group (mkFilterGroup And [])]);
                   Group (mkFilterGroup And [])]) = Ok "".
Proof.
  apply (proj1 (proj2 empty_groups_are_omitted)). reflexivity.
Defined.

End FilterFacts.

(** ** Datetime values *)

Module DatetimeFacts.

Import PyStr Strptime ODataFilterBuilder PyStrFacts.

(** Checking a property on every number of a range, one by one. *)
Lemma Z_enum (P : Z -> Prop) (lo : Z) (n : nat) :
  (forall i, (i < n)%nat -> P (lo + Z.of_nat i)) ->
  forall v, lo <= v < lo + Z.of_nat n -> P v.
Proof.
  intros H v Hv. replace v with (lo + Z.of_nat (Z.to_nat (v - lo))) by lia.
  apply H. lia.
Qed.

(** [enum v lo n k tac]: prove the goal for each of the [n] values of [v]
    from [lo] on with [tac] ([k] is [n] as a term). *)
Tactic Notation "enum" ident(v) constr(lo) integer(n) constr(k) tactic3(tac) :=
  pattern v; apply (Z_enum _ lo k); [| lia];
  let i := fresh "i" in
  let Hi := fresh "Hi" in
  intros i Hi; do n (destruct i as [|i]; [tac|]); exfalso; lia.

(** Two digits in front of a text. *)
Definition two (v : Z) (tail : string) : string :=
  String (digit_char (v / 10)) (String (digit_char (v mod 10)) tail).

Definition four (v : Z) (tail : string) : string :=
  String (digit_char (v / 1000))
    (String (digit_char (v / 100 mod 10))
       (String (digit_char (v / 10 mod 10))
          (String (digit_char (v mod 10)) tail))).

Lemma fmt2_two v tail : 0 <= v < 100 -> fmt2 v +:+ tail = two v tail.
Proof.
  intros H. unfold fmt2.
  replace ((0 <=? v) && (v <? 100)) with true by (symmetry; apply andb_true_iff; lia).
  reflexivity.
Qed.

Lemma fmt4_four v tail : 0 <= v < 10000 -> fmt4 v +:+ tail = four v tail.
Proof.
  intros H. unfold fmt4.
  replace ((0 <=? v) && (v <? 10000)) with true by (symmetry; apply andb_true_iff; lia).
  reflexivity.
Qed.

Lemma digit_facts k :
  0 <= k <= 9 ->
  isdecimal (digit_char k) = true
  /\ digit_value (digit_char k) = k
  /\ isspace (digit_char k) = false
  /\ lower_char (digit_char k) = digit_char k.
Proof.
  intros H. enum k 0 10 10%nat (repeat split).
Qed.

(** The values a two-digit directive reads from a valid date or time. *)
Definition in_range (d : directive) (v : Z) : Prop :=
  match d with
  | DY => False
  | Dm => 1 <= v <= 12
  | Dd => 1 <= v <= 31
  | DH => 0 <= v <= 23
  | DM | DS => 0 <= v <= 59
  end.

(** The candidate that stops after one digit, when the directive has
    one for this first digit: the other digit is left in front of the
    text. *)
Definition one_digit (d : directive) (v : Z) (tail : string) : list (Z * string) :=
  let single :=
    match d with
    | DY => false
    | Dm | Dd => 1 <=? v / 10
    | DH | DM | DS => true
    end in
  if single then [(v / 10, String (digit_char (v mod 10)) tail)] else [].

(** On two digits of a value in range the first candidate reads both. *)
Lemma alts_two d v tail :
  in_range d v ->
  match_alts (alternatives d) (two v tail) = (v, tail) :: one_digit d v tail.
Proof.
  destruct d; simpl; intros H; [tauto | | | | |].
  - enum v 1 12 12%nat (vm_compute; reflexivity).
  - enum v 1 31 31%nat (vm_compute; reflexivity).
  - enum v 0 24 24%nat (vm_compute; reflexivity).
  - enum v 0 60 60%nat (vm_compute; reflexivity).
  - enum v 0 60 60%nat (vm_compute; reflexivity).
Qed.

Lemma range_digits d v : in_range d v -> 0 <= v / 10 <= 9 /\ 0 <= v mod 10 <= 9.
Proof.
  intros H. assert (0 <= v < 100) by (destruct d; simpl in H; lia).
  Z.div_mod_to_equations. lia.
Qed.

(** A literal that is not a digit does not match a digit. *)
Definition not_digit (c : ascii) : Prop := isdecimal (lower_char c) = false.

Lemma lit_on_digit c k rest tail acc :
  not_digit c -> 0 <= k <= 9 ->
  match_items (Lit c :: rest) (String (digit_char k) tail) acc = None.
Proof.
  intros Hc Hk. simpl.
  destruct (digit_facts k Hk) as (Hd & _ & _ & Hl). rewrite Hl.
  destruct (Ascii.eqb_spec (digit_char k) (lower_char c)) as [E|]; [|reflexivity].
  unfold not_digit in Hc. rewrite <- E in Hc. congruence.
Qed.

Lemma lit_on_end c rest acc : match_items (Lit c :: rest) "" acc = None.
Proof. reflexivity. Qed.

(** A directive followed by a literal that is not a digit: only the
    candidate that read both digits can go on. *)
Lemma dir_then_lit d v c rest tail acc :
  in_range d v -> not_digit c ->
  match_items (Dir d :: Lit c :: rest) (two v tail) acc
  = match_items (Lit c :: rest) tail (acc ++ [(d, v)])%list.
Proof.
  intros Hr Hc.
  change (match_items (Dir d :: Lit c :: rest) (two v tail) acc)
    with (first_success (match_alts (alternatives d) (two v tail))
            (fun '(v, s') => match_items (Lit c :: rest) s' (acc ++ [(d, v)])%list)).
  rewrite (alts_two d v tail Hr).
  cbn [first_success].
  destruct (match_items (Lit c :: rest) tail (acc ++ [(d, v)])%list); [reflexivity|].
  unfold one_digit. destruct (match d with DY => _ | _ => _ end); [|reflexivity].
  cbn [first_success].
  rewrite lit_on_digit; [reflexivity | exact Hc | apply (range_digits d v Hr)].
Qed.

(** A directive at the end of the format takes its first candidate. *)
Lemma dir_last d v tail acc :
  in_range d v ->
  match_items [Dir d] (two v tail) acc = Some ((acc ++ [(d, v)])%list, tail).
Proof.
  intros Hr.
  change (match_items [Dir d] (two v tail) acc)
    with (first_success (match_alts (alternatives d) (two v tail))
            (fun '(v, s') => match_items [] s' (acc ++ [(d, v)])%list)).
  now rewrite (alts_two d v tail Hr).
Qed.

Lemma lit_step c rest tail acc :
  match_items (Lit c :: rest) (String c tail) acc = match_items rest tail acc.
Proof. simpl. now rewrite Ascii.eqb_refl. Qed.

Lemma year_digits v :
  0 <= v < 10000 ->
  0 <= v / 1000 <= 9 /\ 0 <= v / 100 mod 10 <= 9
  /\ 0 <= v / 10 mod 10 <= 9 /\ 0 <= v mod 10 <= 9
  /\ ((v / 1000 * 10 + v / 100 mod 10) * 10 + v / 10 mod 10) * 10 + v mod 10 = v.
Proof. intros H. Z.div_mod_to_equations. lia. Qed.

(** The year directive reads four digits, in one way. *)
Lemma year_step v rest tail acc :
  0 <= v < 10000 ->
  match_items (Dir DY :: rest) (four v tail) acc
  = match_items rest tail (acc ++ [(DY, v)])%list.
Proof.
  intros H. destruct (year_digits v H) as (H3 & H2 & H1 & H0 & E).
  change (match_items (Dir DY :: rest) (four v tail) acc)
    with (first_success (match_alts (alternatives DY) (four v tail))
            (fun '(v, s') => match_items rest s' (acc ++ [(DY, v)])%list)).
  assert (A : match_alts (alternatives DY) (four v tail) = [(v, tail)]).
  { unfold four. cbn [alternatives match_alts match_seq cls_matches].
    destruct (digit_facts _ H3) as (-> & -> & _).
    destruct (digit_facts _ H2) as (-> & -> & _).
    destruct (digit_facts _ H1) as (-> & -> & _).
    destruct (digit_facts _ H0) as (-> & -> & _).
    replace (0 * 10 + v / 1000) with (v / 1000) by lia.
    now rewrite E. }
  rewrite A. cbn [first_success].
  now destruct (match_items rest tail (acc ++ [(DY, v)])%list).
Qed.

(** The year directive does not read a text whose third character is
    not a digit. *)
Lemma year_fails c1 c2 c3 rest tail acc :
  isdecimal c3 = false ->
  match_items (Dir DY :: rest) (String c1 (String c2 (String c3 tail))) acc = None.
Proof.
  intros H. simpl. destruct (isdecimal c1); [|reflexivity].
  destruct (isdecimal c2); [|reflexivity]. now rewrite H.
Qed.

Lemma space_step rest v tail acc :
  0 <= v < 100 ->
  match_items (Space :: rest) (String " " (two v tail)) acc
  = match_items rest (two v tail) acc.
Proof.
  intros Hv. assert (Hk : 0 <= v / 10 <= 9) by (Z.div_mod_to_equations; lia).
  destruct (digit_facts _ Hk) as (_ & _ & Hs & _).
  unfold two. cbn [match_items space_runs]. rewrite Hs.
  change (isspace " ") with true. cbn [app first_success].
  now destruct (match_items rest _ acc).
Qed.

Lemma space_on_end rest acc : match_items (Space :: rest) "" acc = None.
Proof. reflexivity. Qed.

Lemma match_end s acc : match_items [] s acc = Some (acc, s).
Proof. reflexivity. Qed.

Section Texts.

Variables y m d h mi s : Z.
Hypothesis valid : valid_datetime (mk_datetime y m d h mi s) = true.

Let t := mk_datetime y m d h mi s.

Lemma valid_ranges :
  0 <= y < 10000 /\ in_range Dm m /\ in_range Dd d
  /\ in_range DH h /\ in_range DM mi /\ in_range DS s.
Proof using valid.
  unfold valid_datetime in valid. simpl in valid.
  repeat (apply andb_true_iff in valid as [valid ?]).
  assert (days_in_month y m <= 31).
  { unfold days_in_month. repeat match goal with |- context [if ?b then _ else _] => destruct b end; lia. }
  simpl. lia.
Qed.

(** The five texts: [YYYY-MM-DDTHH:MM:SS], [YYYY-MM-DD],
    [DD.MM.YYYY HH:MM:SS], [DD.MM.YYYY HH:MM] and [DD.MM.YYYY]. *)
Definition iso_full : string :=
  iso_date y m d +:+ "T" +:+ iso_time h mi s.
Definition iso_day : string := iso_date y m d.
Definition dmy : string := fmt2 d +:+ "." +:+ fmt2 m +:+ "." +:+ fmt4 y.
Definition dmy_full : string := dmy +:+ " " +:+ iso_time h mi s.
Definition dmy_hm : string := dmy +:+ " " +:+ fmt2 h +:+ ":" +:+ fmt2 mi.

Ltac ranges :=
  destruct valid_ranges as (Hy & Hm & Hd & Hh & Hmi & Hs);
  assert (0 <= m < 100) by (simpl in Hm; lia);
  assert (0 <= d < 100) by (simpl in Hd; lia);
  assert (0 <= h < 100) by (simpl in Hh; lia);
  assert (0 <= mi < 100) by (simpl in Hmi; lia);
  assert (0 <= s < 100) by (simpl in Hs; lia).

Ltac in_digits :=
  unfold iso_full, iso_day, dmy_full, dmy_hm, dmy, iso_date, iso_time, fmt2, fmt4;
  repeat match goal with
    | H : 0 <= ?v < 100 |- context [(0 <=? ?v) && (?v <? 100)] =>
        replace ((0 <=? v) && (v <? 100)) with true
          by (symmetry; apply andb_true_iff; lia)
    | H : 0 <= ?v < 10000 |- context [(0 <=? ?v) && (?v <? 10000)] =>
        replace ((0 <=? v) && (v <? 10000)) with true
          by (symmetry; apply andb_true_iff; lia)
    end.

Lemma iso_full_digits :
  iso_full = four y (String "-" (two m (String "-" (two d (String "T"
               (two h (String ":" (two mi (String ":" (two s "")))))))))).
Proof using valid. ranges. in_digits. reflexivity. Qed.

Lemma iso_day_digits :
  iso_day = four y (String "-" (two m (String "-" (two d "")))).
Proof using valid. ranges. in_digits. reflexivity. Qed.

Lemma dmy_full_digits :
  dmy_full = two d (String "." (two m (String "." (four y (String " "
               (two h (String ":" (two mi (String ":" (two s "")))))))))).
Proof using valid. ranges. in_digits. reflexivity. Qed.

Lemma dmy_hm_digits :
  dmy_hm = two d (String "." (two m (String "." (four y (String " "
               (two h (String ":" (two mi "")))))))).
Proof using valid. ranges. in_digits. reflexivity. Qed.

Lemma dmy_digits :
  dmy = two d (String "." (two m (String "." (four y "")))).
Proof using valid. ranges. in_digits. reflexivity. Qed.

Definition F1 := "%Y-%m-%dT%H:%M:%S".
Definition F2 := "%Y-%m-%dT%H:%M".
Definition F3 := "%Y-%m-%d".
Definition F4 := "%d.%m.%Y %H:%M:%S".
Definition F5 := "%d.%m.%Y %H:%M".
Definition F6 := "%d.%m.%Y".

Lemma valid_at h' mi' s' :
  0 <= h' <= 23 -> 0 <= mi' <= 59 -> 0 <= s' <= 59 ->
  valid_datetime (mk_datetime y m d h' mi' s') = true.
Proof using valid.
  intros. unfold valid_datetime in *. simpl in *.
  repeat (apply andb_true_iff in valid as [valid ?]).
  repeat (apply andb_true_iff; split); try assumption; apply Z.leb_le; lia.
Qed.

Ltac walk :=
  repeat first
    [ rewrite year_step by lia
    | rewrite lit_step
    | rewrite dir_then_lit by (first [assumption | reflexivity])
    | rewrite dir_last by assumption
    | rewrite space_step by lia
    | rewrite lit_on_end
    | rewrite space_on_end
    | rewrite match_end ].

Ltac parse fmt :=
  unfold strptime;
  let items := eval vm_compute in (parse_format fmt) in
  change (parse_format fmt) with items.

Lemma strptime_iso_full : strptime iso_full F1 = Some t.
Proof using valid.
  rewrite iso_full_digits. ranges. parse F1. walk. cbn. now rewrite valid.
Qed.

Lemma strptime_iso_day :
  strptime iso_day F1 = None /\ strptime iso_day F2 = None
  /\ strptime iso_day F3 = Some (mk_datetime y m d 0 0 0).
Proof using valid.
  rewrite iso_day_digits. ranges. split; [|split].
  - parse F1. now walk.
  - parse F2. now walk.
  - parse F3. walk. cbn. now rewrite valid_at by lia.
Qed.

(** A text that starts with the day is not read by the formats that
    start with the year. *)
Lemma year_first_fails tail fmt :
  In fmt [F1; F2; F3] ->
  strptime (two d (String "." tail)) fmt = None.
Proof.
  intros [<-|[<-|[<-|[]]]];
    [parse F1 | parse F2 | parse F3];
    unfold two; now rewrite year_fails.
Qed.

Lemma strptime_dmy_full : strptime dmy_full F4 = Some t.
Proof using valid.
  rewrite dmy_full_digits. ranges. parse F4. walk. cbn. now rewrite valid.
Qed.

Lemma strptime_dmy_hm :
  strptime dmy_hm F4 = None
  /\ strptime dmy_hm F5 = Some (mk_datetime y m d h mi 0).
Proof using valid.
  rewrite dmy_hm_digits. ranges. split.
  - parse F4. now walk.
  - parse F5. walk. cbn. simpl in Hh, Hmi. now rewrite valid_at by lia.
Qed.

Lemma strptime_dmy :
  strptime dmy F4 = None /\ strptime dmy F5 = None
  /\ strptime dmy F6 = Some (mk_datetime y m d 0 0 0).
Proof using valid.
  rewrite dmy_digits. ranges. split; [|split].
  - parse F4. now walk.
  - parse F5. now walk.
  - parse F6. walk. cbn. now rewrite valid_at by lia.
Qed.

(** The texts have no white space at either end. *)
Ltac no_space :=
  unfold strip, two, four;
  cbn [lstrip];
  repeat match goal with
    | |- context [isspace (digit_char ?v)] =>
        let E := fresh "E" in
        assert (E : isspace (digit_char v) = false)
          by (apply digit_facts; Z.div_mod_to_equations; lia);
        rewrite E
    end;
  repeat (apply rstrip_cons; [|discriminate]);
  apply rstrip_last; apply digit_facts; Z.div_mod_to_equations; lia.

Lemma strip_texts :
  strip iso_full = iso_full /\ strip iso_day = iso_day
  /\ strip dmy_full = dmy_full /\ strip dmy_hm = dmy_hm /\ strip dmy = dmy.
Proof using valid.
  rewrite iso_full_digits, iso_day_digits, dmy_full_digits, dmy_hm_digits, dmy_digits.
  ranges. repeat split; no_space.
Qed.

Lemma try_patterns_texts :
  try_patterns patterns iso_full = Some (isoformat y m d h mi s)
  /\ try_patterns patterns iso_day = Some (isoformat y m d 0 0 0)
  /\ try_patterns patterns dmy_full = Some (isoformat y m d h mi s)
  /\ try_patterns patterns dmy_hm = Some (isoformat y m d h mi 0)
  /\ try_patterns patterns dmy = Some (isoformat y m d 0 0 0).
Proof using valid.
  pose proof strptime_iso_full as A.
  destruct strptime_iso_day as (B1 & B2 & B3).
  pose proof strptime_dmy_full as C.
  destruct strptime_dmy_hm as (D4 & D5).
  destruct strptime_dmy as (E4 & E5 & E6).
  assert (Y1 : forall tail, strptime (two d (String "." tail)) F1 = None)
    by (intros; apply year_first_fails; simpl; auto).
  assert (Y2 : forall tail, strptime (two d (String "." tail)) F2 = None)
    by (intros; apply year_first_fails; simpl; auto).
  assert (Y3 : forall tail, strptime (two d (String "." tail)) F3 = None)
    by (intros; apply year_first_fails; simpl; auto).
  unfold F1, F2, F3, F4, F5, F6 in *.
  unfold patterns. cbn [try_patterns]. repeat split.
  - now rewrite A.
  - now rewrite B1, B2, B3.
  - rewrite dmy_full_digits in *. rewrite Y1, Y2, Y3. now rewrite C.
  - rewrite dmy_hm_digits in *. rewrite Y1, Y2, Y3. now rewrite D4, D5.
  - rewrite dmy_digits in *. rewrite Y1, Y2, Y3. now rewrite E4, E5, E6.
Qed.

End Texts.

Definition is_native (v : PyValue) : bool :=
  match v with
  | VDate _ _ _ | VDatetime _ _ _ _ _ _ _ => true
  | _ => false
  end.

(** The value is a native one, or one of the formats reads its text. *)
Definition accepted (v : PyValue) : Prop :=
  is_native v = true \/ try_patterns patterns (strip (py_str v)) <> None.

(** The reading under which every value that is not accepted is
    rejected with an error. *)
Definition rejects_unaccepted : Prop :=
  forall v, ~ accepted v ->
            exists msg, _format_value v TDatetime = Raise (ValueError msg).

Lemma normalize_text text iso :
  strip text = text ->
  try_patterns patterns text = Some iso ->
  _format_value (VStr text) TDatetime = Ok ("datetime'" +:+ iso +:+ "'").
Proof.
  intros Hs Hp. unfold _format_value, _normalize_datetime.
  cbn [py_str]. now rewrite Hs, Hp.
Qed.

(** C4, as stated, fails: the text [Tuesday] is read by none of the
    formats, and it is not rejected; the fall-back for a text with a
    [T] in it returns [Tuesday:00:00]. *)
Lemma format_value_keeps_unread_text :
  ~ accepted (VStr "Tuesday")
  /\ _format_value (VStr "Tuesday") TDatetime = Ok "datetime'Tuesday:00:00'"
  /\ ~ rejects_unaccepted.
Proof.
  assert (A : ~ accepted (VStr "Tuesday")).
  { intros [H|H]; [discriminate H | apply H; reflexivity]. }
  split; [exact A|]. split; [reflexivity|].
  intros H. destruct (H _ A) as [msg Hmsg]. discriminate Hmsg.
Qed.

(** The format with hours and minutes after a [T] takes the date and
    drops the time it has read ([add_time] is set for it). *)
Example normalize_T_hours_minutes :
  _normalize_datetime (VStr "2024-01-15T10:30") = Ok "2024-01-15T00:00:00".
Proof. reflexivity. Qed.

(** C4, amended: native dates and datetimes, and the texts
    [YYYY-MM-DDTHH:MM:SS], [YYYY-MM-DD], [DD.MM.YYYY HH:MM:SS],
    [DD.MM.YYYY HH:MM] and [DD.MM.YYYY] of a valid date and time, are
    written as [datetime'YYYY-MM-DDTHH:MM:SS'], a missing time being
    midnight and missing seconds [00]; a value that is not native and
    whose text none of the formats reads raises the error naming the
    value when the text has no [T], and is otherwise passed through, the
    part after the first [T] filled up to three fields with [00]. *)
Theorem format_value_datetime :
  (forall y m d h mi s us,
      _format_value (VDatetime y m d h mi s us) TDatetime
      = Ok ("datetime'" +:+ isoformat y m d h mi s +:+ "'"))
  /\ (forall y m d,
        _format_value (VDate y m d) TDatetime
        = Ok ("datetime'" +:+ isoformat y m d 0 0 0 +:+ "'"))
  /\ (forall y m d h mi s,
        valid_datetime (mk_datetime y m d h mi s) = true ->
        _format_value (VStr (iso_full y m d h mi s)) TDatetime
        = Ok ("datetime'" +:+ isoformat y m d h mi s +:+ "'")
        /\ _format_value (VStr (iso_day y m d)) TDatetime
           = Ok ("datetime'" +:+ isoformat y m d 0 0 0 +:+ "'")
        /\ _format_value (VStr (dmy_full y m d h mi s)) TDatetime
           = Ok ("datetime'" +:+ isoformat y m d h mi s +:+ "'")
        /\ _format_value (VStr (dmy_hm y m d h mi)) TDatetime
           = Ok ("datetime'" +:+ isoformat y m d h mi 0 +:+ "'")
        /\ _format_value (VStr (dmy y m d)) TDatetime
           = Ok ("datetime'" +:+ isoformat y m d 0 0 0 +:+ "'"))
  /\ (forall v,
        ~ accepted v ->
        let raw := strip (py_str v) in
        (contains raw "T" = false ->
         _format_value v TDatetime
         = Raise (ValueError ("Unrecognized datetime format: " +:+ py_str v)))
        /\ (contains raw "T" = true ->
            _format_value v TDatetime
            = Ok ("datetime'"
                  +:+ (fst (split1 "T" raw) +:+ "T"
                       +:+ join ":" (firstn 3 (pad_time_bits
                             (split ":" (match snd (split1 "T" raw) with
                                         | Some t => t
                                         | None => "00:00:00"
                                         end)))))
                  +:+ "'"))).
Proof.
  split; [reflexivity|]. split; [reflexivity|]. split.
  - intros y m d h mi s valid.
    destruct (strip_texts y m d h mi s valid) as (S1 & S2 & S3 & S4 & S5).
    destruct (try_patterns_texts y m d h mi s valid) as (T1 & T2 & T3 & T4 & T5).
    repeat split; now apply normalize_text.
  - intros v Hv raw.
    assert (Hn : is_native v = false).
    { destruct (is_native v) eqn:E; [|reflexivity]. exfalso. apply Hv. now left. }
    assert (Hp : try_patterns patterns raw = None).
    { destruct (try_patterns patterns raw) eqn:E; [|reflexivity].
      exfalso. apply Hv. right. fold raw. now rewrite E. }
    unfold _format_value, _normalize_datetime.
    split; intros HT;
      destruct v; try discriminate Hn; fold raw; rewrite Hp, HT;
      try reflexivity; now destruct (split1 "T" raw).
Qed.

Lemma format_value_datetime_witness :
  _format_value (VStr "15.01.2024 10:20") TDatetime = Ok "datetime'2024-01-15T10:20:00'"
  /\ _format_value (VStr "yesterday") TDatetime
     = Raise (ValueError "Unrecognized datetime format: yesterday").
Proof.
  split.
  - apply (proj1 (proj2 (proj2 format_value_datetime)) 2024 1 15 10 20 0).
    reflexivity.
  - apply (proj2 (proj2 (proj2 format_value_datetime)) (VStr "yesterday")).
    + intros [H|H]; [discriminate H | apply H; reflexivity].
    + reflexivity.
Defined.

End DatetimeFacts.

(** ** The URL encoder and the raw-parameter pass *)

Module DictFacts.

Lemma dict_get_set_eq k v d : dict_get k (dict_set k v d) = Some v.
Proof.
  induction d as [|[k' v'] d IH]; simpl.
  - now rewrite String.eqb_refl.
  - destruct (String.eqb_spec k' k) as [->|Hne]; simpl.
    + now rewrite String.eqb_refl.
    + apply String.eqb_neq in Hne. now rewrite Hne.
Qed.

Lemma dict_get_set_ne k k' v d :
  k <> k' -> dict_get k' (dict_set k v d) = dict_get k' d.
Proof.
  intros Hne. induction d as [|[k0 v0] d IH]; simpl.
  - apply String.eqb_neq in Hne. now rewrite Hne.
  - destruct (String.eqb_spec k0 k) as [->|Hk]; simpl.
    + apply String.eqb_neq in Hne. now rewrite Hne.
    + now rewrite IH.
Qed.

Lemma dict_contains_set k k' v d :
  dict_contains k' d = true -> dict_contains k' (dict_set k v d) = true.
Proof.
  unfold dict_contains. destruct (String.eqb_spec k k') as [->|Hne].
  - now rewrite dict_get_set_eq.
  - now rewrite dict_get_set_ne.
Qed.

(** A new key goes last. *)
Lemma dict_set_fresh k v d :
  dict_get k d = None -> dict_set k v d = (d ++ [(k, v)])%list.
Proof.
  induction d as [|[k' v'] d IH]; simpl; [reflexivity|].
  destruct (String.eqb k' k); [discriminate|].
  intros H. now rewrite IH.
Qed.

End DictFacts.

Module UrlFacts.

Import ODataUrlBuilder DictFacts.

(** C6: for a base URL and an entity that are not empty, and parameters
    that give no [$format] (or no parameters at all), the URL is the root,
    a question mark, the parts of the given parameters and, last,
    [$format=json], joined by [&]: it ends with [$format=json] right after
    the question mark or an [&]. *)
Theorem build_adds_format_json (base_url entity : string) (params : option Dict) :
  base_url <> "" -> entity <> "" ->
  dict_get "$format" (match params with Some d => d | None => [] end) = None ->
  build base_url entity params
  = Ok (root_of base_url entity +:+ "?"
        +:+ PyStr.join "&"
              (query_parts (match params with Some d => d | None => [] end)
               ++ ["$format=json"])%list)
  /\ exists before,
       build base_url entity params = Ok (before +:+ "$format=json")
       /\ (PyStr.endswith before "?" = true \/ PyStr.endswith before "&" = true).
Proof.
  intros Hb He Hf.
  set (d := match params with Some d => d | None => [] end) in *.
  assert (E : build base_url entity params
              = Ok (root_of base_url entity +:+ "?"
                    +:+ PyStr.join "&" (query_parts d ++ ["$format=json"])%list)).
  { unfold build. apply String.eqb_neq in Hb, He. rewrite Hb, He. fold d.
    unfold dict_contains. rewrite Hf.
    rewrite (dict_set_fresh _ _ _ Hf).
    unfold query_parts. rewrite omap_app.
    change (omap _ [("$format", VStr "json")]) with ["$format=json"].
    now destruct (omap _ d). }
  split; [exact E|]. rewrite E, PyStrFacts.join_snoc.
  destruct (query_parts d) as [|p ps].
  - exists (root_of base_url entity +:+ "?"). split.
    + now rewrite PyStrFacts.app_assoc.
    + left. apply PyStrFacts.endswith_app.
  - exists (root_of base_url entity +:+ "?" +:+ PyStr.join "&" (p :: ps) +:+ "&").
    split.
    + now rewrite !PyStrFacts.app_assoc.
    + right.
      rewrite <- (PyStrFacts.app_assoc (root_of base_url entity) "?"),
        <- PyStrFacts.app_assoc.
      apply PyStrFacts.endswith_app.
Qed.

Lemma build_adds_format_json_witness :
  build "https://example/odata" "Document_Sale" (Some [("$top", VInt 1)])
  = Ok "https://example/odata/standard.odata/Document_Sale?$top=1&$format=json"
  /\ build "https://example/odata" "Document_Sale" None
     = Ok "https://example/odata/standard.odata/Document_Sale?$format=json".
Proof.
  split.
  - apply (build_adds_format_json "https://example/odata" "Document_Sale"
             (Some [("$top", VInt 1)])); [discriminate | discriminate | reflexivity].
  - apply (build_adds_format_json "https://example/odata" "Document_Sale" None);
      [discriminate | discriminate | reflexivity].
Defined.

End UrlFacts.

Module ParamsFacts.

Import QueryTool DictFacts.

(** The entries the pass keeps. *)
Definition kept (entry : string * PyValue) : bool :=
  negb (none_or_empty (snd entry)).

Lemma fold_skips_dropped ps acc :
  fold_left normalize_entry ps acc
  = fold_left normalize_entry (List.filter kept ps) acc.
Proof.
  revert acc. induction ps as [|[k v] ps IH]; intros acc; [reflexivity|].
  cbn [fold_left List.filter]. unfold kept at 1. cbn [snd].
  destruct (none_or_empty v) eqn:E; cbn [negb fold_left].
  - unfold normalize_entry at 2. rewrite E. apply IH.
  - apply IH.
Qed.

Lemma fold_keeps_key k ps acc :
  dict_contains k acc = true ->
  dict_contains k (fold_left normalize_entry ps acc) = true.
Proof.
  revert acc. induction ps as [|[k' v'] ps IH]; intros acc H; [exact H|].
  cbn [fold_left]. apply IH. unfold normalize_entry.
  destruct (none_or_empty v'); [exact H|].
  destruct (String.eqb (PyStr.strip k') ""); [exact H|].
  now apply dict_contains_set.
Qed.

Lemma entry_stored k v acc :
  none_or_empty v = false -> PyStr.strip k <> "" ->
  dict_contains (canonical_key (PyStr.strip k)) (normalize_entry acc (k, v)) = true.
Proof.
  intros Hv Hk. unfold normalize_entry.
  rewrite Hv. apply String.eqb_neq in Hk. rewrite Hk.
  unfold dict_contains. now rewrite dict_get_set_eq.
Qed.

Lemma fold_stores_entry k v ps acc :
  In (k, v) ps -> none_or_empty v = false -> PyStr.strip k <> "" ->
  dict_contains (canonical_key (PyStr.strip k))
    (fold_left normalize_entry ps acc) = true.
Proof.
  intros Hin Hv Hk. revert acc.
  induction ps as [|e ps IH]; intros acc; [destruct Hin|].
  destruct Hin as [->|Hin]; [|apply IH, Hin].
  cbn [fold_left]. apply fold_keeps_key. now apply entry_stored.
Qed.

(** Without an entry stored under [$format] the pass leaves none. *)
Lemma fold_no_format ps acc :
  dict_get "$format" acc = None ->
  Forall (fun e => kept e = true ->
                   canonical_key (PyStr.strip (fst e)) <> "$format") ps ->
  dict_get "$format" (fold_left normalize_entry ps acc) = None.
Proof.
  intros Hacc H. revert acc Hacc.
  induction H as [|[k v] ps Hk _ IH]; intros acc Hacc; [exact Hacc|].
  cbn [fold_left]. apply IH. unfold kept in Hk. cbn [fst snd] in Hk.
  unfold normalize_entry.
  destruct (none_or_empty v); [exact Hacc|].
  destruct (String.eqb (PyStr.strip k) ""); [exact Hacc|].
  rewrite dict_get_set_ne; [exact Hacc | now apply Hk].
Qed.

(** An entry counts when its value is neither [None] nor the empty
    text and its key is not empty once stripped. *)
Definition counts (entry : string * PyValue) : Prop :=
  snd entry <> VNone /\ snd entry <> VStr "" /\ PyStr.strip (fst entry) <> "".

Lemma none_or_empty_false v :
  none_or_empty v = false <-> v <> VNone /\ v <> VStr "".
Proof.
  split.
  - intros H. split; intros ->; discriminate H.
  - intros [H1 H2]. destruct v; try reflexivity; [now destruct H1|].
    simpl. apply String.eqb_neq. intros ->. now apply H2.
Qed.

Lemma entry_skipped acc k v :
  v = VNone \/ v = VStr "" \/ PyStr.strip k = "" -> normalize_entry acc (k, v) = acc.
Proof.
  unfold normalize_entry. intros [->|[->|H]]; [reflexivity | reflexivity |].
  destruct (none_or_empty v); [reflexivity|]. now rewrite H.
Qed.

(** What the pass stores for an entry that counts. *)
Lemma entry_counted acc k v :
  counts (k, v) ->
  normalize_entry acc (k, v)
  = dict_set (canonical_key (PyStr.strip k))
      (if String.eqb (canonical_key (PyStr.strip k)) "$format"
       then (if py_bool v then v else VStr "json")
       else if String.eqb (canonical_key (PyStr.strip k)) "$filter"
            then match v with
                 | VStr s => VStr (_normalize_filter_dates s)
                 | _ => v
                 end
            else v)
      acc.
Proof.
  intros (H1 & H2 & H3). cbn [fst snd] in *. unfold normalize_entry.
  rewrite (proj2 (none_or_empty_false v) (conj H1 H2)).
  apply String.eqb_neq in H3. rewrite H3.
  destruct (String.eqb_spec (canonical_key (PyStr.strip k)) "$format") as [E|E].
  - rewrite E. cbn [andb]. destruct (py_bool v); cbn [negb]; [|reflexivity].
    now destruct v.
  - cbn [andb]. destruct (String.eqb (canonical_key (PyStr.strip k)) "$filter");
      now destruct v.
Qed.

Lemma entry_cases acc k v :
  normalize_entry acc (k, v) = acc
  \/ counts (k, v)
     /\ exists v', normalize_entry acc (k, v)
                   = dict_set (canonical_key (PyStr.strip k)) v' acc.
Proof.
  destruct (none_or_empty v) eqn:Hv.
  - left. unfold normalize_entry. now rewrite Hv.
  - destruct (String.eqb_spec (PyStr.strip k) "") as [Hk|Hk].
    + left. apply entry_skipped. auto.
    + right. destruct (proj1 (none_or_empty_false v) Hv) as [H1 H2].
      assert (Hc : counts (k, v)) by (repeat split; assumption).
      split; [exact Hc|]. eexists. now apply entry_counted.
Qed.

(** Later entries stored under other keys leave a key as it is. *)
Lemma fold_get_stable key ps acc :
  (forall k v, In (k, v) ps -> counts (k, v) ->
               canonical_key (PyStr.strip k) <> key) ->
  dict_get key (fold_left normalize_entry ps acc) = dict_get key acc.
Proof.
  revert acc. induction ps as [|[k v] ps IH]; intros acc H; [reflexivity|].
  cbn [fold_left]. rewrite IH by (intros k' v' Hin; apply H; now right).
  destruct (entry_cases acc k v) as [->|(Hc & v' & ->)]; [reflexivity|].
  apply dict_get_set_ne. apply (H k v); [now left | exact Hc].
Qed.

Lemma dict_contains_set_inv k k' v d :
  dict_contains k' (dict_set k v d) = true -> k' = k \/ dict_contains k' d = true.
Proof.
  unfold dict_contains. destruct (String.eqb_spec k k') as [->|Hne]; [now left|].
  rewrite dict_get_set_ne by exact Hne. now right.
Qed.

(** A key of the result was there before or comes from an entry that
    counts. *)
Lemma fold_keys k' ps acc :
  dict_contains k' (fold_left normalize_entry ps acc) = true ->
  dict_contains k' acc = true
  \/ exists k v, In (k, v) ps /\ counts (k, v) /\ canonical_key (PyStr.strip k) = k'.
Proof.
  revert acc. induction ps as [|[k v] ps IH]; intros acc H; [now left|].
  cbn [fold_left] in H. destruct (IH _ H) as [Hacc|(k0 & v0 & Hin & Hc & Hk)].
  - destruct (entry_cases acc k v) as [E|(Hc & v' & E)]; rewrite E in Hacc.
    + now left.
    + apply dict_contains_set_inv in Hacc as [->|Hacc]; [|now left].
      right. exists k, v. split; [now left | now split].
  - right. exists k0, v0. split; [now right | now split].
Qed.

Lemma lstrip_char_plain ch (k : string) :
  PyStr.startswith k (String ch "") = false -> PyStr.lstrip_char ch k = k.
Proof.
  destruct k as [|c k]; [reflexivity|]. cbn [PyStr.startswith PyStr.lstrip_char].
  rewrite andb_true_r, Ascii.eqb_sym. now intros ->.
Qed.

Lemma is_keyword_In bare : is_keyword bare = true <-> In bare keywords.
Proof.
  unfold is_keyword. rewrite existsb_exists. split.
  - intros (x & Hin & E). apply String.eqb_eq in E. now subst.
  - intros H. exists bare. split; [exact H | apply String.eqb_refl].
Qed.

(** C8: [normalize_params] on a raw parameter map.
    - Keys: a key without [$] in front that is a keyword, in any case of
      its letters, is stored with [$] in front and in lower case; any
      other key is stored as it is (once stripped).
    - Dropped entries: an entry whose value is [None] or the empty
      text, or whose key is empty once stripped, changes nothing: the
      result is that of the map without it.
    - Values: the last entry that counts under a key decides its value,
      which is the value given, but [json] under [$format] when the
      value is false, and with its date literals wrapped under
      [$filter] when it is a text.
    - Every entry that counts has its key in the result, and no other
      key is there, except [$format], which is always there and is
      [json] when no entry that counts is stored under it.
    - The parameters of scenario E come out as the spec gives them. *)
Theorem normalize_params_canonical :
  (forall kw, In kw keywords -> canonical_key kw = "$" +:+ kw)
  /\ (forall k, PyStr.startswith k "$" = false -> In (PyStr.lower k) keywords ->
                canonical_key k = "$" +:+ PyStr.lower k)
  /\ (forall k, PyStr.startswith k "$" = true \/ ~ In (PyStr.lower k) keywords ->
                canonical_key k = k)
  /\ (forall ps1 k v ps2,
        v = VNone \/ v = VStr "" \/ PyStr.strip k = "" ->
        normalize_params (Some (ps1 ++ (k, v) :: ps2)%list)
        = normalize_params (Some (ps1 ++ ps2)%list))
  /\ (forall ps1 k v ps2,
        v <> VNone -> v <> VStr "" -> PyStr.strip k <> "" ->
        (forall k2 v2, In (k2, v2) ps2 ->
           v2 <> VNone /\ v2 <> VStr "" /\ PyStr.strip k2 <> "" ->
           canonical_key (PyStr.strip k2) <> canonical_key (PyStr.strip k)) ->
        dict_get (canonical_key (PyStr.strip k))
          (normalize_params (Some (ps1 ++ (k, v) :: ps2)%list))
        = Some (if String.eqb (canonical_key (PyStr.strip k)) "$format"
                then (if py_bool v then v else VStr "json")
                else if String.eqb (canonical_key (PyStr.strip k)) "$filter"
                     then match v with
                          | VStr s => VStr (_normalize_filter_dates s)
                          | _ => v
                          end
                     else v))
  /\ (forall ps k v,
        In (k, v) ps -> v <> VNone -> v <> VStr "" -> PyStr.strip k <> "" ->
        dict_contains (canonical_key (PyStr.strip k))
          (normalize_params (Some ps)) = true)
  /\ (forall ps key,
        dict_contains key (normalize_params (Some ps)) = true ->
        key = "$format"
        \/ exists k v, In (k, v) ps
                       /\ v <> VNone /\ v <> VStr "" /\ PyStr.strip k <> ""
                       /\ canonical_key (PyStr.strip k) = key)
  /\ (forall params, dict_contains "$format" (normalize_params params) = true)
  /\ (forall ps,
        (forall k v, In (k, v) ps ->
           v <> VNone /\ v <> VStr "" /\ PyStr.strip k <> "" ->
           canonical_key (PyStr.strip k) <> "$format") ->
        dict_get "$format" (normalize_params (Some ps)) = Some (VStr "json"))
  /\ normalize_params None = [("$format", VStr "json")]
  /\ normalize_params (Some [("filter", VStr "A eq B"); ("top", VInt 10)])
     = [("$filter", VStr "A eq B"); ("$top", VInt 10); ("$format", VStr "json")].
Proof.
  repeat match goal with |- _ /\ _ => split end; try reflexivity.
  - intros kw H. simpl in H.
    repeat (destruct H as [<-|H]; [reflexivity|]). destruct H.
  - intros k Hs Hk. unfold canonical_key.
    rewrite Hs, (lstrip_char_plain "$" k Hs). cbn [negb andb].
    now rewrite (proj2 (is_keyword_In _) Hk).
  - intros k [Hs|Hk]; unfold canonical_key.
    + now rewrite Hs.
    + destruct (PyStr.startswith k "$") eqn:Hs; [reflexivity|]. cbn [negb andb].
      rewrite (lstrip_char_plain "$" k Hs).
      destruct (is_keyword (PyStr.lower k)) eqn:E; [|reflexivity].
      now apply is_keyword_In in E.
  - intros ps1 k v ps2 H. unfold normalize_params.
    rewrite !fold_left_app. cbn [fold_left]. now rewrite (entry_skipped _ k v H).
  - intros ps1 k v ps2 H1 H2 H3 Hlast. unfold normalize_params.
    rewrite fold_left_app. cbn [fold_left].
    rewrite (entry_counted _ k v) by (repeat split; assumption).
    set (key := canonical_key (PyStr.strip k)) in *.
    match goal with
    | |- context [dict_set key ?x (fold_left normalize_entry ps1 [])] => set (val := x)
    end.
    set (acc := dict_set key val (fold_left normalize_entry ps1 [])).
    assert (Hget : dict_get key (fold_left normalize_entry ps2 acc) = Some val).
    { rewrite fold_get_stable by (intros k2 v2 Hin Hc; now apply (Hlast k2 v2)).
      apply dict_get_set_eq. }
    destruct (dict_contains "$format" (fold_left normalize_entry ps2 acc)) eqn:Ef;
      [exact Hget|].
    rewrite dict_get_set_ne; [exact Hget|].
    intros E. unfold dict_contains in Ef. rewrite E, Hget in Ef. discriminate Ef.
  - intros ps k v Hin H1 H2 Hk. unfold normalize_params.
    pose proof (fold_stores_entry k v ps [] Hin
                  (proj2 (none_or_empty_false v) (conj H1 H2)) Hk) as H.
    set (d := fold_left normalize_entry ps []) in *.
    destruct (dict_contains "$format" d); [exact H|].
    now apply dict_contains_set.
  - intros ps key H. unfold normalize_params in H.
    destruct (dict_contains "$format" (fold_left normalize_entry ps [])) eqn:Ef.
    + apply fold_keys in H as [H|(k & v & Hin & (H1 & H2 & H3) & Hk)];
        [discriminate H|].
      right. exists k, v. cbn [fst snd] in *. auto 6.
    + apply dict_contains_set_inv in H as [->|H]; [now left|].
      apply fold_keys in H as [H|(k & v & Hin & (H1 & H2 & H3) & Hk)];
        [discriminate H|].
      right. exists k, v. cbn [fst snd] in *. auto 6.
  - intros [ps|]; [|reflexivity]. unfold normalize_params.
    set (d := fold_left normalize_entry ps []).
    destruct (dict_contains "$format" d) eqn:E; [exact E|].
    unfold dict_contains. now rewrite dict_get_set_eq.
  - intros ps H. unfold normalize_params, dict_contains.
    rewrite (fold_get_stable "$format" ps [])
      by (intros k v Hin Hc; now apply (H k v)).
    apply dict_get_set_eq.
Qed.

Lemma normalize_params_canonical_witness :
  normalize_params (Some [("select", VStr "Name"); ("top", VNone); ("skip", VStr "")])
  = normalize_params (Some [("select", VStr "Name"); ("skip", VStr "")])
  /\ dict_get "$filter"
       (normalize_params
          (Some [("top", VInt 5); (" Filter ", VStr "Date lt '2024-01-02'");
                 ("format", VInt 0)]))
     = Some (VStr "Date lt datetime'2024-01-02T00:00:00'")
  /\ dict_get "$format" (normalize_params (Some [("top", VInt 1); ("x", VNone)]))
     = Some (VStr "json").
Proof.
  pose proof normalize_params_canonical as (_ & _ & _ & H4 & H5 & _ & _ & _ & H8 & _).
  split; [|split].
  - apply (H4 [("select", VStr "Name")] "top" VNone [("skip", VStr "")]). now left.
  - apply (H5 [("top", VInt 5)] " Filter " (VStr "Date lt '2024-01-02'")
              [("format", VInt 0)]); try discriminate.
    intros k2 v2 [[= <- <-]|[]] _. discriminate.
  - apply H8. intros k v [[= <- <-]|[[= <- <-]|[]]] (H1 & H2 & H3);
      [discriminate | now destruct H1].
Defined.

End ParamsFacts.

(** ** Entity names *)

Module EntityFacts.

Import PyStr PyStrFacts.

Lemma rstrip_idem x : rstrip (rstrip x) = rstrip x.
Proof.
  induction x as [|c x IH]; [reflexivity|].
  simpl. destruct (rstrip x) as [|a r] eqn:E.
  - destruct (isspace c) eqn:Ec; [reflexivity|]. simpl. now rewrite Ec.
  - change (rstrip (String c (String a r)))
      with (match rstrip (String a r) with
            | EmptyString => if isspace c then EmptyString else String c EmptyString
            | r' => String c r'
            end).
    now rewrite IH.
Qed.

(** A text without trailing white space keeps none when characters are
    taken from its front. *)
Lemma rstrip_tail c x : rstrip (String c x) = String c x -> rstrip x = x.
Proof.
  simpl. destruct (rstrip x) as [|a r].
  - destruct (isspace c); [discriminate|]. now intros [= <-].
  - now intros [= <-].
Qed.

Lemma rstrip_drop n x : rstrip x = x -> rstrip (drop n x) = drop n x.
Proof.
  revert x. induction n as [|n IH]; intros x H; [exact H|].
  destruct x as [|c x]; [reflexivity|]. simpl. apply IH. now apply rstrip_tail in H.
Qed.

Lemma rstrip_lstrip_char ch x :
  rstrip x = x -> rstrip (lstrip_char ch x) = lstrip_char ch x.
Proof.
  induction x as [|c x IH]; intros H; [reflexivity|].
  simpl. destruct (Ascii.eqb c ch); [|exact H].
  apply IH. now apply rstrip_tail in H.
Qed.

Lemma rstrip_lstrip x : rstrip x = x -> rstrip (lstrip x) = lstrip x.
Proof.
  induction x as [|c x IH]; intros H; [reflexivity|].
  simpl. destruct (isspace c); [|exact H].
  apply IH. now apply rstrip_tail in H.
Qed.

Lemma lstrip_rstrip x : lstrip (rstrip (lstrip x)) = rstrip (lstrip x).
Proof.
  induction x as [|c x IH]; [reflexivity|].
  simpl. destruct (isspace c) eqn:Ec; [exact IH|].
  cbn [rstrip]. destruct (rstrip x); rewrite ?Ec; cbn [lstrip]; now rewrite Ec.
Qed.

Lemma strip_idem x : strip (strip x) = strip x.
Proof. unfold strip. rewrite lstrip_rstrip. apply rstrip_idem. Qed.

Lemma rstrip_strip x : rstrip (strip x) = strip x.
Proof. apply rstrip_idem. Qed.

Lemma lstrip_char_idem ch x : lstrip_char ch (lstrip_char ch x) = lstrip_char ch x.
Proof.
  induction x as [|c x IH]; [reflexivity|].
  simpl. destruct (Ascii.eqb c ch) eqn:E; [exact IH|]. simpl. now rewrite E.
Qed.

(** The name the loop builds for a prefix: it is left as it is by a
    second pass. *)
Definition with_prefix (prefix e : string) : string :=
  prefix +:+ "_" +:+ lstrip_char "_" (drop (String.length prefix) e).

Lemma with_prefix_fixed prefix e :
  In prefix prefixes -> rstrip e = e ->
  normalize_entity_name (with_prefix prefix e) = with_prefix prefix e.
Proof.
  intros Hin He. unfold with_prefix.
  set (rest := lstrip_char "_" (drop (String.length prefix) e)).
  assert (Hr : rstrip rest = rest)
    by (apply rstrip_lstrip_char, rstrip_drop, He).
  assert (Hl : lstrip_char "_" rest = rest) by apply lstrip_char_idem.
  clearbody rest.
  assert (Hs : forall p : string,
             rstrip (p +:+ "_" +:+ rest) = p +:+ "_" +:+ rest).
  { induction p as [|c p IH].
    - destruct rest as [|a r]; [reflexivity|].
      apply rstrip_cons; [exact Hr | discriminate].
    - apply rstrip_cons; [exact IH | destruct p; discriminate]. }
  assert (Hfix : forall p : string,
             In p prefixes ->
             lstrip (p +:+ "_" +:+ rest) = p +:+ "_" +:+ rest
             /\ normalize_with prefixes (p +:+ "_" +:+ rest) = p +:+ "_" +:+ rest).
  { intros p Hp. simpl in Hp.
    repeat (destruct Hp as [<-|Hp]; [split; [reflexivity|]; simpl; now rewrite Hl|]).
    destruct Hp. }
  destruct (Hfix prefix Hin) as [H1 H2].
  unfold normalize_entity_name, strip.
  rewrite H1, Hs, H2.
  simpl in Hin.
  repeat (destruct Hin as [<-|Hin]; [reflexivity|]). destruct Hin.
Qed.

(** C9: normalizing an entity name twice gives what normalizing it once
    gives; [Catalog_Foo] stays [Catalog_Foo]. *)
Theorem normalize_entity_name_idempotent :
  (forall s, normalize_entity_name (normalize_entity_name s) = normalize_entity_name s)
  /\ normalize_entity_name "Catalog_Foo" = "Catalog_Foo"
  /\ normalize_entity_name (normalize_entity_name "Catalog_Foo") = "Catalog_Foo".
Proof.
  split; [|split; reflexivity].
  intros s.
  destruct (String.eqb s "") eqn:Es;
    [apply String.eqb_eq in Es; now subst s|].
  assert (E : normalize_entity_name s = normalize_with prefixes (strip s))
    by (unfold normalize_entity_name; now rewrite Es).
  rewrite E. clear E.
  set (e := strip s).
  assert (He : rstrip e = e) by apply rstrip_strip.
  assert (Hse : strip e = e) by apply strip_idem.
  clearbody e.
  assert (H : forall ps, (forall p, In p ps -> In p prefixes) ->
              normalize_entity_name (normalize_with ps e) = normalize_with ps e
              \/ normalize_with ps e = e).
  { induction ps as [|p ps IH]; intros Hps; [now right|].
    cbn [normalize_with].
    destruct (startswith (lower e) (lower p)).
    - left. apply (with_prefix_fixed p e); [apply Hps; now left | exact He].
    - apply IH. intros q Hq. apply Hps. now right. }
  destruct (H prefixes (fun p Hp => Hp)) as [Hfix|Hsame]; [exact Hfix|].
  unfold normalize_entity_name. rewrite Hsame.
  destruct (String.eqb e ""); [reflexivity|]. now rewrite Hse, Hsame.
Qed.

End EntityFacts.

(** ** The validator and repairer *)

Module ValidatorFacts.

Import PlanValidator FilterFacts.

Lemma unknown_empty name : unknown ∅ name = false.
Proof. unfold unknown. now rewrite bool_decide_eq_true_2. Qed.

Lemma _check_fields_unfold l cs vf :
  _check_fields (mkFilterGroup l cs) vf
  = flat_map (fun m => match m with
                       | Group g => _check_fields g vf
                       | Cond c =>
                           if unknown vf (field c)
                           then ["Unknown field in filter: " +:+ field c] else []
                       end) cs.
Proof.
  simpl. induction cs as [|[c|g] cs IH]; simpl; [reflexivity | |].
  - rewrite IH. now destruct (unknown vf (field c)).
  - now rewrite IH.
Qed.

Lemma _check_fields_empty g : _check_fields g ∅ = [].
Proof.
  induction g as [l cs IH] using group_ind.
  rewrite _check_fields_unfold.
  induction cs as [|m cs IHcs]; [reflexivity|].
  inversion IH as [|? ? Hm Hrest]; subst.
  cbn [flat_map]. rewrite (IHcs Hrest), app_nil_r.
  destruct m as [c|g].
  - now rewrite unknown_empty.
  - exact Hm.
Qed.

Lemma filter_unknown_empty (names : list string) :
  filter (fun f => unknown ∅ f = true) names = [].
Proof.
  induction names as [|n names IH]; [reflexivity|].
  rewrite filter_cons. rewrite decide_False; [exact IH|].
  rewrite unknown_empty. discriminate.
Qed.

(** The index has a field set for the entities of the metadata only. *)
Lemma fields_index_absent metadata e :
  e ∉ map entity_of metadata -> _build_fields_index metadata !! e = None.
Proof.
  unfold _build_fields_index.
  assert (G : forall (index : gmap string (gset string)),
             e ∉ map entity_of metadata ->
             fold_left (fun index item =>
                          <[entity_of item := list_to_set (m_fields item)]> index)
               metadata index !! e = index !! e).
  { induction metadata as [|item metadata IH]; intros index Hne; [reflexivity|].
    simpl in *. rewrite IH by set_solver.
    apply lookup_insert_ne. set_solver. }
  intros Hne. now rewrite G.
Qed.

(** C7: when the index has no field set for the plan's entity, or an
    empty one, [validate] reports no field error: it returns the
    unknown-entity error alone, or nothing when the entity is known; and
    for a validator built from a metadata list that does not name the
    entity, it returns the unknown-entity error alone. *)
Theorem validate_without_field_set :
  (forall (self : t) (plan : QueryPlan),
      fields_by_entity self !! entity plan = None
      \/ fields_by_entity self !! entity plan = Some ∅ ->
      validate self plan
      = if bool_decide (entity plan ∈ entities self) then []
        else ["Unknown entity: " +:+ entity plan])
  /\ (forall metadata (plan : QueryPlan),
        entity plan ∉ map entity_of metadata ->
        validate (new metadata) plan = ["Unknown entity: " +:+ entity plan]).
Proof.
  assert (A : forall (self : t) (plan : QueryPlan),
             fields_by_entity self !! entity plan = None
             \/ fields_by_entity self !! entity plan = Some ∅ ->
             validate self plan
             = if bool_decide (entity plan ∈ entities self) then []
               else ["Unknown entity: " +:+ entity plan]).
  { intros self plan H. unfold validate.
    assert (E : valid_fields_of self plan = ∅).
    { unfold valid_fields_of. now destruct H as [-> | ->]. }
    rewrite E, !filter_unknown_empty. simpl. rewrite !app_nil_r.
    destruct (filter_group plan) as [g|]; [|reflexivity].
    now rewrite _check_fields_empty, app_nil_r. }
  split; [exact A|].
  intros metadata plan Hne. rewrite A.
  - rewrite bool_decide_eq_false_2; [reflexivity|].
    simpl. rewrite elem_of_list_to_set. exact Hne.
  - left. now apply fields_index_absent.
Qed.

(** A metadata index with one entity, and a plan for another with an
    unknown name at every place a field can stand. *)
Definition one_entity : list MetadataItem :=
  [ {| m_type := "Catalog"; m_name := "Items"; m_fields := ["Name"; "Code"] |} ].

Definition plan_elsewhere : QueryPlan :=
  {| entity := "Document_Sale";
     filter_group :=
       Some (mkFilterGroup And
               [Cond {| field := "Nmae"; operator := EQ; value := VStr "x";
                        value_type := TString |}]);
     select := ["Cdoe"];
     orderby := [("Dtae", Asc)];
     top := None;
     expand := [] |}.

Lemma validate_without_field_set_witness :
  validate (new one_entity) plan_elsewhere = ["Unknown entity: Document_Sale"].
Proof.
  apply (proj2 validate_without_field_set one_entity plan_elsewhere).
  simpl. set_solver.
Defined.

(** The fields of the conditions of a group, in order, nested groups
    included. *)
Fixpoint filter_fields (g : FilterGroup) : list string :=
  match g with
  | mkFilterGroup _ cs =>
      (fix go (cs : list FilterNode) : list string :=
         match cs with
         | [] => []
         | Group g' :: rest => (filter_fields g' ++ go rest)%list
         | Cond c :: rest => field c :: go rest
         end) cs
  end.

(** A group with the field names taken out: its shape, operators, values
    and value types. *)
Fixpoint without_fields (g : FilterGroup) : FilterGroup :=
  match g with
  | mkFilterGroup l cs =>
      mkFilterGroup l
        ((fix go (cs : list FilterNode) : list FilterNode :=
            match cs with
            | [] => []
            | Group g' :: rest => Group (without_fields g') :: go rest
            | Cond c :: rest =>
                Cond {| field := ""; operator := operator c; value := value c;
                        value_type := value_type c |} :: go rest
            end) cs)
  end.

Lemma _fix_group_keeps_shape g fixer :
  without_fields (_fix_group g fixer) = without_fields g.
Proof.
  induction g as [l cs IH] using group_ind. simpl. f_equal.
  induction cs as [|m cs IHcs]; [reflexivity|].
  inversion IH as [|? ? Hm Hrest]; subst.
  destruct m as [c|g]; simpl in *; rewrite (IHcs Hrest); [reflexivity|].
  now rewrite Hm.
Qed.

Lemma _fix_group_fields g fixer :
  filter_fields (_fix_group g fixer) = map fixer (filter_fields g).
Proof.
  induction g as [l cs IH] using group_ind. simpl.
  induction cs as [|m cs IHcs]; [reflexivity|].
  inversion IH as [|? ? Hm Hrest]; subst.
  destruct m as [c|g]; simpl in *; rewrite (IHcs Hrest); [reflexivity|].
  now rewrite Hm, map_app.
Qed.

Section Repair.

Variable scorer : string -> string -> Z.
Variable set_order : gset string -> list string.

(** What the repair leaves alone, whatever the scores: the entity,
    [top] and [expand]; the shape of the filter with its operators and
    values; the directions of [orderby]; and the names of [select] and
    [orderby] that are known.  In the filter every name goes through
    [_fix_field], known or not. *)
Lemma suggest_fixes_frame (self : t) plan errors :
  let fixed := suggest_fixes scorer set_order self plan errors in
  let vf := valid_fields_of self plan in
  entity fixed = entity plan
  /\ top fixed = top plan
  /\ expand fixed = expand plan
  /\ option_map without_fields (filter_group fixed)
     = option_map without_fields (filter_group plan)
  /\ map snd (orderby fixed) = map snd (orderby plan)
  /\ Forall2 (fun old new => old ∈ vf -> new = old) (select plan) (select fixed)
  /\ Forall2 (fun old new => old ∈ vf -> new = old)
       (map fst (orderby plan)) (map fst (orderby fixed)).
Proof.
  intros fixed vf. unfold fixed, suggest_fixes. fold vf.
  assert (R : forall l : list string, Forall2 (fun old new => old ∈ vf -> new = old) l l)
    by (induction l; constructor; auto).
  destruct errors as [|e errors]; [repeat split; auto|].
  case_bool_decide as Hvf; [repeat split; auto|].
  cbn [entity top expand filter_group select orderby].
  repeat split.
  - destruct (filter_group plan) as [g|]; [|reflexivity].
    simpl. now rewrite _fix_group_keeps_shape.
  - rewrite map_map. reflexivity.
  - induction (select plan) as [|f fs IH]; constructor; [|exact IH].
    intros Hf. now rewrite bool_decide_eq_true_2.
  - rewrite map_map. cbn [fst].
    induction (orderby plan) as [|[f dir] fs IH]; constructor; [|exact IH].
    intros Hf. cbn [fst]. now rewrite bool_decide_eq_true_2.
Qed.

Lemma suggest_fixes_filter (self : t) plan e errors g :
  valid_fields_of self plan <> ∅ ->
  filter_group plan = Some g ->
  option_map filter_fields
    (filter_group (suggest_fixes scorer set_order self plan (e :: errors)))
  = Some (map (_fix_field scorer set_order (valid_fields_of self plan))
            (filter_fields g)).
Proof.
  intros Hvf Hg. unfold suggest_fixes.
  rewrite bool_decide_eq_false_2 by exact Hvf.
  cbn [filter_group]. rewrite Hg. simpl. now rewrite _fix_group_fields.
Qed.

End Repair.

(** An entity with two fields whose names differ by case only, and a plan
    that filters on both and selects a name that is not a field. *)
Definition two_cases : list MetadataItem :=
  [ {| m_type := "Catalog"; m_name := "Items"; m_fields := ["Date"; "date"] |} ].

Definition plan_two_cases : QueryPlan :=
  {| entity := "Catalog_Items";
     filter_group :=
       Some (mkFilterGroup And
               [ Cond {| field := "Date"; operator := GE; value := VStr "2024-01-01";
                         value_type := TDatetime |};
                 Cond {| field := "date"; operator := LT; value := VStr "2025-01-01";
                         value_type := TDatetime |} ]);
     select := ["Prise"];
     orderby := [];
     top := Some 10;
     expand := [] |}.

Lemma two_cases_fields :
  valid_fields_of (new two_cases) plan_two_cases = {["Date"; "date"]}.
Proof.
  unfold valid_fields_of, new, _build_fields_index. simpl.
  rewrite lookup_insert_eq. simpl. set_solver.
Qed.

(** C2 at its failing input: with a score that does not see case (as the
    default processing of the matcher makes it) and any listing order of
    the field set, the repair of [plan_two_cases], whose two filter fields
    are both known, leaves the same name in both conditions: one known
    name has been replaced. *)
Theorem suggest_fixes_rewrites_known_filter_field
  (scorer : string -> string -> Z) (set_order : gset string -> list string) :
  (forall s, set_order s ≡ₚ elements s) ->
  (forall q c, scorer q c = scorer (PyStr.lower q) (PyStr.lower c)) ->
  let validator := new two_cases in
  let errors := validate validator plan_two_cases in
  let fixed := suggest_fixes scorer set_order validator plan_two_cases errors in
  errors = ["Unknown field in select: Prise"]
  /\ Forall (fun f => f ∈ valid_fields_of validator plan_two_cases)
       ["Date"; "date"]
  /\ (option_map filter_fields (filter_group fixed) = Some ["Date"; "Date"]
      \/ option_map filter_fields (filter_group fixed) = Some ["date"; "date"]).
Proof.
  intros Horder Hcase validator errors fixed.
  assert (He : errors = ["Unknown field in select: Prise"]).
  { unfold errors, validate, validator. rewrite two_cases_fields.
    rewrite bool_decide_eq_true_2 by (simpl; set_solver).
    simpl. rewrite filter_cons, decide_True; [reflexivity|].
    unfold unknown.
    rewrite bool_decide_eq_false_2 by set_solver.
    rewrite bool_decide_eq_false_2 by set_solver. reflexivity. }
  split; [exact He|]. split.
  { unfold validator. rewrite two_cases_fields. repeat constructor; set_solver. }
  unfold fixed. rewrite He.
  rewrite (suggest_fixes_filter scorer set_order validator plan_two_cases _ _ _
             ltac:(unfold validator; rewrite two_cases_fields; set_solver) eq_refl).
  unfold validator. rewrite two_cases_fields. cbn [filter_fields map].
  unfold _fix_field.
  set (vf := ({["Date"; "date"]} : gset string)).
  assert (Hl : set_order vf = ["Date"; "date"] \/ set_order vf = ["date"; "Date"]).
  { apply Permutation_length_2_inv. rewrite (Horder vf). unfold vf.
    apply NoDup_Permutation.
    - repeat constructor; set_solver.
    - apply NoDup_elements.
    - intros x. rewrite elem_of_elements. set_solver. }
  assert (S1 : scorer "Date" "Date" = scorer "Date" "date")
    by (rewrite (Hcase "Date" "Date"), (Hcase "Date" "date"); reflexivity).
  assert (S2 : scorer "date" "Date" = scorer "date" "date")
    by (rewrite (Hcase "date" "Date"), (Hcase "date" "date"); reflexivity).
  destruct Hl as [-> | ->]; [left | right]; cbn [extractOne best_of fst snd field].
  - rewrite <- S1, <- S2, !Z.ltb_irrefl. reflexivity.
  - rewrite S1, S2, !Z.ltb_irrefl. reflexivity.
Qed.

(** A score that compares the names without their case, and the listing
    order of the model's sets. *)
Definition same_but_case (q c : string) : Z :=
  if String.eqb (PyStr.lower q) (PyStr.lower c) then 100 else 0.

Lemma lower_lower x : PyStr.lower (PyStr.lower x) = PyStr.lower x.
Proof.
  induction x as [|c x IH]; [reflexivity|]. simpl. rewrite IH. f_equal.
  destruct c as [[] [] [] [] [] [] [] []]; reflexivity.
Qed.

Lemma suggest_fixes_rewrites_known_filter_field_witness :
  option_map filter_fields
    (filter_group
       (suggest_fixes same_but_case elements (new two_cases) plan_two_cases
          (validate (new two_cases) plan_two_cases)))
  = Some ["date"; "date"].
Proof.
  destruct (suggest_fixes_rewrites_known_filter_field same_but_case elements)
    as (_ & _ & [H|H]).
  - reflexivity.
  - intros q c. unfold same_but_case. now rewrite !lower_lower.
  - vm_compute in H. discriminate H.
  - exact H.
Defined.

End ValidatorFacts.

(** ** Retries and error classes of the two clients *)

Module ClientFacts.

(** The classes the two policies retry on. *)
Definition transport (e : PyExn) : bool :=
  Tenacity.retry_if_exception_type LLMClient.policy e
  || Tenacity.retry_if_exception_type ODataClient.policy e.

(** A result that, when it is an exception, is not one of transport. *)
Definition not_transport {A} (r : Result A) : Prop :=
  forall e, r = Raise e -> transport e = false.

Lemma not_transport_ok {A} (a : A) : not_transport (Ok a).
Proof. intros e H. discriminate H. Qed.

Lemma not_transport_raise {A} e : transport e = false -> not_transport (@Raise A e).
Proof. intros H e' [= <-]. exact H. Qed.

Lemma not_transport_bind {A B} (r : Result A) (k : A -> Result B) :
  not_transport r -> (forall a, not_transport (k a)) -> not_transport (bind r k).
Proof.
  intros Hr Hk e. destruct r as [a|e']; simpl.
  - apply Hk.
  - intros [= <-]. now apply Hr.
Qed.

Ltac nt :=
  repeat first
    [ apply not_transport_ok
    | apply not_transport_raise; reflexivity
    | apply not_transport_bind; [|intros ?]
    | match goal with
      | |- not_transport (match ?x with _ => _ end) => destruct x
      | |- not_transport (if ?x then _ else _) => destruct x
      end ].

Lemma str_at_nt obj key : not_transport (LLM.str_at obj key).
Proof. unfold LLM.str_at, LLM.py_in, LLM.getitem. nt. Qed.

Lemma result_or_fail_nt payload : not_transport (LLM.result_or_fail payload).
Proof.
  unfold LLM.result_or_fail. apply not_transport_bind; [apply str_at_nt|].
  intros [s|]; nt.
Qed.

Lemma _extract_llm_text_nt payload : not_transport (LLM._extract_llm_text payload).
Proof.
  unfold LLM._extract_llm_text.
  apply not_transport_bind; [unfold LLM.py_in; nt|]. intros has.
  apply not_transport_bind; [unfold LLM.getitem; nt|]. intros choices.
  destruct (has && LLM.truthy choices); [|apply result_or_fail_nt].
  apply not_transport_bind; [unfold LLM.getitem0; nt|]. intros choice.
  apply not_transport_bind; [unfold LLM.get; nt|]. intros m.
  apply not_transport_bind; [apply str_at_nt|]. intros [s|]; [nt|].
  apply not_transport_bind; [apply str_at_nt|]. intros [s|]; [nt|].
  apply result_or_fail_nt.
Qed.

Section Parsing.

Variable json_loads : string -> Json.Loaded.
Variable model_validate : JSON -> Result QueryPlan.

Let _parse_structured_plan := LLM._parse_structured_plan json_loads model_validate.
Let parse_with_raw := LLM.parse_with_raw json_loads model_validate.

(** How [_parse_structured_plan] ends: with a plan, with a
    [PlanParseError], or with an exception of [json.loads], which
    nothing catches: any but [JSONDecodeError] from the first call, on
    the whole text, and any from the second, on the span. *)
Lemma _parse_structured_plan_cases text :
  (exists plan, _parse_structured_plan text = Ok plan)
  \/ (exists msg, _parse_structured_plan text = Raise (PlanParseError msg))
  \/ (exists doc e,
        json_loads doc = Json.Fails e
        /\ (doc = PyStr.strip text /\ e <> Json.NotJSON
            \/ json_loads (PyStr.strip text) = Json.Fails Json.NotJSON
               /\ LLM._JSON_PATTERN_search (PyStr.strip text) = Some doc)
        /\ _parse_structured_plan text = Raise (Json.loads_exn doc e)).
Proof.
  unfold _parse_structured_plan, LLM._parse_structured_plan.
  destruct (String.eqb text "" || String.eqb (PyStr.strip text) "");
    [right; left; eauto|].
  destruct (json_loads (PyStr.strip text)) as [parsed|e] eqn:E1.
  - simpl. destruct (model_validate parsed); [left | right; left]; eauto.
  - assert (Hother : e <> Json.NotJSON ->
              exists doc e0,
                json_loads doc = Json.Fails e0
                /\ (doc = PyStr.strip text /\ e0 <> Json.NotJSON
                    \/ Json.Fails e = Json.Fails Json.NotJSON
                       /\ LLM._JSON_PATTERN_search (PyStr.strip text) = Some doc)
                /\ Raise (Json.loads_exn (PyStr.strip text) e)
                   = @Raise QueryPlan (Json.loads_exn doc e0)).
    { intros He. exists (PyStr.strip text), e. auto. }
    destruct e as [|msg|msg];
      [|right; right; simpl; apply Hother; discriminate
       |right; right; simpl; apply Hother; discriminate].
    clear Hother.
    destruct (LLM._JSON_PATTERN_search (PyStr.strip text)) as [span|] eqn:E2;
      simpl; [|right; left; eauto].
    destruct (json_loads span) as [parsed|e] eqn:E3; simpl.
    + destruct (model_validate parsed); [left | right; left]; eauto.
    + right; right. exists span, e. auto.
Qed.

(** An exception of [json.loads] is neither a [PlanParseError] nor one
    a policy retries on. *)
Lemma loads_exn_cases doc e :
  Json.loads_exn doc e = JSONDecodeError doc
  \/ (exists msg, Json.loads_exn doc e = PyError "RecursionError" msg)
  \/ (exists msg, Json.loads_exn doc e = ValueError msg).
Proof. destruct e; simpl; eauto. Qed.

(** A [PlanParseError] that leaves [generate_plan] carries the raw
    text. *)
Lemma parse_with_raw_names_text text msg :
  parse_with_raw text = Raise (PlanParseError msg) ->
  exists m, msg = m +:+ ". Raw: " +:+ text.
Proof.
  unfold parse_with_raw, LLM.parse_with_raw. fold _parse_structured_plan.
  destruct (_parse_structured_plan text) as [plan|[]]; try discriminate.
  intros [= <-]. eauto.
Qed.

(** A decoded value that is not a plan ends in a [PlanParseError]. *)
Lemma invalid_plan_is_classified text parsed exc :
  String.eqb text "" || String.eqb (PyStr.strip text) "" = false ->
  json_loads (PyStr.strip text) = Json.Decoded parsed ->
  model_validate parsed = Raise exc ->
  parse_with_raw text
  = Raise (PlanParseError ("Invalid plan structure: " +:+ exn_str exc
                           +:+ ". Raw: " +:+ text)).
Proof.
  intros H0 H1 H2.
  unfold parse_with_raw, LLM.parse_with_raw, LLM._parse_structured_plan.
  rewrite H0, H1. simpl. now rewrite H2.
Qed.

Lemma parse_with_raw_nt text : not_transport (parse_with_raw text).
Proof.
  unfold parse_with_raw, LLM.parse_with_raw. fold _parse_structured_plan.
  destruct (_parse_structured_plan_cases text)
    as [[p ->]|[[m ->]|(doc & e & _ & _ & ->)]]; [nt | nt |].
  destruct e; simpl; nt.
Qed.

End Parsing.

(** *** The retry loop *)

Section Loop.

Context {A : Type}.
Variable policy : Tenacity.Policy.
Variable body : World -> Result A * World.

(** Each run of the body is one attempt. *)
Hypothesis body_counts : forall w, attempts (snd (body w)) = S (attempts w).

(** A policy never runs the body more often than it has attempts. *)
Lemma attempt_bound left n w :
  (attempts w < attempts (snd (Tenacity.attempt policy body left n w))
   <= attempts w + S left)%nat.
Proof using body_counts.
  revert n w. induction left as [|left IH]; intros n w; simpl;
    pose proof (body_counts w) as Hc;
    destruct (body w) as [[a|e] w1]; simpl in *; try lia;
    destruct (Tenacity.retry_if_exception_type policy e); simpl; try lia.
  specialize (IH (S n) (sleep (Tenacity.wait_exponential policy n) w1)).
  simpl in IH. lia.
Qed.

(** It runs it once when the exception is not one it retries on. *)
Lemma attempt_once left n w e w1 :
  body w = (Raise e, w1) ->
  Tenacity.retry_if_exception_type policy e = false ->
  Tenacity.attempt policy body left n w = (Raise e, w1).
Proof. intros Hb He. destruct left; simpl; now rewrite Hb, He. Qed.

End Loop.

Section LLM.

Variable json_loads : string -> Json.Loaded.
Variable model_validate : JSON -> Result QueryPlan.
Variable backend : nat -> bool -> LLMClient.PostOutcome.
Variable clock : nat -> Z.

Let body := LLMClient.generate_plan_body json_loads model_validate backend clock.
Let generate_plan := LLMClient.generate_plan json_loads model_validate backend clock.

Lemma after_response_nt response elapsed :
  not_transport
    (LLMClient.after_response json_loads model_validate response elapsed).
Proof.
  unfold LLMClient.after_response.
  destruct (400 <=? LLMClient.status_code response); [nt|].
  destruct (LLMClient.json response); [|nt].
  apply not_transport_bind; [apply _extract_llm_text_nt|]. intros text.
  apply not_transport_bind; [apply parse_with_raw_nt|]. intros plan. nt.
Qed.

(** The body of [generate_plan] raises nothing the policy retries on:
    what the HTTP library raises is caught and raised again as an
    [LLMClientError]. *)
Lemma generate_plan_body_nt self w : not_transport (fst (body self w)).
Proof.
  unfold body, LLMClient.generate_plan_body.
  destruct (String.eqb (LLMClient.api_key self) ""); [simpl; nt|].
  destruct (String.eqb (LLMClient.model_id self) ""); [simpl; nt|].
  destruct (backend _ _) as [exc|response]; [simpl; nt|].
  destruct (_ && _).
  - destruct (backend _ _) as [exc|response2]; simpl; [nt|].
    apply after_response_nt.
  - simpl. apply after_response_nt.
Qed.

(** So the decorated [generate_plan] runs its body once and never
    waits, with or without the retry package. *)
Lemma generate_plan_single_attempt tenacity_installed self w :
  generate_plan tenacity_installed self w = body self w.
Proof.
  unfold generate_plan, LLMClient.generate_plan, Tenacity.retry. fold body.
  destruct tenacity_installed; [|reflexivity].
  pose proof (generate_plan_body_nt self w) as H.
  destruct (body self w) as [[a|e] w1] eqn:E.
  - simpl. fold body. now rewrite E.
  - apply attempt_once; [exact E|].
    specialize (H e eq_refl). unfold transport in H.
    now apply orb_false_iff in H as [H _].
Qed.

End LLM.

(** *** The failing inputs *)

Definition llm : LLMClient.t :=
  {| LLMClient.api_key := "key";
     LLMClient.model_id := "model";
     LLMClient.base_url := "https://foundation-models.api.cloud.ru/v1";
     LLMClient.auth_scheme := "Bearer";
     LLMClient.use_structured_output := true |}.

Definition odata : ODataClient.t :=
  {| ODataClient.base_url := "https://example/odata";
     ODataClient.username := "";
     ODataClient.password := "" |}.

Definition plan_top1 : QueryPlan :=
  {| entity := "Document_Sale"; filter_group := None; select := [];
     orderby := []; top := Some 1; expand := [] |}.

Definition url_top1 : string :=
  "https://example/odata/standard.odata/Document_Sale?$top=1&$format=json".

(** C1 at its failing inputs: a connection failure of the HTTP library
    ([httpx.NetworkError] for the plan generator, [aiohttp.ClientError]
    for the protocol client) is caught inside the decorated body and
    raised again as the client's own error, which the policy does not
    retry on: one request, one attempt, no wait.  Of the transport
    failures only the plain timeout of the protocol client reaches its
    policy: three attempts, waits of 0.5 s and 1 s, then [RetryError]. *)
Theorem connection_failure_is_not_retried :
  (forall json_loads model_validate clock msg,
      LLMClient.generate_plan json_loads model_validate
        (fun _ _ => LLMClient.PostFails (httpx_NetworkError msg)) clock true llm world0
      = (Raise (LLMClientError ("LLM request failed: " +:+ msg)),
         {| requests := 1; attempts := 1; slept := [] |}))
  /\ (forall clock msg,
        ODataClient.fetch (fun _ _ => ODataClient.GetFails (aiohttp_ClientError msg))
          clock true odata plan_top1 None world0
        = (Raise (ODataClientError ("OData request failed: " +:+ msg) None
                    (Some url_top1)),
           {| requests := 1; attempts := 1; slept := [] |}))
  /\ (forall clock,
        ODataClient.fetch (fun _ _ => ODataClient.GetFails asyncio_TimeoutError)
          clock true odata plan_top1 None world0
        = (Raise (RetryError asyncio_TimeoutError),
           {| requests := 3; attempts := 3; slept := [500; 1000] |})).
Proof. split; [|split]; intros; reflexivity. Qed.

Section Fetch.

Variable server : nat -> string -> ODataClient.GetOutcome.
Variable clock : nat -> Z.

Lemma fetch_body_counts self plan extra w :
  attempts (snd (ODataClient.fetch_body server clock self plan extra w))
  = S (attempts w).
Proof.
  unfold ODataClient.fetch_body.
  destruct (ODataClient.plan_params plan extra); [|reflexivity].
  destruct (ODataUrlBuilder.build _ _ _); [|reflexivity].
  destruct (ODataClient.auth_of self); [|reflexivity].
  destruct (server _ _) as [exc|response].
  - now destruct (ODataClient.is_ClientError exc).
  - destruct (400 <=? ODataClient.status response); [reflexivity|].
    now destruct (ODataClient.json response).
Qed.

(** [fetch] makes at most three attempts. *)
Lemma fetch_at_most_three tenacity_installed self plan extra w :
  (attempts (snd (ODataClient.fetch server clock tenacity_installed self plan extra w))
   <= attempts w + 3)%nat.
Proof.
  unfold ODataClient.fetch, Tenacity.retry.
  destruct tenacity_installed.
  - apply attempt_bound. intros w'. apply fetch_body_counts.
  - rewrite fetch_body_counts. lia.
Qed.

Lemma render_condition_nt c : not_transport (ODataFilterBuilder._render_condition c).
Proof.
  unfold ODataFilterBuilder._render_condition, ODataFilterBuilder._format_value,
    ODataFilterBuilder._normalize_datetime.
  nt.
Qed.

Lemma _build_group_nt g : not_transport (ODataFilterBuilder._build_group g).
Proof.
  induction g as [l cs IH] using FilterFacts.group_ind.
  rewrite FilterFacts._build_group_unfold.
  apply not_transport_bind; [|intros; nt].
  induction cs as [|m cs IHcs]; [simpl; nt|].
  inversion IH as [|? ? Hm Hrest]; subst.
  rewrite FilterFacts.group_parts_cons.
  apply not_transport_bind.
  - destruct m as [c|g]; [apply render_condition_nt | exact Hm].
  - intros e. apply not_transport_bind; [now apply IHcs|]. intros; nt.
Qed.

Lemma plan_params_nt plan extra : not_transport (ODataClient.plan_params plan extra).
Proof.
  unfold ODataClient.plan_params.
  apply not_transport_bind; [|intros; nt].
  destruct (filter_group plan) as [g|]; [|nt].
  apply not_transport_bind; [|intros; nt].
  unfold ODataFilterBuilder.build. destruct (conditions g); [nt|].
  apply _build_group_nt.
Qed.

(** The credentials are accepted when the login has no colon, and
    refused with the error of [BasicAuth] when it has one. *)
Lemma auth_of_cases self :
  (PyStr.contains (ODataClient.username self) ":" = false
   /\ exists auth, ODataClient.auth_of self = Ok auth)
  \/ (PyStr.contains (ODataClient.username self) ":" = true
      /\ ODataClient.auth_of self = Raise (ValueError ODataClient.colon_in_login)).
Proof.
  unfold ODataClient.auth_of, ODataClient.BasicAuth.
  destruct (String.eqb_spec (ODataClient.username self) "") as [E|E].
  - rewrite E. left. split; [reflexivity|].
    destruct (negb _ || negb _); simpl; eauto.
  - cbn [negb orb].
    destruct (PyStr.contains (ODataClient.username self) ":");
      [right | left]; simpl; eauto.
Qed.

Lemma auth_raises self :
  (exists auth, ODataClient.auth_of self = Ok auth)
  \/ ODataClient.auth_of self = Raise (ValueError ODataClient.colon_in_login).
Proof. destruct (auth_of_cases self) as [[_ H]|[_ H]]; auto. Qed.

(** When the service answers, whatever the status and the body, [fetch]
    runs its body once: an error status or a body that is not JSON is
    not asked for again. *)
Lemma fetch_answer_not_retried tenacity_installed self plan extra w :
  (forall n url, exists response, server n url = ODataClient.GetResponds response) ->
  ODataClient.fetch server clock tenacity_installed self plan extra w
  = ODataClient.fetch_body server clock self plan extra w.
Proof.
  intros Hs. unfold ODataClient.fetch, Tenacity.retry.
  destruct tenacity_installed; [|reflexivity].
  destruct (ODataClient.fetch_body server clock self plan extra w)
    as [[a|e] w1] eqn:Hb.
  - destruct (Tenacity.stop_after_attempt ODataClient.policy - 1)%nat;
      simpl; now rewrite Hb.
  - apply attempt_once; [exact Hb|].
    unfold ODataClient.fetch_body in Hb.
    pose proof (plan_params_nt plan extra) as Hp.
    destruct (ODataClient.plan_params plan extra) as [ps|e0].
    + destruct (ODataUrlBuilder.build _ _ _) as [full_url|];
        [|now injection Hb as <- _].
      destruct (auth_raises self) as [[auth Ha]|Ha]; rewrite Ha in Hb;
        [|now injection Hb as <- _].
      destruct (Hs (requests (begin_attempt w)) full_url) as [response Hr].
      rewrite Hr in Hb.
      destruct (400 <=? ODataClient.status response); [now injection Hb as <- _|].
      destruct (ODataClient.json response);
        [discriminate Hb | now injection Hb as <- _].
    + injection Hb as <- _. specialize (Hp e0 eq_refl).
      unfold transport in Hp. now apply orb_false_iff in Hp as [_ Hp].
Qed.

End Fetch.

(** The text of an answer that wraps a plan with an unquoted key. *)
Definition chatty_answer : string := "Here is the plan: {entity: Catalog_Items}".

Definition chatty_response : LLMClient.Response :=
  {| LLMClient.status_code := 200;
     LLMClient.text := "";
     LLMClient.json :=
       Ok (JObject [("choices",
             JArray [JObject [("message",
               JObject [("role", JString "assistant");
                        ("content", JString chatty_answer)])]])]) |}.

(** C5 at its failing input: the text is not JSON, the pattern finds the
    span from the first opening brace to the last closing one, the span is
    not JSON either, and the second [json.loads] raises a
    [JSONDecodeError] that leaves [_parse_structured_plan] and
    [generate_plan] as it is: not a [PlanParseError], and without the raw
    text. *)
Theorem unparsable_span_raises_JSONDecodeError :
  forall (model_validate : JSON -> Result QueryPlan) (clock : nat -> Z),
    Json.loads (PyStr.strip chatty_answer) = None
    /\ LLM._JSON_PATTERN_search (PyStr.strip chatty_answer)
       = Some "{entity: Catalog_Items}"
    /\ Json.loads "{entity: Catalog_Items}" = None
    /\ LLM._parse_structured_plan Json.loads_text model_validate chatty_answer
       = Raise (JSONDecodeError "{entity: Catalog_Items}")
    /\ LLMClient.generate_plan Json.loads_text model_validate
         (fun _ _ => LLMClient.PostResponds chatty_response) clock true llm world0
       = (Raise (JSONDecodeError "{entity: Catalog_Items}"),
          {| requests := 1; attempts := 1; slept := [] |}).
Proof. intros model_validate clock. repeat split. Qed.

End ClientFacts.

(** ** More text lemmas *)

Module TextFacts.

Import PyStr PyStrFacts.

Lemma lower_app (a b : string) : lower (a +:+ b) = lower a +:+ lower b.
Proof. induction a as [|c a IH]; simpl; [reflexivity | now rewrite IH]. Qed.

Lemma drop_length_le n (s : string) :
  (n <= String.length s)%nat ->
  exists a, s = a +:+ drop n s /\ String.length a = n.
Proof.
  revert s. induction n as [|n IH]; intros s Hn.
  - exists "". split; [now destruct s | reflexivity].
  - destruct s as [|c s]; simpl in Hn; [lia|].
    destruct (IH s ltac:(lia)) as (a & Ha & Hl).
    exists (String c a). simpl. split; [now f_equal | now rewrite Hl].
Qed.

(** [s.endswith(p)] says that [s] is some text followed by [p]. *)
Lemma endswith_inv (s p : string) :
  endswith s p = true -> exists a, s = a +:+ p.
Proof.
  unfold endswith. intros H. apply andb_true_iff in H as [Hl He].
  apply Nat.leb_le in Hl. apply String.eqb_eq in He.
  destruct (drop_length_le (String.length s - String.length p) s ltac:(lia))
    as (a & Ha & _).
  exists a. now rewrite He in Ha.
Qed.

Lemma endswith_app_app (a b c : string) : endswith (a +:+ b +:+ c) (b +:+ c) = true.
Proof. apply endswith_app. Qed.

Lemma rstrip_char_cons ch c (x : string) :
  rstrip_char ch x = x -> x <> "" -> rstrip_char ch (String c x) = String c x.
Proof. intros E Hne. simpl. rewrite E. destruct x; [congruence | reflexivity]. Qed.

Lemma rstrip_char_idem ch (x : string) :
  rstrip_char ch (rstrip_char ch x) = rstrip_char ch x.
Proof.
  induction x as [|c x IH]; [reflexivity|].
  simpl. destruct (rstrip_char ch x) as [|a r] eqn:E.
  - destruct (Ascii.eqb c ch) eqn:Ec; [reflexivity|]. simpl. now rewrite Ec.
  - change (rstrip_char ch (String c (String a r)))
      with (match rstrip_char ch (String a r) with
            | EmptyString => if Ascii.eqb c ch then EmptyString else String c EmptyString
            | r' => String c r'
            end).
    now rewrite IH.
Qed.

(** Text in front of a text that does not end with [ch] does not end
    with it either. *)
Lemma rstrip_char_app ch (a b : string) :
  rstrip_char ch b = b -> b <> "" -> rstrip_char ch (a +:+ b) = a +:+ b.
Proof.
  intros Hb Hne. induction a as [|c a IH]; [exact Hb|].
  simpl. rewrite IH. destruct (a +:+ b) eqn:E; [|reflexivity].
  destruct a; simpl in E; [congruence | discriminate].
Qed.

Lemma mem_app c (a b : string) : Quote.mem c (a +:+ b) = Quote.mem c a || Quote.mem c b.
Proof.
  induction a as [|x a IH]; simpl; [reflexivity|].
  rewrite IH. now rewrite orb_assoc.
Qed.

(** The text before the first [ch] of a text that has one after a part
    without it. *)
Lemma split1_app ch (a b : string) :
  Quote.mem ch a = false ->
  split1 ch (a +:+ String ch b) = (a, Some b).
Proof.
  induction a as [|c a IH]; simpl; intros H.
  - now rewrite Ascii.eqb_refl.
  - apply orb_false_iff in H as [H1 H2].
    rewrite Ascii.eqb_sym, H1, (IH H2). reflexivity.
Qed.

Lemma split1_none ch (a : string) :
  Quote.mem ch a = false -> split1 ch a = (a, None).
Proof.
  induction a as [|c a IH]; simpl; intros H; [reflexivity|].
  apply orb_false_iff in H as [H1 H2].
  rewrite Ascii.eqb_sym, H1, (IH H2). reflexivity.
Qed.

Lemma lower_char_idem c : lower_char (lower_char c) = lower_char c.
Proof. destruct c as [[] [] [] [] [] [] [] []]; reflexivity. Qed.

Lemma mem_lower_plain ch (s : string) :
  lower_char ch = ch -> (forall c, lower_char c = ch -> c = ch) ->
  Quote.mem ch (lower s) = Quote.mem ch s.
Proof.
  intros Hch Hinv. induction s as [|c s IH]; [reflexivity|].
  simpl. rewrite IH. f_equal.
  destruct (Ascii.eqb_spec ch (lower_char c)) as [E|E];
    destruct (Ascii.eqb_spec ch c) as [E'|E']; try reflexivity.
  - exfalso. apply E'. symmetry. apply Hinv. now symmetry.
  - exfalso. apply E. subst c. now symmetry.
Qed.

End TextFacts.

(** ** Base addresses *)

Module BaseFacts.

Import PyStr PyStrFacts TextFacts ODataUrlBuilder.

Lemma rstrip_char_suffix (base sfx : string) :
  rstrip_char "/" sfx = sfx -> sfx <> "" ->
  rstrip_char "/" (base +:+ sfx) = base +:+ sfx.
Proof. apply rstrip_char_app. Qed.

(** X4: the base the URL builder works with always ends with the path of
    the standard interface (in any case of the letters), and giving a
    base that has been completed back to the builder changes nothing:
    the path is never added twice. *)
Theorem normalized_base_is_stable (base_url : string) :
  endswith (lower (normalized_base_of base_url)) "/odata/standard.odata" = true
  /\ normalized_base_of (normalized_base_of base_url) = normalized_base_of base_url.
Proof.
  unfold normalized_base_of.
  set (base := rstrip_char "/" base_url).
  assert (Hb : rstrip_char "/" base = base) by apply rstrip_char_idem.
  destruct (endswith (lower base) "/odata/standard.odata") eqn:E1.
  - split; [exact E1|]. now rewrite Hb, E1.
  - destruct (endswith (lower base) "/odata") eqn:E2.
    + apply endswith_inv in E2 as [a Ha].
      assert (E : endswith (lower (base +:+ "/standard.odata"))
                    "/odata/standard.odata" = true).
      { rewrite lower_app, Ha, app_assoc. apply endswith_app. }
      split; [exact E|].
      rewrite (rstrip_char_suffix base "/standard.odata") by (reflexivity || discriminate).
      now rewrite E.
    + assert (E : endswith (lower (base +:+ "/odata/standard.odata"))
                    "/odata/standard.odata" = true).
      { rewrite lower_app. apply endswith_app. }
      split; [exact E|].
      rewrite (rstrip_char_suffix base "/odata/standard.odata")
        by (reflexivity || discriminate).
      now rewrite E.
Qed.

(** X25: the address of the service description always ends with
    [$metadata], and completing a completed address changes nothing. *)
Theorem metadata_url_is_stable (base_url : string) :
  endswith (lower (Tools._metadata_url base_url)) "$metadata" = true
  /\ Tools._metadata_url (Tools._metadata_url base_url) = Tools._metadata_url base_url.
Proof.
  unfold Tools._metadata_url.
  set (base := rstrip_char "/" base_url).
  assert (Hb : rstrip_char "/" base = base) by apply rstrip_char_idem.
  destruct (endswith (lower base) "$metadata") eqn:E1; cbn [negb].
  - split; [exact E1|]. now rewrite Hb, E1.
  - assert (E : endswith (lower (base +:+ "/$metadata")) "$metadata" = true).
    { rewrite lower_app. change (lower "/$metadata") with ("/" +:+ "$metadata").
      rewrite <- app_assoc. apply endswith_app. }
    split; [exact E|].
    rewrite (rstrip_char_suffix base "/$metadata") by (reflexivity || discriminate).
    now rewrite E.
Qed.

End BaseFacts.

(** ** Percent-encoding *)

Module QuoteFacts.

Import PyStr PyStrFacts TextFacts Quote.

(** Reading an encoded text back: a percent sign with two hexadecimal
    digits is one byte, any other character stands for itself, and the
    bytes are the UTF-8 form of the text ([None] when they are not). *)
Fixpoint unquote_to_bytes (s : string) : list N :=
  match s with
  | EmptyString => []
  | String c s' =>
      let plain := code c :: unquote_to_bytes s' in
      if Ascii.eqb c "%" then
        match s' with
        | String h1 (String h2 r) =>
            match Json.hex_value h1, Json.hex_value h2 with
            | Some a, Some b => (a * 16 + b)%N :: unquote_to_bytes r
            | _, _ => plain
            end
        | _ => plain
        end
      else plain
  end.

(** The text of UTF-8 bytes, for code points below 256. *)
Fixpoint utf8_decode (bs : list N) : option string :=
  match bs with
  | [] => Some EmptyString
  | b :: rest =>
      if (b <? 128)%N then option_map (String (ascii_of_N b)) (utf8_decode rest)
      else
        match rest with
        | b2 :: rest' =>
            if ((194 <=? b) && (b <=? 195) && (128 <=? b2) && (b2 <? 192))%N
            then option_map (String (ascii_of_N ((b - 192) * 64 + (b2 - 128))))
                   (utf8_decode rest')
            else None
        | [] => None
        end
  end.

Definition unquote (s : string) : option string :=
  utf8_decode (unquote_to_bytes s).

(** Every character of a text. *)
Fixpoint all_chars (p : ascii -> bool) (s : string) : bool :=
  match s with
  | EmptyString => true
  | String c s' => p c && all_chars p s'
  end.

Lemma all_chars_app p (a b : string) :
  all_chars p (a +:+ b) = all_chars p a && all_chars p b.
Proof.
  induction a as [|c a IH]; simpl; [reflexivity|]. now rewrite IH, andb_assoc.
Qed.

Lemma all_chars_impl (p q : ascii -> bool) (s : string) :
  (forall c, p c = true -> q c = true) -> all_chars p s = true -> all_chars q s = true.
Proof.
  intros H. induction s as [|c s IH]; simpl; [reflexivity|].
  intros E. apply andb_true_iff in E as [E1 E2].
  now rewrite (H _ E1), (IH E2).
Qed.

Lemma all_chars_mem p (s : string) c :
  all_chars p s = true -> p c = false -> mem c s = false.
Proof.
  intros H Hc. induction s as [|x s IH]; [reflexivity|].
  simpl in *. apply andb_true_iff in H as [H1 H2].
  rewrite (IH H2), orb_false_r.
  destruct (Ascii.eqb_spec c x) as [->|]; [congruence | reflexivity].
Qed.

(** What an escape is made of: the percent sign and digits that are
    never quoted themselves. *)
Lemma escape_chars c :
  all_chars (fun x => Ascii.eqb x "%" || always_safe x)
    (String.concat "" (map percent (utf8 c))) = true.
Proof. destruct c as [[] [] [] [] [] [] [] []]; reflexivity. Qed.

(** The characters [quote] writes: the percent sign, the characters
    that are never quoted and those of [safe]. *)
Lemma quote_chars (s safe : string) :
  all_chars (fun x => Ascii.eqb x "%" || always_safe x || mem x safe)
    (quote s safe) = true.
Proof.
  induction s as [|c s IH]; [reflexivity|].
  cbn [quote]. rewrite all_chars_app, IH, andb_true_r.
  unfold quote_char.
  destruct ((code c <? 128)%N && (always_safe c || mem c safe)) eqn:E.
  - apply andb_true_iff in E as [_ E]. simpl.
    now rewrite <- orb_assoc, E, orb_true_r.
  - eapply all_chars_impl; [|apply escape_chars].
    intros x Hx. simpl in Hx. now rewrite Hx.
Qed.

(** A character that is not the percent sign, is quoted by default and
    is not in [safe] does not occur in the encoded text. *)
Lemma quote_has_no (s safe : string) c :
  Ascii.eqb c "%" || always_safe c || mem c safe = false ->
  mem c (quote s safe) = false.
Proof. intros H. eapply all_chars_mem; [apply quote_chars | exact H]. Qed.

Lemma escape_bytes c (rest : string) :
  (code c <? 128)%N && always_safe c = false ->
  unquote_to_bytes (String.concat "" (map percent (utf8 c)) +:+ rest)
  = (utf8 c ++ unquote_to_bytes rest)%list.
Proof.
  destruct c as [[] [] [] [] [] [] [] []]; intros H;
    first [discriminate H | reflexivity].
Qed.

Lemma unquote_to_bytes_quote_char safe c (rest : string) :
  mem "%" safe = false ->
  unquote_to_bytes (quote_char safe c +:+ rest)
  = (utf8 c ++ unquote_to_bytes rest)%list.
Proof.
  intros Hsafe. unfold quote_char.
  destruct ((code c <? 128)%N && (always_safe c || mem c safe)) eqn:E.
  - apply andb_true_iff in E as [E1 E2].
    assert (Hc : Ascii.eqb c "%" = false).
    { destruct (Ascii.eqb_spec c "%") as [->|]; [|reflexivity].
      rewrite Hsafe in E2. discriminate E2. }
    cbn [String.append unquote_to_bytes]. rewrite Hc.
    unfold utf8. fold (code c). now rewrite E1.
  - destruct ((code c <? 128)%N && always_safe c) eqn:E'.
    + apply andb_true_iff in E' as [E1 E2]. now rewrite E1, E2 in E.
    + now apply escape_bytes.
Qed.

(** The UTF-8 bytes of a text. *)
Fixpoint encode_utf8 (s : string) : list N :=
  match s with
  | EmptyString => []
  | String c s' => (utf8 c ++ encode_utf8 s')%list
  end.

Lemma unquote_to_bytes_quote (s safe : string) :
  mem "%" safe = false ->
  unquote_to_bytes (quote s safe) = encode_utf8 s.
Proof.
  intros Hsafe. induction s as [|c s IH]; [reflexivity|].
  cbn [quote encode_utf8]. now rewrite unquote_to_bytes_quote_char, IH.
Qed.

Lemma utf8_decode_char c (bs : list N) :
  utf8_decode (utf8 c ++ bs) = option_map (String c) (utf8_decode bs).
Proof. destruct c as [[] [] [] [] [] [] [] []]; reflexivity. Qed.

Lemma utf8_decode_text (s : string) : utf8_decode (encode_utf8 s) = Some s.
Proof.
  induction s as [|c s IH]; [reflexivity|].
  cbn [encode_utf8]. now rewrite utf8_decode_char, IH.
Qed.

(** Decoding gives the text back, for every set of safe characters
    without the percent sign. *)
Lemma unquote_quote (s safe : string) :
  mem "%" safe = false -> unquote (quote s safe) = Some s.
Proof.
  intros H. unfold unquote. rewrite unquote_to_bytes_quote by exact H.
  apply utf8_decode_text.
Qed.

End QuoteFacts.

(** ** The parts of an address *)

Module AddressFacts.

Import PyStr PyStrFacts TextFacts Quote QuoteFacts ODataUrlBuilder.

(** X5: the encodings of the URL builder lose nothing.  Decoding the
    encoded filter gives the filter back, and the last segment of the
    root decodes to the normalized entity name. *)
Theorem encodings_decode_back :
  (forall filter_str, unquote (_encode_filter filter_str) = Some filter_str)
  /\ (forall base_url entity,
        exists segment,
          root_of base_url entity = normalized_base_of base_url +:+ "/" +:+ segment
          /\ mem "/" segment = false
          /\ unquote segment = Some (normalize_entity_name entity)).
Proof.
  split.
  - intros f. now apply unquote_quote.
  - intros base_url entity. eexists. split; [reflexivity|]. split.
    + now apply quote_has_no.
    + now apply unquote_quote.
Qed.

(** Reading a query back: the parts between the [&] signs, each a key
    and a value around the first [=], both decoded. *)
Definition decode_part (part : string) : option (string * string) :=
  match split1 "=" part with
  | (k, Some v) =>
      match unquote k, unquote v with
      | Some k', Some v' => Some (k', v')
      | _, _ => None
      end
  | (_, None) => None
  end.

Definition decode_query (query : string) : list (option (string * string)) :=
  map decode_part (split "&" query).

(** The parameters that reach the address: those whose value is
    neither [None] nor the empty text, with the text of the value. *)
Definition sent_params (d : Dict) : list (string * string) :=
  omap (fun kv => if none_or_empty (snd kv) then None
                  else Some (fst kv, py_str (snd kv))) d.

Lemma split_plain ch (p : string) : mem ch p = false -> split ch p = [p].
Proof.
  induction p as [|c p IH]; [reflexivity|].
  simpl. intros H. apply orb_false_iff in H as [H1 H2].
  rewrite Ascii.eqb_sym, H1, (IH H2). reflexivity.
Qed.

Lemma split_app ch (p r : string) :
  mem ch p = false -> split ch (p +:+ String ch r) = p :: split ch r.
Proof.
  induction p as [|c p IH]; simpl; intros H.
  - now rewrite Ascii.eqb_refl.
  - apply orb_false_iff in H as [H1 H2].
    rewrite Ascii.eqb_sym, H1, (IH H2). reflexivity.
Qed.

(** Splitting a joined list at a separator that no part contains gives
    the list back. *)
Lemma split_join ch (parts : list string) :
  Forall (fun p => mem ch p = false) parts -> parts <> [] ->
  split ch (join (String ch "") parts) = parts.
Proof.
  induction 1 as [|p parts Hp Hrest IH]; [congruence|]. intros _.
  destruct parts as [|q parts]; [now apply split_plain|].
  change (join (String ch "") (p :: q :: parts))
    with (p +:+ String ch "" +:+ join (String ch "") (q :: parts)).
  change (p +:+ String ch "" +:+ join (String ch "") (q :: parts))
    with (p +:+ String ch (join (String ch "") (q :: parts))).
  rewrite split_app by exact Hp. f_equal. apply IH. discriminate.
Qed.

Lemma encoded_value_chars key value enc :
  enc = match value with
        | VStr v => if String.eqb key "$filter" then _encode_filter v
                    else quote (py_str value) "$,:'"
        | _ => quote (py_str value) "$,:'"
        end ->
  mem "&" enc = false /\ unquote enc = Some (py_str value).
Proof.
  intros ->. unfold _encode_filter.
  destruct value; try (split; [now apply quote_has_no | now apply unquote_quote]).
  destruct (String.eqb key "$filter");
    (split; [now apply quote_has_no | now apply unquote_quote]).
Qed.

Lemma query_part_decodes key value part :
  query_part key value = Some part ->
  none_or_empty value = false
  /\ mem "&" part = false
  /\ decode_part part = Some (key, py_str value).
Proof.
  unfold query_part. destruct (none_or_empty value); [discriminate|].
  intros [= <-]. split; [reflexivity|].
  destruct (encoded_value_chars key value _ eq_refl) as [Hamp Hdec].
  set (enc := match value with VStr v => _ | _ => _ end) in *. clearbody enc.
  split.
  - change (quote key "$" +:+ "=" +:+ enc) with (quote key "$" +:+ String "=" enc).
    rewrite mem_app. cbn [mem String.append].
    rewrite Hamp. rewrite (quote_has_no key "$" "&" eq_refl). reflexivity.
  - unfold decode_part.
    change (quote key "$" +:+ "=" +:+ enc) with (quote key "$" +:+ String "=" enc).
    rewrite split1_app by (now apply quote_has_no).
    cbn [String.append]. now rewrite unquote_quote, Hdec.
Qed.

Lemma query_part_none key value :
  query_part key value = None -> none_or_empty value = true.
Proof. unfold query_part. now destruct (none_or_empty value). Qed.

Lemma query_parts_decode (d : Dict) :
  Forall (fun p => mem "&" p = false) (query_parts d)
  /\ map decode_part (query_parts d) = map Some (sent_params d).
Proof.
  unfold query_parts, sent_params.
  induction d as [|[k v] d [IH1 IH2]]; [split; [constructor | reflexivity]|].
  cbn [omap list_omap fst snd].
  destruct (query_part k v) as [part|] eqn:E.
  - apply query_part_decodes in E as (Hv & Hamp & Hdec).
    rewrite Hv. split.
    + constructor; assumption.
    + cbn [map]. now rewrite Hdec, IH2.
  - apply query_part_none in E. rewrite E. now split.
Qed.

(** The parameters [build] works with: those given, and [$format] when
    they have none. *)
Definition with_format (params : option Dict) : Dict :=
  let d := match params with Some d => d | None => [] end in
  if dict_contains "$format" d then d else dict_set "$format" (VStr "json") d.

Lemma build_reads_back (base_url entity : string) (params : option Dict) :
  base_url <> "" -> entity <> "" ->
  (sent_params (with_format params) = []
   /\ build base_url entity params = Ok (root_of base_url entity))
  \/ (exists query,
        build base_url entity params = Ok (root_of base_url entity +:+ "?" +:+ query)
        /\ decode_query query = map Some (sent_params (with_format params))).
Proof.
  intros Hb He. unfold build. apply String.eqb_neq in Hb, He. rewrite Hb, He.
  fold (with_format params).
  destruct (query_parts_decode (with_format params)) as [Hamp Hdec].
  destruct (query_parts (with_format params)) as [|p ps] eqn:E.
  - left. split; [|reflexivity].
    destruct (sent_params (with_format params)); [reflexivity | discriminate Hdec].
  - right. eexists. split; [reflexivity|].
    unfold decode_query. rewrite (split_join "&" (p :: ps)) by (assumption || discriminate).
    exact Hdec.
Qed.

(** X6: the address [build] makes is the root alone when no parameter
    has a value, and otherwise the root, a question mark and a query
    that reads back as the parameters that have a value, in their
    order, each with its key and the text of its value: no key or value
    can add, hide or split a parameter. *)
Theorem build_query_reads_back (base_url entity : string) (params : option Dict) :
  base_url <> "" -> entity <> "" ->
  (sent_params (with_format params) = []
   /\ build base_url entity params = Ok (root_of base_url entity))
  \/ (exists query,
        build base_url entity params = Ok (root_of base_url entity +:+ "?" +:+ query)
        /\ decode_query query = map Some (sent_params (with_format params))).
Proof. apply build_reads_back. Qed.

Lemma build_query_reads_back_witness :
  exists query,
    build "https://example/odata" "Document_Sale"
      (Some [("$filter", VStr "Name eq 'a&b=c'"); ("$select", VStr ""); ("$top", VInt 5)])
    = Ok (root_of "https://example/odata" "Document_Sale" +:+ "?" +:+ query)
    /\ decode_query query
       = [Some ("$filter", "Name eq 'a&b=c'"); Some ("$top", "5");
          Some ("$format", "json")].
Proof.
  destruct (build_query_reads_back "https://example/odata" "Document_Sale"
              (Some [("$filter", VStr "Name eq 'a&b=c'"); ("$select", VStr "");
                     ("$top", VInt 5)]))
    as [[H _]|H]; [discriminate | discriminate | discriminate H | exact H].
Defined.

Lemma mem_rstrip_char c ch (s : string) :
  mem c s = false -> mem c (rstrip_char ch s) = false.
Proof.
  induction s as [|x s IH]; [reflexivity|].
  simpl. intros H. apply orb_false_iff in H as [H1 H2].
  specialize (IH H2).
  destruct (rstrip_char ch s) as [|a r].
  - destruct (Ascii.eqb x ch); [reflexivity|]. simpl. now rewrite H1.
  - change (mem c (String x (String a r)))
      with (Ascii.eqb c x || mem c (String a r)).
    now rewrite H1, IH.
Qed.

Lemma root_has_no_question_mark base_url entity :
  mem "?" base_url = false -> mem "?" (root_of base_url entity) = false.
Proof.
  intros H. unfold root_of. rewrite !mem_app.
  rewrite (quote_has_no _ "$()_-~." "?" eq_refl).
  change (mem "?" "/") with false. rewrite !orb_false_r.
  unfold normalized_base_of.
  pose proof (mem_rstrip_char "?" "/" base_url H) as Hr.
  repeat match goal with |- context [if ?b then _ else _] => destruct b end;
    rewrite ?mem_app, Hr; reflexivity.
Qed.

(** X11: for a base address without a question mark, [build_odata_url]
    returns the root of the address (the base, completed, and the
    encoded entity) with the normalized parameters: cutting the address
    at its first question mark takes the query off and nothing else. *)
Theorem build_odata_url_root (base_url entity : string) (params : option Dict) :
  base_url <> "" -> entity <> "" -> mem "?" base_url = false ->
  Legacy.build_odata_url base_url entity params
  = Ok (root_of base_url entity, QueryTool.normalize_params params).
Proof.
  intros Hb He Hq. unfold Legacy.build_odata_url.
  pose proof (root_has_no_question_mark base_url entity Hq) as Hroot.
  destruct (build_reads_back base_url entity
              (Some (QueryTool.normalize_params params)) Hb He)
    as [[_ ->]|(query & -> & _)]; cbn [bind].
  - now rewrite split1_none.
  - change (root_of base_url entity +:+ "?" +:+ query)
      with (root_of base_url entity +:+ String "?" query).
    now rewrite split1_app.
Qed.

Lemma build_odata_url_root_witness :
  Legacy.build_odata_url "https://example/odata/" "catalog_Items"
    (Some [("filter", VStr "Date lt '2024-01-02'")])
  = Ok ("https://example/odata/standard.odata/Catalog_Items",
        [("$filter", VStr "Date lt datetime'2024-01-02T00:00:00'");
         ("$format", VStr "json")]).
Proof.
  apply (build_odata_url_root "https://example/odata/" "catalog_Items"
           (Some [("filter", VStr "Date lt '2024-01-02'")]));
    [discriminate | discriminate | reflexivity].
Defined.

End AddressFacts.

(** ** Literals and failures of the filter renderer *)

Module LiteralFacts.

Import PyStr PyStrFacts ODataFilterBuilder FilterFacts.

(** Reading a text literal of the protocol back: the text after the
    opening quote up to the closing one, which must end the input, two
    quotes in a row standing for one. *)
Fixpoint literal_body (s : string) : option string :=
  match s with
  | EmptyString => None
  | String c r =>
      if Ascii.eqb c "'" then
        match r with
        | EmptyString => Some EmptyString
        | String c2 r2 =>
            if Ascii.eqb c2 "'" then option_map (String "'"%char) (literal_body r2)
            else None
        end
      else option_map (String c) (literal_body r)
  end.

Definition read_string_literal (s : string) : option string :=
  match s with
  | String "'" r => literal_body r
  | _ => None
  end.

Lemma literal_body_escaped (s : string) :
  literal_body (replace_char "'" "''" s +:+ "'") = Some s.
Proof.
  induction s as [|c s IH]; [reflexivity|].
  cbn [replace_char]. destruct (Ascii.eqb_spec c "'") as [->|Hc].
  - cbn [String.append literal_body]. cbn. now rewrite IH.
  - cbn [String.append literal_body].
    apply Ascii.eqb_neq in Hc. now rewrite Hc, IH.
Qed.

(** X1: a value of type string is written as one text literal that
    reads back as the text of the value: every quote of the value is
    doubled, so no value ends its literal early. *)
Theorem string_literal_reads_back (v : PyValue) :
  exists lit,
    _format_value v TString = Ok lit
    /\ read_string_literal lit = Some (py_str v).
Proof.
  eexists. split; [reflexivity|].
  cbn [String.append read_string_literal]. apply literal_body_escaped.
Qed.

(** The conditions of a group, in order, nested groups included. *)
Fixpoint group_conditions (g : FilterGroup) : list FilterCondition :=
  match g with
  | mkFilterGroup _ cs =>
      (fix go (cs : list FilterNode) : list FilterCondition :=
         match cs with
         | [] => []
         | Group g' :: rest => (group_conditions g' ++ go rest)%list
         | Cond c :: rest => c :: go rest
         end) cs
  end.

Definition member_conditions (m : FilterNode) : list FilterCondition :=
  match m with
  | Cond c => [c]
  | Group g => group_conditions g
  end.

Lemma group_conditions_unfold l cs :
  group_conditions (mkFilterGroup l cs) = flat_map member_conditions cs.
Proof.
  simpl. induction cs as [|[c|g] cs IH]; simpl; [reflexivity | |]; now rewrite IH.
Qed.

(** The error of a value of type datetime that no format reads. *)
Definition unrecognized (c : FilterCondition) : PyExn :=
  ValueError ("Unrecognized datetime format: " +:+ py_str (value c)).

(** A value that is not a date or a datetime of Python. *)
Definition not_native (v : PyValue) : Prop :=
  match v with
  | VDate _ _ _ | VDatetime _ _ _ _ _ _ _ => False
  | _ => True
  end.

Lemma render_condition_fails c e :
  _render_condition c = Raise e ->
  value_type c = TDatetime /\ e = unrecognized c
  /\ not_native (value c)
  /\ try_patterns patterns (strip (py_str (value c))) = None
  /\ contains (strip (py_str (value c))) "T" = false.
Proof.
  unfold _render_condition, _format_value, unrecognized.
  destruct (value_type c); try discriminate.
  unfold _normalize_datetime.
  destruct (value c); try discriminate;
    match goal with
    | |- context [try_patterns patterns ?raw] =>
        destruct (try_patterns patterns raw) eqn:EP; [discriminate|];
        destruct (contains raw "T") eqn:ET;
        [destruct (split1 "T" raw); discriminate|]
    end;
    simpl; intros [= <-]; repeat split; assumption.
Qed.

(** And a condition of type datetime with such a value does not
    render. *)
Lemma render_condition_raises c :
  value_type c = TDatetime -> not_native (value c) ->
  try_patterns patterns (strip (py_str (value c))) = None ->
  contains (strip (py_str (value c))) "T" = false ->
  _render_condition c = Raise (unrecognized c).
Proof.
  intros Ht Hn Hp HT. unfold _render_condition, _format_value, unrecognized.
  rewrite Ht. unfold _normalize_datetime.
  destruct (value c); try destruct Hn; now rewrite Hp, HT.
Qed.

Lemma group_parts_fails cs e :
  group_parts cs = Raise e -> exists m, In m cs /\ member_expr m = Raise e.
Proof.
  induction cs as [|m cs IH]; [discriminate|].
  rewrite group_parts_cons.
  destruct (member_expr m) as [x|e'] eqn:Em; simpl.
  - destruct (group_parts cs) as [parts|e'']; simpl; [discriminate|].
    intros [= <-]. destruct (IH eq_refl) as (m' & Hin & Hm').
    exists m'. split; [now right | exact Hm'].
  - intros [= <-]. exists m. split; [now left | exact Em].
Qed.

Lemma build_group_fails g e :
  _build_group g = Raise e ->
  exists c, In c (group_conditions g) /\ _render_condition c = Raise e.
Proof.
  revert e. induction g as [l cs IH] using group_ind. intros e.
  rewrite _build_group_unfold, group_conditions_unfold.
  destruct (group_parts cs) as [parts|e'] eqn:E; [discriminate|].
  simpl. intros [= <-].
  apply group_parts_fails in E as (m & Hin & Hm).
  rewrite List.Forall_forall in IH. specialize (IH m Hin).
  destruct m as [c|g]; simpl in *.
  - exists c. split; [|exact Hm]. apply in_flat_map. exists (Cond c). simpl. auto.
  - destruct (IH e' Hm) as (c & Hc & Hr).
    exists c. split; [|exact Hr]. apply in_flat_map. exists (Group g). auto.
Qed.

Lemma build_fails g e :
  build (Some g) = Raise e ->
  exists c, In c (group_conditions g)
            /\ value_type c = TDatetime
            /\ not_native (value c)
            /\ try_patterns patterns (strip (py_str (value c))) = None
            /\ contains (strip (py_str (value c))) "T" = false
            /\ e = unrecognized c.
Proof.
  unfold build. destruct (conditions g); [discriminate|].
  intros H. apply build_group_fails in H as (c & Hin & Hr).
  apply render_condition_fails in Hr as (Ht & He & Hn & Hp & HT).
  exists c. auto 7.
Qed.

Lemma group_parts_raises cs m e :
  In m cs -> member_expr m = Raise e -> exists e', group_parts cs = Raise e'.
Proof.
  induction cs as [|m' cs IH]; intros Hin Hm; [destruct Hin|].
  rewrite group_parts_cons.
  destruct (member_expr m') as [x|e0] eqn:Em; simpl; [|eauto].
  destruct Hin as [->|Hin]; [rewrite Hm in Em; discriminate Em|].
  destruct (IH Hin Hm) as [e' ->]. simpl. eauto.
Qed.

Lemma build_group_raises g c e :
  In c (group_conditions g) -> _render_condition c = Raise e ->
  exists e', _build_group g = Raise e'.
Proof.
  induction g as [l cs IH] using group_ind.
  rewrite _build_group_unfold, group_conditions_unfold.
  intros Hin Hr. apply in_flat_map in Hin as (m & Hm & Hc).
  rewrite List.Forall_forall in IH. specialize (IH m Hm).
  assert (He : exists e0, member_expr m = Raise e0).
  { destruct m as [c'|g]; cbn [member_conditions member_expr] in *.
    - destruct Hc as [->|[]]. eauto.
    - now apply IH. }
  destruct He as [e0 He].
  destruct (group_parts_raises cs m e0 Hm He) as [e' ->]. simpl. eauto.
Qed.

Lemma build_raises g c e :
  In c (group_conditions g) -> _render_condition c = Raise e ->
  exists e', build (Some g) = Raise e'.
Proof.
  intros Hin Hr. unfold build. destruct g as [l cs]. cbn [conditions].
  destruct cs as [|m cs].
  - rewrite group_conditions_unfold in Hin. destruct Hin.
  - now apply (build_group_raises (mkFilterGroup l (m :: cs)) c e).
Qed.

(** X3: rendering a filter fails exactly when it has a condition of
    type datetime whose value no format reads and whose text has no
    [T], and then with the error of such a condition; a filter without
    conditions of type datetime always renders. *)
Theorem build_fails_only_on_datetime (g : FilterGroup) :
  (forall e, build (Some g) = Raise e ->
     exists c, In c (group_conditions g)
               /\ value_type c = TDatetime
               /\ not_native (value c)
               /\ try_patterns patterns (strip (py_str (value c))) = None
               /\ contains (strip (py_str (value c))) "T" = false
               /\ e = ValueError ("Unrecognized datetime format: "
                                  +:+ py_str (value c)))
  /\ (forall c, In c (group_conditions g) ->
        value_type c = TDatetime -> not_native (value c) ->
        try_patterns patterns (strip (py_str (value c))) = None ->
        contains (strip (py_str (value c))) "T" = false ->
        exists e, build (Some g) = Raise e)
  /\ (Forall (fun c => value_type c <> TDatetime) (group_conditions g) ->
      exists s, build (Some g) = Ok s).
Proof.
  split; [apply build_fails|]. split.
  - intros c Hin Ht Hn Hp HT.
    apply (build_raises g c (unrecognized c) Hin).
    now apply render_condition_raises.
  - intros Hall. destruct (build (Some g)) as [s|e] eqn:E; [eauto|].
    destruct (build_fails g e E) as (c & Hin & Ht & _).
    rewrite List.Forall_forall in Hall. now destruct (Hall c Hin).
Qed.

Lemma build_fails_only_on_datetime_witness :
  (exists c,
     In c [ {| field := "Name"; operator := EQ; value := VStr "x";
               value_type := TString |};
            {| field := "Date"; operator := LT; value := VStr "yesterday";
               value_type := TDatetime |} ]
     /\ value_type c = TDatetime
     /\ not_native (value c)
     /\ try_patterns patterns (strip (py_str (value c))) = None
     /\ contains (strip (py_str (value c))) "T" = false
     /\ ValueError "Unrecognized datetime format: yesterday"
        = ValueError ("Unrecognized datetime format: " +:+ py_str (value c)))
  /\ (exists e,
        build (Some (mkFilterGroup And
                       [ Group (mkFilterGroup Or
                           [Cond {| field := "Date"; operator := LT;
                                    value := VStr "yesterday";
                                    value_type := TDatetime |}]) ])) = Raise e)
  /\ exists s,
       build (Some (mkFilterGroup Or
                      [Cond {| field := "Name"; operator := EQ; value := VStr "x";
                               value_type := TString |}])) = Ok s.
Proof.
  split; [|split].
  - apply (proj1 (build_fails_only_on_datetime
                    (mkFilterGroup And
                       [ Group (mkFilterGroup Or
                           [Cond {| field := "Name"; operator := EQ; value := VStr "x";
                                    value_type := TString |}]);
                         Cond {| field := "Date"; operator := LT;
                                 value := VStr "yesterday";
                                 value_type := TDatetime |} ]))).
    reflexivity.
  - apply (proj1 (proj2 (build_fails_only_on_datetime _))
             {| field := "Date"; operator := LT; value := VStr "yesterday";
                value_type := TDatetime |});
      [now left | reflexivity | exact I | reflexivity | reflexivity].
  - apply (proj2 (proj2 (build_fails_only_on_datetime _))).
    repeat constructor. discriminate.
Defined.

End LiteralFacts.

(** ** Date and time values, once more *)

Module StableDateFacts.

Import PyStr PyStrFacts Strptime ODataFilterBuilder DatetimeFacts.

Lemma strptime_valid raw fmt t :
  strptime raw fmt = Some t -> valid_datetime t = true.
Proof.
  unfold strptime.
  destruct (match_items (parse_format fmt) raw []) as [[fs [|? ?]]|]; try discriminate.
  match goal with |- context [valid_datetime ?x] => destruct (valid_datetime x) eqn:E end;
    [|discriminate].
  now intros [= <-].
Qed.

Lemma at_midnight_valid t :
  valid_datetime t = true -> valid_datetime (at_midnight t) = true.
Proof.
  unfold valid_datetime. cbn [at_midnight year month day hour minute second].
  intros H. repeat (apply andb_true_iff in H as [H ?]).
  repeat (apply andb_true_iff; split); auto.
Qed.

Lemma try_patterns_valid pats raw out :
  try_patterns pats raw = Some out ->
  exists t, valid_datetime t = true /\ out = isoformat_of t.
Proof.
  induction pats as [|[fmt add_time] pats IH]; [discriminate|].
  cbn [try_patterns]. destruct (strptime raw fmt) as [parsed|] eqn:E; [|exact IH].
  intros [= <-]. apply strptime_valid in E.
  destruct add_time; eexists; split; try reflexivity;
    [now apply at_midnight_valid | exact E].
Qed.

(** The normal form of a valid date and time is read as itself. *)
Lemma normalize_isoformat t :
  valid_datetime t = true ->
  _normalize_datetime (VStr (isoformat_of t)) = Ok (isoformat_of t).
Proof.
  destruct t as [y m d h mi s]. intros valid.
  destruct (strip_texts y m d h mi s valid) as (S1 & _).
  destruct (try_patterns_texts y m d h mi s valid) as (T1 & _).
  unfold _normalize_datetime. cbn [py_str].
  change (isoformat_of (mk_datetime y m d h mi s)) with (iso_full y m d h mi s).
  now rewrite S1, T1.
Qed.

(** The values the normalization reads: native ones that are dates,
    and those whose text one of the formats reads. *)
Definition reads (v : PyValue) : bool :=
  match v with
  | VDate y m d => valid_datetime (mk_datetime y m d 0 0 0)
  | VDatetime y m d h mi s _ => valid_datetime (mk_datetime y m d h mi s)
  | _ =>
      match try_patterns patterns (strip (py_str v)) with
      | Some _ => true
      | None => false
      end
  end.

(** X2: what the normalization gives for a value it reads is a text it
    reads as itself: normalizing twice is normalizing once. *)
Theorem normalize_datetime_is_stable (v : PyValue) (out : string) :
  reads v = true ->
  _normalize_datetime v = Ok out ->
  _normalize_datetime (VStr out) = Ok out.
Proof.
  intros Hr Hn.
  assert (H : exists t, valid_datetime t = true /\ out = isoformat_of t).
  { unfold _normalize_datetime, reads in *.
    destruct v as [|b|n|r nz|s|y m d|y m d h mi s us];
      try (destruct (try_patterns patterns _) as [x|] eqn:E; [|discriminate Hr];
           injection Hn as <-; now apply try_patterns_valid in E).
    - injection Hn as <-. now exists (mk_datetime y m d 0 0 0).
    - injection Hn as <-. now exists (mk_datetime y m d h mi s). }
  destruct H as (t & Hv & ->). now apply normalize_isoformat.
Qed.

Lemma normalize_datetime_is_stable_witness :
  _normalize_datetime (VStr "2024-01-15T00:00:00") = Ok "2024-01-15T00:00:00".
Proof.
  apply (normalize_datetime_is_stable (VStr " 15.01.2024 ") "2024-01-15T00:00:00");
    reflexivity.
Defined.

End StableDateFacts.

(** ** The raw-parameter pass, once more *)

Module PassFacts.

Import PyStr PyStrFacts TextFacts QueryTool DictFacts.

Lemma contains_cons c (s sub : string) :
  contains s sub = true -> contains (String c s) sub = true.
Proof. intros H. cbn [contains]. rewrite H. apply orb_true_r. Qed.

Lemma contains_empty_text sub : sub <> "" -> contains "" sub = false.
Proof. destruct sub; [congruence | reflexivity]. Qed.

Lemma _repl_prefix raw : exists x, _repl raw = "datetime'" +:+ x.
Proof.
  unfold _repl.
  destruct (contains raw "T" || contains raw "t");
    [destruct (split1 "T" (replace_char "t" "T" raw)) as [d [t|]]|];
    eexists; reflexivity.
Qed.

(** The scan leaves the text as it is, or writes a [datetime] literal. *)
Lemma sub_dates_cases before (s : string) :
  sub_dates O before s = s
  \/ contains (lower (sub_dates O before s)) "datetime'" = true.
Proof.
  revert before. induction s as [|c s IH]; intros before; [now left|].
  cbn [sub_dates].
  destruct (if startswith before "emitetad" || startswith before "'"
            then None else quoted_date (String c s)) as [[raw rest]|].
  - right. destruct (_repl_prefix raw) as [x ->]. reflexivity.
  - destruct (IH (String c before)) as [->|H]; [now left | right].
    cbn [lower]. now apply contains_cons.
Qed.

Lemma normalize_filter_dates_fixed s :
  _normalize_filter_dates (_normalize_filter_dates s) = _normalize_filter_dates s.
Proof.
  unfold _normalize_filter_dates at 2.
  destruct (contains (lower s) "datetime'") eqn:E.
  - unfold _normalize_filter_dates. now rewrite E.
  - destruct (sub_dates_cases "" s) as [H|H]; unfold _normalize_filter_dates.
    + rewrite !H. reflexivity.
    + now rewrite H, E.
Qed.

(** X8: wrapping the date literals of a filter a second time changes
    nothing. *)
Theorem normalize_filter_dates_idempotent (filter_expr : string) :
  _normalize_filter_dates (_normalize_filter_dates filter_expr)
  = _normalize_filter_dates filter_expr.
Proof. apply normalize_filter_dates_fixed. Qed.

Lemma normalize_filter_dates_nonempty s :
  s <> "" -> _normalize_filter_dates s <> "".
Proof.
  intros Hs. unfold _normalize_filter_dates.
  destruct (contains (lower s) "datetime'"); [exact Hs|].
  destruct (sub_dates_cases "" s) as [->|H]; [exact Hs|].
  intros E. rewrite E in H. discriminate H.
Qed.

(** An entry the pass stores as it is. *)
Definition normal (e : string * PyValue) : Prop :=
  let '(k, v) := e in
  none_or_empty v = false
  /\ strip k = k /\ k <> "" /\ canonical_key k = k
  /\ (k = "$format" -> py_bool v = true)
  /\ (k = "$filter" -> forall s, v = VStr s -> _normalize_filter_dates s = s).

Lemma normalize_entry_normal acc k v :
  normal (k, v) -> normalize_entry acc (k, v) = dict_set k v acc.
Proof.
  intros (Hv & Hs & Hk & Hc & Hf & Hd). unfold normalize_entry.
  rewrite Hv, Hs, (eqb_empty_false _ Hk), Hc.
  destruct (String.eqb_spec k "$format") as [->|Hne].
  - rewrite (Hf eq_refl). cbn [negb andb]. now destruct v.
  - cbn [andb]. destruct v; try reflexivity.
    destruct (String.eqb_spec k "$filter") as [->|]; [|reflexivity].
    now rewrite (Hd eq_refl s eq_refl).
Qed.

Lemma keyword_key_fixed bare :
  is_keyword bare = true ->
  strip ("$" +:+ bare) = "$" +:+ bare /\ canonical_key ("$" +:+ bare) = "$" +:+ bare.
Proof.
  unfold is_keyword, keywords. cbn [existsb]. intros H.
  repeat (apply orb_true_iff in H as [H|H];
          [apply String.eqb_eq in H; subst bare; split; reflexivity|]).
  discriminate H.
Qed.

Lemma canonical_key_fixed k :
  strip k = k -> k <> "" ->
  strip (canonical_key k) = canonical_key k
  /\ canonical_key k <> ""
  /\ canonical_key (canonical_key k) = canonical_key k.
Proof.
  intros Hs Hk.
  destruct (negb (startswith k "$") && is_keyword (lower (lstrip_char "$" k))) eqn:E.
  - assert (Hc : canonical_key k = "$" +:+ lower (lstrip_char "$" k))
      by (unfold canonical_key; now rewrite E).
    apply andb_true_iff in E as [_ E].
    destruct (keyword_key_fixed _ E) as [H1 H2]. rewrite Hc.
    split; [exact H1|]. split; [discriminate | exact H2].
  - assert (Hc : canonical_key k = k) by (unfold canonical_key; now rewrite E).
    rewrite !Hc. auto.
Qed.

(** What one round of the pass stores is an entry the pass stores as it
    is. *)
Lemma normalize_entry_stores acc k v :
  normalize_entry acc (k, v) = acc
  \/ exists k' v', normal (k', v') /\ normalize_entry acc (k, v) = dict_set k' v' acc.
Proof.
  unfold normalize_entry.
  destruct (none_or_empty v) eqn:Hv; [now left|].
  destruct (String.eqb_spec (strip k) "") as [|Hk]; [now left|].
  right.
  destruct (canonical_key_fixed (strip k) (EntityFacts.strip_idem k) Hk)
    as (H1 & H2 & H3).
  set (key := canonical_key (strip k)) in *. clearbody key.
  eexists key, _. split; [|reflexivity].
  destruct (String.eqb_spec key "$format") as [->|Hfmt].
  - destruct (py_bool v) eqn:Hb; cbn [negb andb].
    + destruct v; cbn [String.eqb Ascii.eqb Bool.eqb];
        repeat split; try assumption; try discriminate; auto.
    + cbn. repeat split; try assumption; try discriminate; auto.
  - cbn [andb].
    destruct v; try (repeat split; try assumption; try discriminate; try congruence; fail).
    destruct (String.eqb_spec key "$filter") as [->|Hflt].
    + repeat split; try assumption; try discriminate.
      * cbn [none_or_empty]. apply eqb_empty_false.
        apply normalize_filter_dates_nonempty.
        cbn [none_or_empty] in Hv. now apply String.eqb_neq in Hv.
      * intros _ s' [= <-]. apply normalize_filter_dates_fixed.
    + repeat split; try assumption; congruence.
Qed.

Lemma dict_set_keys k v (d : Dict) :
  map fst (dict_set k v d)
  = if dict_contains k d then map fst d else (map fst d ++ [k])%list.
Proof.
  unfold dict_contains. induction d as [|[k' v'] d IH]; [reflexivity|].
  simpl. destruct (String.eqb_spec k' k) as [->|Hne]; [reflexivity|].
  simpl. rewrite IH. now destruct (dict_get k d).
Qed.

Lemma dict_get_in k (d : Dict) : dict_get k d = None -> ~ In k (map fst d).
Proof.
  induction d as [|[k' v'] d IH]; simpl; [tauto|].
  destruct (String.eqb_spec k' k) as [->|Hne]; [discriminate|].
  intros H [E|E]; [congruence | now apply IH].
Qed.

Lemma not_in_dict_get k (d : Dict) : ~ In k (map fst d) -> dict_get k d = None.
Proof.
  induction d as [|[k' v'] d IH]; simpl; [reflexivity|].
  intros H. destruct (String.eqb_spec k' k) as [->|Hne]; [tauto|].
  apply IH. tauto.
Qed.

Lemma dict_set_NoDup k v (d : Dict) :
  List.NoDup (map fst d) -> List.NoDup (map fst (dict_set k v d)).
Proof.
  intros H. rewrite dict_set_keys. unfold dict_contains.
  destruct (dict_get k d) eqn:E; [exact H|].
  apply dict_get_in in E.
  apply List.NoDup_rev in H. rewrite <- (rev_involutive (map fst d ++ [k])%list).
  apply List.NoDup_rev. rewrite rev_app_distr. simpl.
  constructor; [now rewrite <- in_rev | exact H].
Qed.

Lemma dict_set_Forall (P : string * PyValue -> Prop) k v (d : Dict) :
  P (k, v) -> List.Forall P d -> List.Forall P (dict_set k v d).
Proof.
  intros Hkv H. induction H as [|[k' v'] d Hx Hd IH]; simpl.
  - repeat constructor. exact Hkv.
  - destruct (String.eqb k' k); constructor; assumption.
Qed.

(** What the pass has stored: entries it stores as they are, no key
    twice. *)
Definition settled (d : Dict) : Prop :=
  List.Forall normal d /\ List.NoDup (map fst d).

Lemma fold_settled ps acc :
  settled acc -> settled (fold_left normalize_entry ps acc).
Proof.
  revert acc. induction ps as [|[k v] ps IH]; intros acc Hacc; [exact Hacc|].
  cbn [fold_left]. apply IH.
  destruct (normalize_entry_stores acc k v) as [->|(k' & v' & Hn & ->)];
    [exact Hacc|].
  destruct Hacc as [H1 H2]. split;
    [now apply dict_set_Forall | now apply dict_set_NoDup].
Qed.

Lemma normalize_params_settled params : settled (normalize_params params).
Proof.
  destruct params as [ps|].
  - unfold normalize_params.
    pose proof (fold_settled ps [] (conj (List.Forall_nil _) (List.NoDup_nil _))) as H.
    destruct (dict_contains "$format" (fold_left normalize_entry ps [])); [exact H|].
    destruct H as [H1 H2]. split; [apply dict_set_Forall | apply dict_set_NoDup]; auto.
    repeat split; try reflexivity; try discriminate.
  - split.
    + repeat constructor; try reflexivity; discriminate.
    + repeat constructor. simpl. tauto.
Qed.

(** The pass over entries it stores as they are, with no key twice and
    none stored before, adds them in their order. *)
Lemma fold_settled_entries (d acc : Dict) :
  List.Forall normal d -> List.NoDup (map fst (acc ++ d)%list) ->
  fold_left normalize_entry d acc = (acc ++ d)%list.
Proof.
  revert acc. induction d as [|[k v] d IH]; intros acc Hn Hd.
  - now rewrite List.app_nil_r.
  - inversion Hn as [|? ? Hkv Hrest]; subst.
    cbn [fold_left]. rewrite (normalize_entry_normal acc k v Hkv).
    assert (Hfresh : dict_get k acc = None).
    { apply not_in_dict_get. rewrite map_app in Hd.
      apply List.NoDup_remove_2 in Hd. intros Hin. apply Hd.
      apply in_or_app. now left. }
    rewrite (dict_set_fresh _ _ _ Hfresh).
    rewrite IH; [now rewrite <- List.app_assoc | exact Hrest |].
    now rewrite <- List.app_assoc.
Qed.

Lemma normalize_params_has_format params :
  dict_contains "$format" (normalize_params params) = true.
Proof.
  destruct params as [ps|]; [|reflexivity]. unfold normalize_params.
  destruct (dict_contains "$format" (fold_left normalize_entry ps [])) eqn:E;
    [exact E|].
  unfold dict_contains. now rewrite dict_get_set_eq.
Qed.

(** X9: the raw-parameter pass applied to its own result changes
    nothing. *)
Theorem normalize_params_idempotent (params : option Dict) :
  normalize_params (Some (normalize_params params)) = normalize_params params.
Proof.
  destruct (normalize_params_settled params) as [Hn Hd].
  pose proof (normalize_params_has_format params) as Hf.
  set (d := normalize_params params) in *. clearbody d.
  unfold normalize_params. rewrite (fold_settled_entries d [] Hn Hd).
  cbn [app]. now rewrite Hf.
Qed.

End PassFacts.

(** ** The two translations of a plan *)

Module TranslationFacts.

Import ODataClient.

Lemma plan_params_legacy (plan : QueryPlan) (extra_params : option Dict) :
  plan_params plan extra_params
  = let* legacy := Legacy._structured_to_legacy plan in
    Ok (dict_update (LegacyPlan.params legacy)
          (match extra_params with Some d => d | None => [] end)).
Proof.
  assert (Ho : forall l : list (string * Direction),
             map (fun '(field, direction) => field +:+ " " +:+ direction_str direction) l
             = map (fun fd => fst fd +:+ " " +:+ direction_str (snd fd)) l)
    by (intros l; apply map_ext; now intros []).
  unfold plan_params, Legacy._structured_to_legacy, set_if. rewrite Ho.
  destruct (filter_group plan) as [g|]; cbn [bind].
  - destruct (ODataFilterBuilder.build (Some g)) as [filter_str|e]; cbn [bind];
      [|reflexivity].
    destruct (String.eqb filter_str ""); cbn [negb];
      destruct (select plan), (top plan) as [n|], (orderby plan), (expand plan);
      try destruct (n =? 0); reflexivity.
  - destruct (select plan), (top plan) as [n|], (orderby plan), (expand plan);
      try destruct (n =? 0); reflexivity.
Qed.

(** X10: the parameters [fetch] compiles from a plan are those of the
    legacy translation of the plan, updated with the extra parameters;
    and both fail with the error of the filter renderer when the filter
    does not render. *)
Theorem plan_params_agree (plan : QueryPlan) (extra_params : option Dict) :
  plan_params plan extra_params
  = let* legacy := Legacy._structured_to_legacy plan in
    Ok (dict_update (LegacyPlan.params legacy)
          (match extra_params with Some d => d | None => [] end)).
Proof. apply plan_params_legacy. Qed.

End TranslationFacts.

(** ** What the validator accepts and what the repair reaches *)

Module AcceptFacts.

Import PlanValidator FilterFacts ValidatorFacts.

(** The field names of a plan: those of its filter, of [select] and of
    [orderby]. *)
Definition plan_fields (plan : QueryPlan) : list string :=
  (match filter_group plan with Some g => filter_fields g | None => [] end
   ++ select plan ++ map fst (orderby plan))%list.

Lemma unknown_false vf name :
  unknown vf name = false <-> vf = ∅ \/ name ∈ vf.
Proof.
  unfold unknown. split.
  - intros E. destruct (decide (vf = ∅)) as [|Hne]; [now left|]. right.
    destruct (decide (name ∈ vf)) as [|Hn]; [assumption|].
    rewrite (bool_decide_eq_false_2 _ Hne), (bool_decide_eq_false_2 _ Hn) in E.
    discriminate E.
  - intros [E|E]; rewrite (bool_decide_eq_true_2 _ E); simpl;
      [reflexivity | apply andb_false_r].
Qed.

Lemma filter_fields_unfold l cs :
  filter_fields (mkFilterGroup l cs)
  = flat_map (fun m => match m with
                       | Group g => filter_fields g
                       | Cond c => [field c]
                       end) cs.
Proof.
  simpl. induction cs as [|[c|g] cs IH]; simpl; [reflexivity | |]; now rewrite IH.
Qed.

Lemma _check_fields_nil g vf :
  _check_fields g vf = [] <-> List.Forall (fun f => unknown vf f = false) (filter_fields g).
Proof.
  induction g as [l cs IH] using group_ind.
  rewrite _check_fields_unfold, filter_fields_unfold.
  induction cs as [|m cs IHcs]; [simpl; split; auto|].
  inversion IH as [|? ? Hm Hrest]; subst. specialize (IHcs Hrest).
  cbn [flat_map]. rewrite List.Forall_app, <- IHcs.
  split.
  - intros H. apply app_eq_nil in H as [H1 H2]. split; [|exact H2].
    destruct m as [c|g]; [|now apply Hm].
    destruct (unknown vf (field c)) eqn:E; [discriminate H1|].
    repeat constructor. exact E.
  - intros [H1 H2]. rewrite H2, List.app_nil_r.
    destruct m as [c|g]; [|now apply Hm].
    inversion H1 as [|? ? E _]; subst. now rewrite E.
Qed.

Lemma unknown_names_nil (msg : string -> string) vf (names : list string) :
  map msg (filter (fun f => unknown vf f = true) names) = []
  <-> List.Forall (fun f => unknown vf f = false) names.
Proof.
  induction names as [|n names IH]; [simpl; split; auto|].
  rewrite filter_cons. destruct (unknown vf n) eqn:E.
  - rewrite decide_True by reflexivity. split; [discriminate|].
    intros H. inversion H; congruence.
  - rewrite decide_False by discriminate. rewrite IH. split.
    + intros H. now constructor.
    + intros H. now inversion H.
Qed.

(** The plans without an error. *)
Lemma validate_nil (self : t) (plan : QueryPlan) :
  validate self plan = []
  <-> entity plan ∈ entities self
      /\ List.Forall (fun f => unknown (valid_fields_of self plan) f = false)
           (plan_fields plan).
Proof.
  unfold validate, plan_fields.
  set (vf := valid_fields_of self plan).
  pose proof (unknown_names_nil (fun f => "Unknown field in select: " +:+ f) vf
                (select plan)) as Hs.
  pose proof (unknown_names_nil (fun f => "Unknown field in orderby: " +:+ f) vf
                (map fst (orderby plan))) as Ho.
  set (sel := map _ (filter _ (select plan))) in *.
  set (ord := map _ (filter _ (map fst (orderby plan)))) in *.
  clearbody sel ord.
  rewrite !List.Forall_app.
  assert (Hg : match filter_group plan with
               | Some g => _check_fields g vf
               | None => []
               end = []
               <-> List.Forall (fun f => unknown vf f = false)
                     match filter_group plan with
                     | Some g => filter_fields g
                     | None => []
                     end).
  { destruct (filter_group plan) as [g|]; [apply _check_fields_nil|].
    split; auto. }
  assert (Hshape : forall errors : list string,
             (match filter_group plan with
              | Some g => (errors ++ _check_fields g vf)%list
              | None => errors
              end)
             = (errors ++ match filter_group plan with
                          | Some g => _check_fields g vf
                          | None => []
                          end)%list).
  { intros errors. destruct (filter_group plan); [reflexivity|].
    now rewrite List.app_nil_r. }
  rewrite Hshape. clear Hshape.
  set (chk := match filter_group plan with Some g => _check_fields g vf | None => [] end) in *.
  clearbody chk.
  split.
  - intros H. apply app_eq_nil in H as [H H3]. apply app_eq_nil in H as [H H2].
    apply app_eq_nil in H as [H0 H1].
    split; [|split; [now apply Hg | split; [now apply Hs | now apply Ho]]].
    destruct (decide (entity plan ∈ entities self)) as [|Hn]; [assumption|].
    rewrite (bool_decide_eq_false_2 _ Hn) in H0. discriminate H0.
  - intros (He & H1 & H2 & H3).
    apply Hg in H1. apply Hs in H2. apply Ho in H3.
    now rewrite (bool_decide_eq_true_2 _ He), H1, H2, H3.
Qed.

(** X13: [validate] reports nothing exactly for the plans whose entity
    is known and whose field names, when the entity has a field set
    that is not empty, all belong to it. *)
Theorem validate_accepts_exactly (self : t) (plan : QueryPlan) :
  validate self plan = []
  <-> entity plan ∈ entities self
      /\ (valid_fields_of self plan = ∅
          \/ List.Forall (fun f => f ∈ valid_fields_of self plan) (plan_fields plan)).
Proof.
  rewrite validate_nil. split; intros [He H]; (split; [exact He|]).
  - destruct (decide (valid_fields_of self plan = ∅)) as [E|E]; [now left | right].
    eapply List.Forall_impl; [|exact H].
    intros f Hf. apply unknown_false in Hf as [Hf|Hf]; [contradiction | exact Hf].
  - destruct H as [E|H].
    + apply List.Forall_forall. intros f _. apply unknown_false. now left.
    + eapply List.Forall_impl; [|exact H].
      intros f Hf. apply unknown_false. now right.
Qed.

(** An entity with a field set is one of the metadata. *)
Lemma fields_index_known metadata plan :
  valid_fields_of (new metadata) plan <> ∅ ->
  entity plan ∈ entities (new metadata).
Proof.
  intros H. cbn [entities new]. rewrite elem_of_list_to_set.
  destruct (decide (entity plan ∈ map entity_of metadata)) as [Hin|Hout]; [exact Hin|].
  exfalso. apply H. unfold valid_fields_of. cbn [fields_by_entity new].
  now rewrite fields_index_absent.
Qed.

Section Reach.

Variable scorer : string -> string -> Z.
Variable set_order : gset string -> list string.
Hypothesis set_order_lists : forall s, set_order s ≡ₚ elements s.

Lemma best_of_choice query best choices :
  fst (best_of scorer query best choices) = fst best
  \/ In (fst (best_of scorer query best choices)) choices.
Proof.
  revert best. induction choices as [|c rest IH]; intros best; [now left|].
  cbn [best_of]. destruct (snd best <? scorer query c).
  - destruct (IH (c, scorer query c)) as [H|H]; right; [left | right]; auto.
  - destruct (IH best) as [H|H]; [now left | right; now right].
Qed.

(** The matcher answers with one of the fields. *)
Lemma _fix_field_valid vf name :
  vf <> ∅ -> _fix_field scorer set_order vf name ∈ vf.
Proof using set_order_lists.
  intros Hvf. unfold _fix_field, extractOne.
  assert (Hin : forall x, In x (set_order vf) -> x ∈ vf).
  { intros x Hx. apply elem_of_elements. rewrite <- (set_order_lists vf).
    now apply list_elem_of_In. }
  destruct (set_order vf) as [|c rest] eqn:E.
  - exfalso. apply Hvf. apply leibniz_equiv, elements_empty_inv.
    apply Permutation_nil. rewrite <- E. apply set_order_lists.
  - apply Hin.
    destruct (best_of_choice name (c, scorer name c) rest) as [H|H]; cbn [fst] in H.
    + rewrite H. now left.
    + now right.
Qed.

Lemma suggest_fixes_fields (self : t) plan e errors :
  valid_fields_of self plan <> ∅ ->
  List.Forall (fun f => f ∈ valid_fields_of self plan)
    (plan_fields (suggest_fixes scorer set_order self plan (e :: errors))).
Proof using set_order_lists.
  intros Hvf. unfold suggest_fixes, plan_fields.
  rewrite bool_decide_eq_false_2 by exact Hvf.
  cbn [filter_group select orderby].
  set (vf := valid_fields_of self plan) in *.
  assert (Hfix : forall f,
             (if bool_decide (f ∈ vf) then f else _fix_field scorer set_order vf f) ∈ vf).
  { intros f. case_bool_decide; [assumption | now apply _fix_field_valid]. }
  rewrite !List.Forall_app. repeat split.
  - destruct (filter_group plan) as [g|]; [|constructor].
    rewrite _fix_group_fields. apply List.Forall_forall.
    intros f Hf. apply in_map_iff in Hf as (f0 & <- & _).
    now apply _fix_field_valid.
  - apply List.Forall_forall. intros f Hf. apply in_map_iff in Hf as (f0 & <- & _).
    apply Hfix.
  - rewrite map_map. cbn [fst]. apply List.Forall_forall.
    intros f Hf. apply in_map_iff in Hf as (f0 & <- & _). apply Hfix.
Qed.

End Reach.

(** X14: for a validator built from metadata and a plan whose entity
    has fields, one repair is enough: whatever the scores, the repaired
    plan has no error left, since the matcher always answers with one
    of the entity's fields. *)
Theorem repair_leaves_no_error
  (scorer : string -> string -> Z) (set_order : gset string -> list string)
  (metadata : list MetadataItem) (plan : QueryPlan) :
  (forall s, set_order s ≡ₚ elements s) ->
  valid_fields_of (new metadata) plan <> ∅ ->
  validate (new metadata)
    (suggest_fixes scorer set_order (new metadata) plan
       (validate (new metadata) plan)) = [].
Proof.
  intros Horder Hvf.
  destruct (validate (new metadata) plan) as [|e errors] eqn:E; [exact E|].
  set (fixed := suggest_fixes scorer set_order (new metadata) plan (e :: errors)).
  assert (Hent : entity fixed = entity plan).
  { unfold fixed, suggest_fixes. now case_bool_decide. }
  assert (Hsame : valid_fields_of (new metadata) fixed = valid_fields_of (new metadata) plan).
  { unfold valid_fields_of. now rewrite Hent. }
  apply validate_nil. split.
  - rewrite Hent. now apply fields_index_known.
  - rewrite Hsame.
    eapply List.Forall_impl;
      [|apply (suggest_fixes_fields scorer set_order Horder (new metadata) plan e errors Hvf)].
    intros f Hf. apply unknown_false. now right.
Qed.

(** A plan with a misspelt name at every place, for an entity with two
    fields, and a score that knows nothing. *)
Definition items : list MetadataItem :=
  [ {| m_type := "Catalog"; m_name := "Items"; m_fields := ["Name"; "Code"] |} ].

Definition misspelt : QueryPlan :=
  {| entity := "Catalog_Items";
     filter_group :=
       Some (mkFilterGroup And
               [Cond {| field := "Nmae"; operator := EQ; value := VStr "x";
                        value_type := TString |}]);
     select := ["Cdoe"; "Name"];
     orderby := [("Dtae", Asc)];
     top := None;
     expand := [] |}.

Lemma items_fields : valid_fields_of (new items) misspelt = {["Name"; "Code"]}.
Proof.
  unfold valid_fields_of, new, _build_fields_index. simpl.
  rewrite lookup_insert_eq. simpl. set_solver.
Qed.

Lemma repair_leaves_no_error_witness :
  validate (new items)
    (suggest_fixes (fun _ _ => 0) elements (new items) misspelt
       (validate (new items) misspelt)) = [].
Proof.
  apply (repair_leaves_no_error (fun _ _ => 0) elements items misspelt).
  - reflexivity.
  - rewrite items_fields. set_solver.
Defined.

End AcceptFacts.

(** ** What a call of a client costs and returns *)

Module CallFacts.

Import DictFacts.

Section Loop.

Context {A : Type}.
Variable policy : Tenacity.Policy.
Variable body : World -> Result A * World.

(** One run of the body is one attempt, sends at most one request and
    does not wait. *)
Hypothesis body_effect : forall w,
  attempts (snd (body w)) = S (attempts w)
  /\ (requests w <= requests (snd (body w)) <= S (requests w))%nat
  /\ slept (snd (body w)) = slept w.

(** The loop runs the body once more than it waits, at most once more
    than [left] times, and waits what the policy says after each
    attempt. *)
Lemma attempt_effect left n w :
  exists k,
    (k <= left)%nat
    /\ attempts (snd (Tenacity.attempt policy body left n w)) = (attempts w + S k)%nat
    /\ (requests w <= requests (snd (Tenacity.attempt policy body left n w))
        <= requests w + S k)%nat
    /\ slept (snd (Tenacity.attempt policy body left n w))
       = (slept w ++ map (Tenacity.wait_exponential policy) (seq n k))%list.
Proof using body_effect.
  revert n w. induction left as [|left IH]; intros n w;
    destruct (body_effect w) as (Ha & Hr & Hs); cbn [Tenacity.attempt];
    destruct (body w) as [[a|e] w1]; cbn [snd] in *.
  - exists O. cbn [seq map]. rewrite List.app_nil_r. repeat split; lia || assumption.
  - exists O. cbn [seq map]. rewrite List.app_nil_r.
    destruct (Tenacity.retry_if_exception_type policy e); cbn [snd];
      repeat split; lia || assumption.
  - exists O. cbn [seq map]. rewrite List.app_nil_r. repeat split; lia || assumption.
  - destruct (Tenacity.retry_if_exception_type policy e).
    + destruct (IH (S n) (sleep (Tenacity.wait_exponential policy n) w1))
        as (k & Hk & Ha' & Hr' & Hs').
      exists (S k). cbn [attempts requests slept sleep] in *.
      rewrite Ha', Hs', Hs. cbn [seq map].
      rewrite <- List.app_assoc. repeat split; lia || reflexivity.
    + exists O. cbn [seq map snd]. rewrite List.app_nil_r.
      repeat split; lia || assumption.
Qed.

(** A value the loop returns is a value the body returned. *)
Lemma attempt_returns left n w a :
  fst (Tenacity.attempt policy body left n w) = Ok a ->
  exists w0, fst (body w0) = Ok a.
Proof.
  revert n w. induction left as [|left IH]; intros n w; cbn [Tenacity.attempt];
    destruct (body w) as [[a'|e] w1] eqn:E.
  - intros H. exists w. now rewrite E.
  - destruct (Tenacity.retry_if_exception_type policy e); discriminate.
  - intros H. exists w. now rewrite E.
  - destruct (Tenacity.retry_if_exception_type policy e); [apply IH | discriminate].
Qed.

End Loop.

Section Fetch.

Variable server : nat -> string -> ODataClient.GetOutcome.
Variable clock : nat -> Z.

Let fetch_body := ODataClient.fetch_body server clock.
Let fetch := ODataClient.fetch server clock.

Lemma fetch_body_effect self plan extra w :
  attempts (snd (fetch_body self plan extra w)) = S (attempts w)
  /\ (requests w <= requests (snd (fetch_body self plan extra w)) <= S (requests w))%nat
  /\ slept (snd (fetch_body self plan extra w)) = slept w.
Proof.
  unfold fetch_body, ODataClient.fetch_body.
  destruct (ODataClient.plan_params plan extra); [|cbn; repeat split; lia].
  destruct (ODataUrlBuilder.build _ _ _); [|cbn; repeat split; lia].
  destruct (ODataClient.auth_of self); [|cbn; repeat split; lia].
  destruct (server _ _) as [exc|response].
  - destruct (ODataClient.is_ClientError exc); cbn; repeat split; lia.
  - destruct (400 <=? ODataClient.status response); [cbn; repeat split; lia|].
    destruct (ODataClient.json response); cbn; repeat split; lia.
Qed.

(** X15: one call of [fetch] runs its body at most three times, sends
    at most one request for each run, and between the runs waits half a
    second and then one second: never more than three requests and a
    second and a half of waiting.  Without the retry package the body
    runs once. *)
Theorem fetch_is_bounded tenacity_installed self plan extra w :
  exists k,
    (k <= 2)%nat
    /\ (tenacity_installed = false -> k = O)
    /\ attempts (snd (fetch tenacity_installed self plan extra w))
       = (attempts w + S k)%nat
    /\ (requests w <= requests (snd (fetch tenacity_installed self plan extra w))
        <= requests w + S k)%nat
    /\ slept (snd (fetch tenacity_installed self plan extra w))
       = (slept w ++ firstn k [500; 1000])%list.
Proof.
  unfold fetch, ODataClient.fetch, Tenacity.retry.
  destruct tenacity_installed.
  - destruct (attempt_effect ODataClient.policy (fetch_body self plan extra)
                (fetch_body_effect self plan extra) 2 1 w) as (k & Hk & Ha & Hr & Hs).
    exists k. fold fetch_body.
    change (Tenacity.stop_after_attempt ODataClient.policy - 1)%nat with 2%nat.
    rewrite Ha, Hs.
    split; [exact Hk|]. split; [discriminate|]. split; [reflexivity|].
    split; [exact Hr|].
    f_equal. destruct k as [|[|[|k]]]; try lia; reflexivity.
  - exists O. destruct (fetch_body_effect self plan extra w) as (Ha & Hr & Hs).
    fold fetch_body. rewrite Ha, Hs. cbn [firstn]. rewrite List.app_nil_r.
    split; [lia|]. split; [reflexivity|]. split; [lia|]. split; [lia | reflexivity].
Qed.

(** X16: [fetch] runs its body a second time only after a plain
    timeout: when the service never fails with one, whatever else it
    does (answers of any status, bodies that are not JSON, connection
    failures), the call is one run of the body. *)
Theorem fetch_retries_only_timeouts tenacity_installed self plan extra w :
  (forall n url, server n url <> ODataClient.GetFails asyncio_TimeoutError) ->
  fetch tenacity_installed self plan extra w = fetch_body self plan extra w.
Proof.
  intros Hs. unfold fetch, ODataClient.fetch, Tenacity.retry.
  destruct tenacity_installed; [|reflexivity].
  fold fetch_body.
  destruct (fetch_body self plan extra w) as [[a|e] w1] eqn:Hb.
  - change (Tenacity.stop_after_attempt ODataClient.policy - 1)%nat with 2%nat.
    cbn [Tenacity.attempt]. now rewrite Hb.
  - apply ClientFacts.attempt_once; [exact Hb|].
    unfold fetch_body, ODataClient.fetch_body in Hb.
    pose proof (ClientFacts.plan_params_nt plan extra) as Hp.
    destruct (ODataClient.plan_params plan extra) as [ps|e0].
    + destruct (ODataUrlBuilder.build _ _ _) as [full_url|];
        [|now injection Hb as <- _].
      destruct (ClientFacts.auth_raises self) as [[auth Ha]|Ha]; rewrite Ha in Hb;
        [|now injection Hb as <- _].
      specialize (Hs (requests (begin_attempt w)) full_url).
      destruct (server _ _) as [exc|response].
      * destruct (ODataClient.is_ClientError exc) eqn:Ec; [now injection Hb as <- _|].
        injection Hb as <- _. destruct exc; try reflexivity; try discriminate Ec.
        congruence.
      * destruct (400 <=? ODataClient.status response); [now injection Hb as <- _|].
        destruct (ODataClient.json response);
          [discriminate Hb | now injection Hb as <- _].
    + injection Hb as <- _. specialize (Hp e0 eq_refl).
      unfold ClientFacts.transport in Hp. now apply orb_false_iff in Hp as [_ Hp].
Qed.

(** X17: what [fetch] returns when it returns: the address built from
    the plan's parameters, an answer to that address with a status
    below 400 and a body that is JSON, its payload, and the parameters
    as compiled. *)
Theorem fetch_returns_an_answer tenacity_installed self plan extra w envelope :
  fst (fetch tenacity_installed self plan extra w) = Ok envelope ->
  exists n response,
    ODataClient.plan_params plan extra = Ok (ODataClient.params envelope)
    /\ ODataUrlBuilder.build (ODataClient.base_url self) (entity plan)
         (Some (ODataClient.params envelope))
       = Ok (ODataClient.url envelope)
    /\ server n (ODataClient.url envelope) = ODataClient.GetResponds response
    /\ ODataClient.status response = ODataClient.status_code envelope
    /\ ODataClient.status_code envelope < 400
    /\ ODataClient.json response = Ok (ODataClient.payload envelope).
Proof.
  intros H.
  assert (Hbody : exists w0, fst (fetch_body self plan extra w0) = Ok envelope).
  { unfold fetch, ODataClient.fetch, Tenacity.retry in H.
    destruct tenacity_installed; [|now exists w].
    now apply attempt_returns in H. }
  destruct Hbody as [w0 Hb]. clear H.
  unfold fetch_body, ODataClient.fetch_body in Hb.
  destruct (ODataClient.plan_params plan extra) as [ps|]; [|discriminate Hb].
  destruct (ODataUrlBuilder.build _ _ _) as [full_url|] eqn:Eb; [|discriminate Hb].
  destruct (ODataClient.auth_of self) as [auth|]; [|discriminate Hb].
  destruct (server _ _) as [exc|response] eqn:Es.
  - destruct (ODataClient.is_ClientError exc); discriminate Hb.
  - destruct (400 <=? ODataClient.status response) eqn:E4; [discriminate Hb|].
    destruct (ODataClient.json response) as [payload|] eqn:Ej; [|discriminate Hb].
    injection Hb as <-. cbn.
    exists (requests (begin_attempt w0)), response.
    repeat split; try assumption; try reflexivity.
    apply Z.leb_gt in E4. lia.
Qed.

(** X18: without a base address or an entity, a call whose filter
    renders fails with the client's error before anything is sent, and
    is not tried again. *)
Theorem fetch_needs_configuration tenacity_installed self plan extra w ps :
  ODataClient.plan_params plan extra = Ok ps ->
  ODataClient.base_url self = "" \/ entity plan = "" ->
  exists msg,
    fetch tenacity_installed self plan extra w
    = (Raise (ODataClientError msg None None), begin_attempt w)
    /\ (msg = "OData base URL is not configured"
        \/ msg = "OData entity is not specified").
Proof.
  intros Hp Hc.
  assert (Hb : exists msg,
             fetch_body self plan extra w
             = (Raise (ODataClientError msg None None), begin_attempt w)
             /\ (msg = "OData base URL is not configured"
                 \/ msg = "OData entity is not specified")).
  { unfold fetch_body, ODataClient.fetch_body, ODataUrlBuilder.build. rewrite Hp.
    destruct (String.eqb_spec (ODataClient.base_url self) "") as [|Hb];
      [eexists; split; [reflexivity | now left]|].
    destruct Hc as [Hc|Hc]; [contradiction|]. rewrite Hc. cbn.
    eexists; split; [reflexivity | now right]. }
  destruct Hb as (msg & Hb & Hmsg). exists msg. split; [|exact Hmsg].
  unfold fetch, ODataClient.fetch, Tenacity.retry.
  destruct tenacity_installed; [|exact Hb].
  apply ClientFacts.attempt_once; [exact Hb | reflexivity].
Qed.

End Fetch.

Lemma fetch_retries_only_timeouts_witness :
  ODataClient.fetch (fun _ _ => ODataClient.GetFails (aiohttp_ClientError "refused"))
    (fun _ => 0) true ClientFacts.odata ClientFacts.plan_top1 None world0
  = ODataClient.fetch_body (fun _ _ => ODataClient.GetFails (aiohttp_ClientError "refused"))
      (fun _ => 0) ClientFacts.odata ClientFacts.plan_top1 None world0.
Proof.
  apply (fetch_retries_only_timeouts
           (fun _ _ => ODataClient.GetFails (aiohttp_ClientError "refused")) (fun _ => 0)).
  intros n url. discriminate.
Defined.

Definition answer_200 : ODataClient.Response :=
  {| ODataClient.status := 200; ODataClient.text := "";
     ODataClient.json := Ok (JObject [("value", JArray [])]) |}.

Lemma fetch_returns_an_answer_witness :
  exists n response,
    ODataClient.plan_params ClientFacts.plan_top1 None = Ok [("$top", VInt 1)]
    /\ ODataUrlBuilder.build "https://example/odata" "Document_Sale"
         (Some [("$top", VInt 1)])
       = Ok ClientFacts.url_top1
    /\ (fun (_ : nat) (_ : string) => ODataClient.GetResponds answer_200) n
         ClientFacts.url_top1
       = ODataClient.GetResponds response
    /\ ODataClient.status response = 200
    /\ 200 < 400
    /\ ODataClient.json response = Ok (JObject [("value", JArray [])]).
Proof.
  apply (fetch_returns_an_answer (fun _ _ => ODataClient.GetResponds answer_200)
           (fun _ => 7) true ClientFacts.odata ClientFacts.plan_top1 None world0
           {| ODataClient.url := ClientFacts.url_top1;
              ODataClient.payload := JObject [("value", JArray [])];
              ODataClient.elapsed_ms := 7;
              ODataClient.status_code := 200;
              ODataClient.params := [("$top", VInt 1)] |}).
  reflexivity.
Defined.

Lemma fetch_needs_configuration_witness :
  exists msg,
    ODataClient.fetch (fun _ _ => ODataClient.GetResponds answer_200) (fun _ => 0) true
      {| ODataClient.base_url := ""; ODataClient.username := "";
         ODataClient.password := "" |}
      ClientFacts.plan_top1 None world0
    = (Raise (ODataClientError msg None None), begin_attempt world0)
    /\ (msg = "OData base URL is not configured"
        \/ msg = "OData entity is not specified").
Proof.
  apply (fetch_needs_configuration (fun _ _ => ODataClient.GetResponds answer_200)
           (fun _ => 0) true _ ClientFacts.plan_top1 None world0 [("$top", VInt 1)]).
  - reflexivity.
  - now left.
Defined.

Section Generate.

Variable json_loads : string -> Json.Loaded.
Variable model_validate : JSON -> Result QueryPlan.
Variable backend : nat -> bool -> LLMClient.PostOutcome.
Variable clock : nat -> Z.

Let generate_plan := LLMClient.generate_plan json_loads model_validate backend clock.

(** X21: one call of [generate_plan] is one run of its body, with or
    without the retry package: it never waits, sends at most two
    requests, the second only when the first asked for a JSON object
    and was answered with an error status, and sends none when the key
    or the model is not set. *)
Theorem generate_plan_is_bounded tenacity_installed self w :
  attempts (snd (generate_plan tenacity_installed self w)) = S (attempts w)
  /\ slept (snd (generate_plan tenacity_installed self w)) = slept w
  /\ (requests w <= requests (snd (generate_plan tenacity_installed self w))
      <= requests w + 2)%nat
  /\ (LLMClient.use_structured_output self = false ->
      (requests (snd (generate_plan tenacity_installed self w)) <= requests w + 1)%nat)
  /\ (LLMClient.api_key self = "" \/ LLMClient.model_id self = "" ->
      requests (snd (generate_plan tenacity_installed self w)) = requests w
      /\ exists msg,
           fst (generate_plan tenacity_installed self w) = Raise (LLMClientError msg)).
Proof.
  unfold generate_plan. rewrite ClientFacts.generate_plan_single_attempt.
  unfold LLMClient.generate_plan_body.
  destruct (String.eqb_spec (LLMClient.api_key self) "") as [Hk|Hk];
    [cbn; split; [|split; [|split; [|split]]];
     [reflexivity | reflexivity | lia | intros _; lia | intros _; eauto]|].
  destruct (String.eqb_spec (LLMClient.model_id self) "") as [Hm|Hm];
    [cbn; split; [|split; [|split; [|split]]];
     [reflexivity | reflexivity | lia | intros _; lia | intros _; eauto]|].
  assert (Hcfg : LLMClient.api_key self = "" \/ LLMClient.model_id self = "" -> False)
    by (intros [?|?]; contradiction).
  assert (Hend : forall (r : Result (QueryPlan * Z * string)) (w1 : World) (sends : nat),
             attempts w1 = S (attempts w) -> slept w1 = slept w ->
             requests w1 = (requests w + sends)%nat ->
             (sends <= 2)%nat ->
             (LLMClient.use_structured_output self = false -> (sends <= 1)%nat) ->
             attempts (snd (r, w1)) = S (attempts w)
             /\ slept (snd (r, w1)) = slept w
             /\ (requests w <= requests (snd (r, w1)) <= requests w + 2)%nat
             /\ (LLMClient.use_structured_output self = false ->
                 (requests (snd (r, w1)) <= requests w + 1)%nat)
             /\ (LLMClient.api_key self = "" \/ LLMClient.model_id self = "" ->
                 requests (snd (r, w1)) = requests w
                 /\ exists msg, fst (r, w1) = Raise (LLMClientError msg))).
  { intros r w1 sends Ha Hs Hr H2 H1. cbn [fst snd].
    split; [exact Ha|]. split; [exact Hs|]. split; [lia|]. split.
    - intros Hso. specialize (H1 Hso). lia.
    - intros Hx. now destruct (Hcfg Hx). }
  destruct (backend _ _) as [exc|response].
  { apply (Hend _ _ 1%nat); cbn; try reflexivity; lia. }
  destruct (LLMClient.use_structured_output self) eqn:Eso.
  - destruct (400 <=? LLMClient.status_code response); cbn [andb].
    + destruct (backend _ _) as [exc|response2];
        apply (Hend _ _ 2%nat); cbn; try reflexivity; try lia; discriminate.
    + apply (Hend _ _ 1%nat); cbn; try reflexivity; lia.
  - rewrite andb_false_r. apply (Hend _ _ 1%nat); cbn; try reflexivity; lia.
Qed.

End Generate.

Lemma dict_get_update k (d other : Dict) :
  List.NoDup (map fst other) ->
  dict_get k (dict_update d other)
  = match dict_get k other with
    | Some v => Some v
    | None => dict_get k d
    end.
Proof.
  unfold dict_update. revert d.
  induction other as [|[k' v'] other IH]; intros d Hnd; [reflexivity|].
  inversion Hnd as [|? ? Hnotin Hrest]; subst.
  cbn [fold_left fst snd dict_get]. rewrite (IH _ Hrest).
  destruct (String.eqb_spec k' k) as [->|Hne].
  - rewrite (PassFacts.not_in_dict_get _ _ Hnotin). apply dict_get_set_eq.
  - destruct (dict_get k other); [reflexivity|]. now apply dict_get_set_ne.
Qed.

(** X19: the extra parameters of [fetch] win: a key they give has
    their value in the parameters sent, and every other key has the
    value compiled from the plan. *)
Theorem extra_params_override plan (extra : Dict) ps k :
  List.NoDup (map fst extra) ->
  ODataClient.plan_params plan (Some extra) = Ok ps ->
  exists compiled,
    ODataClient.plan_params plan None = Ok compiled
    /\ dict_get k ps = match dict_get k extra with
                       | Some v => Some v
                       | None => dict_get k compiled
                       end.
Proof.
  intros Hnd. rewrite !TranslationFacts.plan_params_legacy.
  destruct (Legacy._structured_to_legacy plan) as [legacy|]; [|discriminate].
  cbn [bind]. intros [= <-]. eexists. split; [reflexivity|].
  now rewrite dict_get_update.
Qed.

Lemma extra_params_override_witness :
  exists compiled,
    ODataClient.plan_params ClientFacts.plan_top1 None = Ok compiled
    /\ dict_get "$top" [("$top", VInt 50); ("$skip", VInt 20)]
       = match dict_get "$top" [("$top", VInt 50); ("$skip", VInt 20)] with
         | Some v => Some v
         | None => dict_get "$top" compiled
         end.
Proof.
  apply (extra_params_override ClientFacts.plan_top1
           [("$top", VInt 50); ("$skip", VInt 20)]
           [("$top", VInt 50); ("$skip", VInt 20)] "$top").
  - repeat constructor; simpl; intuition discriminate.
  - reflexivity.
Defined.

End CallFacts.

(** ** Plans wrapped in other text *)

Module WrappedFacts.

Import PyStr PyStrFacts TextFacts Quote LLM.

Lemma upto_last_brace_none (post : string) :
  mem "}" post = false -> upto_last_brace post = None.
Proof.
  induction post as [|c post IH]; [reflexivity|].
  cbn [mem upto_last_brace]. intros H. apply orb_false_iff in H as [H1 H2].
  rewrite (IH H2). now rewrite Ascii.eqb_sym, H1.
Qed.

Lemma upto_last_brace_app (x post : string) :
  mem "}" post = false ->
  upto_last_brace (x +:+ String "}" post) = Some (x +:+ "}").
Proof.
  intros H. induction x as [|c x IH].
  - cbn [String.append upto_last_brace]. now rewrite (upto_last_brace_none _ H).
  - cbn [String.append upto_last_brace]. now rewrite IH.
Qed.

(** The pattern finds the text from the first opening brace to the last
    closing one. *)
Lemma search_wrapped (pre body post : string) :
  mem "{" pre = false -> mem "}" post = false ->
  _JSON_PATTERN_search (pre +:+ String "{" (body +:+ String "}" post))
  = Some (String "{" (body +:+ "}")).
Proof.
  intros Hpre Hpost. induction pre as [|c pre IH].
  - cbn [String.append _JSON_PATTERN_search]. rewrite Ascii.eqb_refl.
    now rewrite upto_last_brace_app.
  - cbn [mem] in Hpre. apply orb_false_iff in Hpre as [H1 H2].
    cbn [String.append _JSON_PATTERN_search].
    rewrite Ascii.eqb_sym, H1. now apply IH.
Qed.

Lemma strip_of_empty (text : string) : text = "" -> strip text = "".
Proof. now intros ->. Qed.

Section Parsing.

Variable json_loads : string -> Json.Loaded.
Variable model_validate : JSON -> Result QueryPlan.

(** X23: an object wrapped in other text is still read.  When the
    answer as a whole is not JSON and is an object between a text
    without an opening brace and a text without a closing one, the plan
    is validated from that object. *)
Theorem wrapped_object_is_parsed (text pre body post : string) (parsed : JSON) :
  strip text = pre +:+ String "{" (body +:+ String "}" post) ->
  mem "{" pre = false -> mem "}" post = false ->
  json_loads (strip text) = Json.Fails Json.NotJSON ->
  json_loads (String "{" (body +:+ "}")) = Json.Decoded parsed ->
  _parse_structured_plan json_loads model_validate text
  = match model_validate parsed with
    | Ok plan => Ok plan
    | Raise exc => Raise (PlanParseError ("Invalid plan structure: " +:+ exn_str exc))
    end.
Proof.
  intros Hs Hpre Hpost Hall Hdoc. unfold _parse_structured_plan.
  assert (Hne : strip text <> "") by (rewrite Hs; destruct pre; discriminate).
  assert (Ht : text <> "") by (intros E; apply Hne; now apply strip_of_empty).
  rewrite (eqb_empty_false _ Ht), (eqb_empty_false _ Hne). cbn [orb].
  rewrite Hall. rewrite Hs at 1. rewrite (search_wrapped _ _ _ Hpre Hpost), Hdoc.
  reflexivity.
Qed.

End Parsing.

Lemma wrapped_object_is_parsed_witness :
  _parse_structured_plan Json.loads_text
    (fun _ => Raise (ValueError "entity: Field required"))
    "  Here is the plan: {} I hope it helps.  "
  = Raise (PlanParseError "Invalid plan structure: entity: Field required").
Proof.
  apply (wrapped_object_is_parsed Json.loads_text
           (fun _ => Raise (ValueError "entity: Field required"))
           "  Here is the plan: {} I hope it helps.  "
           "Here is the plan: " "" " I hope it helps." (JObject []));
    reflexivity.
Defined.

End WrappedFacts.

(** ** The hints taken from the question *)

Module HintFacts.

Import PyStr PyStrFacts TextFacts Quote Re Tools.

Definition backslash : ascii := "\"%char.

Lemma only_backslash_lowers_to_it c :
  Ascii.eqb (lower_char c) backslash = true -> c = backslash.
Proof.
  destruct c as [[] [] [] [] [] [] [] []]; intros H;
    first [reflexivity | discriminate H].
Qed.

Lemma take_literal_cons ignorecase a lit (s m r : string) :
  take_literal ignorecase (String a lit) s = Some (m, r) ->
  exists c s' m',
    s = String c s' /\ m = String c m'
    /\ (if ignorecase then Ascii.eqb (lower_char c) (lower_char a)
        else Ascii.eqb c a) = true
    /\ take_literal ignorecase lit s' = Some (m', r).
Proof.
  destruct s as [|c s']; [discriminate|]. cbn [take_literal].
  destruct (if ignorecase then Ascii.eqb (lower_char c) (lower_char a)
            else Ascii.eqb c a) eqn:E; [|discriminate].
  destruct (take_literal ignorecase lit s') as [[m' r']|] eqn:E2; [|discriminate].
  intros [= <- <-]. now exists c, s', m'.
Qed.

(** A match of a literal that starts with a backslash starts with
    one. *)
Lemma take_literal_backslash ignorecase lit (s m r : string) :
  take_literal ignorecase (String backslash lit) s = Some (m, r) ->
  exists s' m', s = String backslash s' /\ m = String backslash m'.
Proof.
  intros H. apply take_literal_cons in H as (c & s' & m' & -> & -> & Hc & _).
  assert (c = backslash) as ->.
  { destruct ignorecase; [now apply only_backslash_lowers_to_it|].
    now apply Ascii.eqb_eq in Hc. }
  now exists s', m'.
Qed.

(** Both patterns start with a backslash. *)
Lemma entity_pattern_at_backslash s m :
  entity_pattern_at s = Some m -> exists r, s = String backslash r.
Proof.
  unfold entity_pattern_at.
  destruct (take_literal true "\b" s) as [[m1 r1]|] eqn:E; [|discriminate].
  apply take_literal_backslash in E as (s' & _ & -> & _). intros _. now exists s'.
Qed.

Lemma entity_pattern_at_name s prefix name :
  entity_pattern_at s = Some (prefix, name) -> exists x, name = String backslash x.
Proof.
  unfold entity_pattern_at.
  destruct (take_literal true "\b" s) as [[m1 r1]|]; [|discriminate].
  destruct (take_alternative true prefixes r1) as [[p r2]|]; [|discriminate].
  destruct (take_literal true "_" r2) as [[m3 r3]|]; [|discriminate].
  destruct (take_literal true "\" r3) as [[b r4]|] eqn:E; [|discriminate].
  apply take_literal_backslash in E as (_ & b' & _ & ->).
  destruct (take_while _ _ r4) as [[|w run] r5]; [discriminate|].
  destruct (take_literal true "\b" r5); [|discriminate].
  intros [= _ <-]. eexists. reflexivity.
Qed.

Lemma top_pattern_at_backslash s g rest :
  top_pattern_at s = Some (g, rest) ->
  (exists r, s = String backslash r) /\ exists x, g = String backslash x.
Proof.
  unfold top_pattern_at.
  destruct (take_literal false "\b" s) as [[m1 r1]|] eqn:E1; [|discriminate].
  apply take_literal_backslash in E1 as (s' & _ & -> & _).
  destruct (take_literal false "\" r1) as [[b r2]|] eqn:E2; [|discriminate].
  apply take_literal_backslash in E2 as (_ & b' & _ & ->).
  destruct (take_while 3 (fun c => Ascii.eqb c "d") r2) as [[|d run] r3]; [discriminate|].
  destruct (take_literal false "\b" r3) as [[m r4]|]; [|discriminate].
  intros [= <- _]. split; eexists; reflexivity.
Qed.

Lemma entity_pattern_search_backslash s m :
  entity_pattern_search s = Some m -> mem backslash s = true.
Proof.
  induction s as [|c s IH]; cbn [entity_pattern_search].
  - destruct (entity_pattern_at "") eqn:E; [|discriminate].
    apply entity_pattern_at_backslash in E as [r E]. discriminate E.
  - destruct (entity_pattern_at (String c s)) eqn:E.
    + apply entity_pattern_at_backslash in E as [r [= -> ->]]. intros _. reflexivity.
    + intros H. cbn [mem]. rewrite (IH H). apply orb_true_r.
Qed.

(** X26: the explicit entity is found only in a question that has a
    backslash in it, and what is found has one too: the word boundaries
    and the word class of the pattern are written with doubled
    backslashes in a raw string, which makes them literal text.  A
    question without a backslash names no explicit entity. *)
Theorem explicit_entity_needs_backslash (text : string) :
  (mem backslash text = false -> _extract_explicit_entity text = None)
  /\ (forall found, _extract_explicit_entity text = Some found ->
        mem backslash text = true /\ mem backslash found = true).
Proof.
  assert (A : forall found, _extract_explicit_entity text = Some found ->
                mem backslash text = true /\ mem backslash found = true).
  { intros found. unfold _extract_explicit_entity.
    destruct (entity_pattern_search text) as [[prefix name]|] eqn:E; [|discriminate].
    intros [= <-]. split; [now apply entity_pattern_search_backslash in E|].
    pose proof (fun s => entity_pattern_at_name s prefix name) as Hname.
    assert (Hs : exists s, entity_pattern_at s = Some (prefix, name)).
    { clear Hname. induction text as [|c text IH]; cbn [entity_pattern_search] in E.
      - destruct (entity_pattern_at "") eqn:E0; [|discriminate].
        injection E as ->. eauto.
      - destruct (entity_pattern_at (String c text)) eqn:E0; [|now apply IH].
        injection E as ->. eauto. }
    destruct Hs as [s Hs]. destruct (Hname s Hs) as [x ->].
    rewrite !mem_app. cbn [mem]. unfold backslash.
    rewrite Ascii.eqb_refl. cbn. now rewrite !orb_true_r. }
  split; [|exact A].
  intros H. destruct (_extract_explicit_entity text) as [found|] eqn:E; [|reflexivity].
  destruct (A found eq_refl) as [H1 _]. congruence.
Qed.

Lemma explicit_entity_needs_backslash_witness :
  _extract_explicit_entity "show Catalog_Items top 5" = None.
Proof.
  apply (proj1 (explicit_entity_needs_backslash "show Catalog_Items top 5")).
  reflexivity.
Defined.

Lemma rstrip_keeps_head c (s : string) :
  isspace c = false -> exists r, rstrip (String c s) = String c r.
Proof.
  intros Hc. cbn [rstrip]. destruct (rstrip s); [rewrite Hc|]; eauto.
Qed.

(** A text that starts with a backslash is not a number. *)
Lemma py_int_backslash x : exists msg, py_int (String backslash x) = Raise (ValueError msg).
Proof.
  unfold py_int, strip. cbn [lstrip].
  change (isspace backslash) with false. cbn iota.
  destruct (rstrip_keeps_head backslash x eq_refl) as [r ->].
  unfold backslash. cbn. eauto.
Qed.

Lemma findall_groups skip s :
  List.Forall (fun g => exists x, g = String backslash x) (top_pattern_findall skip s).
Proof.
  revert skip. induction s as [|c s IH]; intros skip; [constructor|].
  cbn [top_pattern_findall]. destruct skip as [|k]; [|apply IH].
  destruct (top_pattern_at (String c s)) as [[g rest]|] eqn:E; [|apply IH].
  constructor; [|apply IH].
  now apply top_pattern_at_backslash in E as [_ E].
Qed.

Lemma findall_needs_backslash skip s :
  mem backslash s = false -> top_pattern_findall skip s = [].
Proof.
  revert skip. induction s as [|c s IH]; intros skip H; [reflexivity|].
  cbn [mem] in H. apply orb_false_iff in H as [H1 H2].
  cbn [top_pattern_findall]. destruct skip as [|k]; [|now apply IH].
  destruct (top_pattern_at (String c s)) as [[g rest]|] eqn:E; [|now apply IH].
  apply top_pattern_at_backslash in E as [[r [= -> _]] _].
  unfold backslash in H1. now rewrite Ascii.eqb_refl in H1.
Qed.

(** X27: the hint for [$top] is never a number of the question.  The
    pattern asks for a backslash and the letter d where digits were
    meant, so what it finds is not a number and the conversion fails: the
    result is the default, or a [ValueError] when the question has such
    a text; for a question without a backslash it is the default. *)
Theorem top_hint_is_the_default (text : string) (default : Z) :
  (_extract_top_hint text default = Ok default
   \/ exists msg, _extract_top_hint text default = Raise (ValueError msg))
  /\ (mem backslash text = false -> _extract_top_hint text default = Ok default).
Proof.
  unfold _extract_top_hint. split.
  - pose proof (findall_groups O text) as H.
    destruct (top_pattern_findall O text) as [|g groups]; [now left|].
    right. inversion H as [|? ? [x ->] _]; subst.
    cbn [top_numbers]. destruct (py_int_backslash x) as [msg ->]. cbn. eauto.
  - intros H. now rewrite findall_needs_backslash.
Qed.

Lemma top_hint_is_the_default_witness :
  _extract_top_hint "first 10 items of 250" 5 = Ok 5.
Proof.
  apply (proj2 (top_hint_is_the_default "first 10 items of 250" 5)). reflexivity.
Defined.

End HintFacts.

(** ** The errors of the clients *)

Module ErrorFacts.

Import PyStr PyStrFacts.

(** A call that raises nothing but exceptions of a class. *)
Definition raises_only {A} (P : PyExn -> Prop) (r : Result A) : Prop :=
  forall e, r = Raise e -> P e.

Lemma raises_only_ok {A} P (a : A) : raises_only P (Ok a).
Proof. intros e H. discriminate H. Qed.

Lemma raises_only_raise {A} (P : PyExn -> Prop) e : P e -> raises_only P (@Raise A e).
Proof. intros H e' [= <-]. exact H. Qed.

Lemma raises_only_bind {A B} P (r : Result A) (k : A -> Result B) :
  raises_only P r -> (forall a, raises_only P (k a)) -> raises_only P (bind r k).
Proof.
  intros Hr Hk e. destruct r as [a|e']; simpl.
  - apply Hk.
  - intros [= <-]. now apply Hr.
Qed.

Lemma raises_only_impl {A} (P Q : PyExn -> Prop) (r : Result A) :
  (forall e, P e -> Q e) -> raises_only P r -> raises_only Q r.
Proof. intros H Hr e He. apply H, Hr, He. Qed.

Definition shape_error (e : PyExn) : Prop :=
  e = LLM.no_text \/ exists cls msg, e = PyError cls msg.

Ltac shape :=
  repeat first
    [ apply raises_only_ok
    | apply raises_only_raise; first [now left | right; eauto]
    | apply raises_only_bind; [|intros ?]
    | match goal with
      | |- raises_only _ (match ?x with _ => _ end) => destruct x
      | |- raises_only _ (if ?x then _ else _) => destruct x
      end ].

Lemma str_at_shape obj key : raises_only shape_error (LLM.str_at obj key).
Proof. unfold LLM.str_at, LLM.py_in, LLM.getitem. shape. Qed.

Lemma result_or_fail_shape payload : raises_only shape_error (LLM.result_or_fail payload).
Proof.
  unfold LLM.result_or_fail. apply raises_only_bind; [apply str_at_shape|].
  intros [s|]; shape.
Qed.

(** [_extract_llm_text] fails with the error of the client, or with an
    error of Python when the payload has not the shape it reads. *)
Lemma _extract_llm_text_shape payload :
  raises_only shape_error (LLM._extract_llm_text payload).
Proof.
  unfold LLM._extract_llm_text.
  apply raises_only_bind; [unfold LLM.py_in; shape|]. intros has.
  apply raises_only_bind; [unfold LLM.getitem; shape|]. intros choices.
  destruct (has && LLM.truthy choices); [|apply result_or_fail_shape].
  apply raises_only_bind; [unfold LLM.getitem0; shape|]. intros choice.
  apply raises_only_bind; [unfold LLM.get; shape|]. intros m.
  apply raises_only_bind; [apply str_at_shape|]. intros [s|]; [shape|].
  apply raises_only_bind; [apply str_at_shape|]. intros [s|]; [shape|].
  apply result_or_fail_shape.
Qed.

Section Generator.

Variable json_loads : string -> Json.Loaded.
Variable model_validate : JSON -> Result QueryPlan.
Variable backend : nat -> bool -> LLMClient.PostOutcome.
Variable clock : nat -> Z.

(** The classes of the plan generator: its own error, the parse error
    with the raw answer, an exception that [json.loads] raises on a
    text (its decoding error, or an error of the interpreter's limits),
    and the errors of Python's own operations on a payload of an
    unexpected shape. *)
Inductive generator_error : PyExn -> Prop :=
| its_own msg : generator_error (LLMClientError msg)
| parse_error msg text : generator_error (PlanParseError (msg +:+ ". Raw: " +:+ text))
| loads_error doc e :
    json_loads doc = Json.Fails e -> generator_error (Json.loads_exn doc e)
| python_error cls msg : generator_error (PyError cls msg).

Lemma parse_with_raw_errors text :
  raises_only generator_error (LLM.parse_with_raw json_loads model_validate text).
Proof.
  intros e He. unfold LLM.parse_with_raw in *.
  destruct (ClientFacts._parse_structured_plan_cases json_loads model_validate text)
    as [[p Hp]|[[m Hm]|(doc & e0 & Hdoc & _ & Hsp)]].
  - rewrite Hp in He. discriminate He.
  - rewrite Hm in He. injection He as <-. constructor.
  - rewrite Hsp in He.
    assert (E : e = Json.loads_exn doc e0) by (destruct e0; now injection He).
    rewrite E. now constructor.
Qed.

Lemma after_response_errors response elapsed :
  raises_only generator_error
    (LLMClient.after_response json_loads model_validate response elapsed).
Proof.
  unfold LLMClient.after_response.
  destruct (400 <=? LLMClient.status_code response);
    [apply raises_only_raise; constructor|].
  destruct (LLMClient.json response); [|apply raises_only_raise; constructor].
  apply raises_only_bind.
  - eapply raises_only_impl; [|apply _extract_llm_text_shape].
    intros e [->|(cls & msg & ->)]; constructor.
  - intros text. apply raises_only_bind; [apply parse_with_raw_errors|].
    intros plan. apply raises_only_ok.
Qed.

Lemma generate_plan_errors tenacity_installed self w :
  raises_only generator_error
    (fst (LLMClient.generate_plan json_loads model_validate backend clock
            tenacity_installed self w)).
Proof.
  rewrite ClientFacts.generate_plan_single_attempt.
  unfold LLMClient.generate_plan_body, LLMClient.request_failed.
  destruct (String.eqb (LLMClient.api_key self) "");
    [apply raises_only_raise; constructor|].
  destruct (String.eqb (LLMClient.model_id self) "");
    [apply raises_only_raise; constructor|].
  destruct (backend _ _) as [exc|response]; [apply raises_only_raise; constructor|].
  destruct (_ && _).
  - destruct (backend _ _) as [exc|response2];
      [apply raises_only_raise; constructor | apply after_response_errors].
  - apply after_response_errors.
Qed.

(** X24: what [CloudLLMClient.generate_plan] can raise: the error of
    the client, the parse error with the raw answer in it, an exception
    that [json.loads] raises on a text, an error of Python on a payload
    of an unexpected shape, and the error of the filter renderer for a
    value of type datetime that no format reads.  Nothing else, and in
    particular no transport exception and no [RetryError]. *)
Theorem cloud_generate_plan_errors tenacity_installed self w e :
  fst (Legacy.generate_plan json_loads model_validate backend clock
         tenacity_installed self w) = Raise e ->
  generator_error e
  \/ exists c, value_type c = TDatetime
               /\ e = ValueError ("Unrecognized datetime format: " +:+ py_str (value c)).
Proof.
  unfold Legacy.generate_plan.
  pose proof (generate_plan_errors tenacity_installed self w) as H.
  destruct (LLMClient.generate_plan _ _ _ _ _ _ _) as [[[[plan ms] raw]|e'] w'];
    cbn [fst] in *.
  - unfold Legacy._structured_to_legacy.
    destruct (filter_group plan) as [g|]; cbn [bind]; [|discriminate].
    destruct (ODataFilterBuilder.build (Some g)) as [s|e0] eqn:E; cbn [bind];
      [discriminate|].
    intros [= <-]. right.
    destruct (LiteralFacts.build_fails g e0 E) as (c & _ & Ht & _ & _ & _ & ->).
    now exists c.
  - intros [= <-]. left. now apply H.
Qed.

End Generator.

Lemma cloud_generate_plan_errors_witness :
  generator_error Json.loads_text (LLMClientError "LLM request failed: refused")
  \/ exists c, value_type c = TDatetime
               /\ LLMClientError "LLM request failed: refused"
                  = ValueError ("Unrecognized datetime format: " +:+ py_str (value c)).
Proof.
  apply (cloud_generate_plan_errors Json.loads_text (fun _ => Raise (ValueError "no plan"))
           (fun _ _ => LLMClient.PostFails (httpx_NetworkError "refused")) (fun _ => 0)
           true ClientFacts.llm world0).
  reflexivity.
Defined.

End ErrorFacts.

(** ** The errors of [fetch] and the legacy client *)

Module FetchFacts.

Import PyStr PyStrFacts DictFacts ErrorFacts.

Lemma translation_fails plan e :
  Legacy._structured_to_legacy plan = Raise e ->
  exists c, value_type c = TDatetime
            /\ e = ValueError ("Unrecognized datetime format: " +:+ py_str (value c)).
Proof.
  unfold Legacy._structured_to_legacy.
  destruct (filter_group plan) as [g|]; cbn [bind]; [|discriminate].
  destruct (ODataFilterBuilder.build (Some g)) as [s|e0] eqn:E; cbn [bind];
    [discriminate|].
  intros [= <-].
  destruct (LiteralFacts.build_fails g e0 E) as (c & _ & Ht & _ & _ & _ & ->).
  now exists c.
Qed.

Lemma plan_params_fails plan extra e :
  ODataClient.plan_params plan extra = Raise e ->
  exists c, value_type c = TDatetime
            /\ e = ValueError ("Unrecognized datetime format: " +:+ py_str (value c)).
Proof.
  rewrite TranslationFacts.plan_params_legacy.
  destruct (Legacy._structured_to_legacy plan) as [legacy|e0] eqn:E; [discriminate|].
  cbn [bind]. intros [= <-]. now apply translation_fails in E.
Qed.

Section Loop.

Context {A : Type}.
Variable policy : Tenacity.Policy.
Variable body : World -> Result A * World.

(** An exception leaves the loop as the body raised it when the policy
    does not retry on it, and inside a [RetryError] when it does. *)
Lemma attempt_raises left n w e :
  fst (Tenacity.attempt policy body left n w) = Raise e ->
  (exists w0, fst (body w0) = Raise e
              /\ Tenacity.retry_if_exception_type policy e = false)
  \/ (exists e0 w0, e = RetryError e0 /\ fst (body w0) = Raise e0
                    /\ Tenacity.retry_if_exception_type policy e0 = true).
Proof.
  revert n w. induction left as [|left IH]; intros n w; cbn [Tenacity.attempt];
    destruct (body w) as [[a|e'] w1] eqn:E; try discriminate;
    destruct (Tenacity.retry_if_exception_type policy e') eqn:Er; cbn [fst].
  - intros [= <-]. right. exists e', w. now rewrite E.
  - intros [= <-]. left. exists w. now rewrite E.
  - apply IH.
  - intros [= <-]. left. exists w. now rewrite E.
Qed.

End Loop.

Section Fetch.

Variable server : nat -> string -> ODataClient.GetOutcome.
Variable clock : nat -> Z.

(** The classes of [fetch]: the error of the filter renderer, the
    client's own error, the error of [BasicAuth] for a login with a
    colon, an exception of the service that is neither a client error
    of the HTTP library nor, under the retry package, a plain timeout,
    and the [RetryError] of three plain timeouts. *)
Inductive fetch_error (tenacity_installed : bool) (self : ODataClient.t)
  : PyExn -> Prop :=
| renderer_error c :
    value_type c = TDatetime ->
    fetch_error tenacity_installed self
      (ValueError ("Unrecognized datetime format: " +:+ py_str (value c)))
| client_error msg status url :
    fetch_error tenacity_installed self (ODataClientError msg status url)
| login_error :
    PyStr.contains (ODataClient.username self) ":" = true ->
    fetch_error tenacity_installed self (ValueError ODataClient.colon_in_login)
| passed_through n url e :
    server n url = ODataClient.GetFails e ->
    ODataClient.is_ClientError e = false ->
    (tenacity_installed = true -> e <> asyncio_TimeoutError) ->
    fetch_error tenacity_installed self e
| gave_up :
    tenacity_installed = true ->
    fetch_error tenacity_installed self (RetryError asyncio_TimeoutError).

Lemma fetch_body_raises self plan extra w e :
  fst (ODataClient.fetch_body server clock self plan extra w) = Raise e ->
  (exists c, value_type c = TDatetime
             /\ e = ValueError ("Unrecognized datetime format: " +:+ py_str (value c)))
  \/ (exists msg status url, e = ODataClientError msg status url)
  \/ (PyStr.contains (ODataClient.username self) ":" = true
      /\ e = ValueError ODataClient.colon_in_login)
  \/ (exists n url, server n url = ODataClient.GetFails e
                    /\ ODataClient.is_ClientError e = false).
Proof.
  unfold ODataClient.fetch_body.
  destruct (ODataClient.plan_params plan extra) as [ps|e0] eqn:Ep.
  - destruct (ODataUrlBuilder.build _ _ _) as [full_url|];
      [|intros [= <-]; right; left; eauto].
    destruct (ClientFacts.auth_of_cases self) as [(_ & auth & Ha)|(Hl & Ha)];
      rewrite Ha; [|intros [= <-]; right; right; left; auto].
    destruct (server _ _) as [exc|response] eqn:Es.
    + destruct (ODataClient.is_ClientError exc) eqn:Ec; intros [= <-];
        right; [left | right; right]; eauto.
    + destruct (400 <=? ODataClient.status response);
        [intros [= <-]; right; left; eauto|].
      destruct (ODataClient.json response); [discriminate|].
      intros [= <-]; right; left; eauto.
  - intros [= <-]. left. now apply plan_params_fails in Ep.
Qed.

(** X20: what [fetch] can raise: the error of the filter renderer for a
    value of type datetime that no format reads; the client's own
    error; the [ValueError] of [BasicAuth], when the login has a colon;
    an exception of the service as it is, when it is not a client error
    of the HTTP library (and, under the retry package, not a plain
    timeout); and, under the retry package, the [RetryError] of plain
    timeouts. *)
Theorem fetch_errors tenacity_installed self plan extra w e :
  fst (ODataClient.fetch server clock tenacity_installed self plan extra w) = Raise e ->
  fetch_error tenacity_installed self e.
Proof.
  unfold ODataClient.fetch, Tenacity.retry. destruct tenacity_installed.
  - intros H. apply attempt_raises in H as [(w0 & Hb & Hr)|(e0 & w0 & -> & Hb & Hr)];
      apply fetch_body_raises in Hb
        as [(c & Hc & ->)|[(msg & status & url & ->)
                          |[(Hl & ->)|(n & url & Hs & Hc)]]];
      try discriminate Hr.
    + now constructor.
    + constructor.
    + now apply login_error.
    + apply (passed_through true self n url e Hs Hc). intros _ ->. discriminate Hr.
    + destruct e0; try discriminate Hr; try discriminate Hc. now constructor.
  - intros Hb. apply fetch_body_raises in Hb
      as [(c & Hc & ->)|[(msg & status & url & ->)
                        |[(Hl & ->)|(n & url & Hs & Hc)]]].
    + now constructor.
    + constructor.
    + now apply login_error.
    + apply (passed_through false self n url e Hs Hc). discriminate.
Qed.

(** X12: the address of the legacy client is the root, a question mark
    and a query that reads back as the normalized parameters,
    [$format] among them.  With a login that has no colon the client
    asks for it once, whatever the answer; with a colon in the login it
    raises the [ValueError] of [BasicAuth] and asks for nothing.  What
    it returns carries that address and the normalized parameters. *)
Theorem legacy_fetch_address self entity (params : Dict) w :
  ODataClient.base_url self <> "" -> entity <> "" ->
  let normalized := QueryTool.normalize_params (Some params) in
  exists query,
    ODataUrlBuilder.build (ODataClient.base_url self) entity (Some normalized)
    = Ok (ODataUrlBuilder.root_of (ODataClient.base_url self) entity +:+ "?" +:+ query)
    /\ AddressFacts.decode_query query = map Some (AddressFacts.sent_params normalized)
    /\ (exists v, In ("$format", v) (AddressFacts.sent_params normalized))
    /\ (if PyStr.contains (ODataClient.username self) ":"
        then Legacy.fetch clock server self entity params w
             = (Raise (ValueError ODataClient.colon_in_login), w)
        else snd (Legacy.fetch clock server self entity params w) = sent w)
    /\ forall envelope,
         fst (Legacy.fetch clock server self entity params w) = Ok envelope ->
         ODataClient.url envelope
         = ODataUrlBuilder.root_of (ODataClient.base_url self) entity +:+ "?" +:+ query
         /\ ODataClient.params envelope = normalized.
Proof.
  intros Hb He normalized.
  pose proof (PassFacts.normalize_params_has_format (Some params)) as Hf.
  destruct (PassFacts.normalize_params_settled (Some params)) as [Hn _].
  fold normalized in Hf, Hn.
  assert (Hsent : exists v, In ("$format", v) (AddressFacts.sent_params normalized)).
  { unfold dict_contains in Hf. clear -Hf Hn.
    induction Hn as [|[k v] d Hk Hd IH]; [discriminate Hf|].
    unfold AddressFacts.sent_params. cbn [omap list_omap fst snd].
    destruct Hk as (Hv & _). rewrite Hv.
    cbn [dict_get] in Hf. destruct (String.eqb_spec k "$format") as [->|Hne].
    - eexists. now left.
    - destruct (IH Hf) as [v' Hin]. exists v'. now right. }
  assert (Hw : AddressFacts.with_format (Some normalized) = normalized)
    by (unfold AddressFacts.with_format; now rewrite Hf).
  destruct (AddressFacts.build_reads_back (ODataClient.base_url self) entity
              (Some normalized) Hb He) as [[Hnil _]|(query & Hq & Hd)].
  { rewrite Hw in Hnil. destruct Hsent as [v Hin]. rewrite Hnil in Hin. destruct Hin. }
  rewrite Hw in Hd. exists query.
  split; [exact Hq|]. split; [exact Hd|]. split; [exact Hsent|].
  unfold Legacy.fetch. fold normalized. rewrite Hq.
  destruct (ClientFacts.auth_of_cases self) as [(Hl & auth & Ha)|(Hl & Ha)];
    rewrite Hl, Ha; [|split; [reflexivity | discriminate]].
  destruct (server _ _) as [exc|response].
  - destruct (ODataClient.is_ClientError exc); split; try reflexivity; discriminate.
  - destruct (400 <=? ODataClient.status response); [split; [reflexivity | discriminate]|].
    destruct (ODataClient.json response); (split; [reflexivity|]); [|discriminate].
    intros envelope [= <-]. split; reflexivity.
Qed.

End Fetch.

(** A login with a colon, at both clients: the error of [BasicAuth]
    before any request, and no second attempt. *)
Example login_with_colon_is_refused :
  let self := {| ODataClient.base_url := "https://example/odata";
                 ODataClient.username := "domain:user";
                 ODataClient.password := "secret" |} in
  forall server clock,
    ODataClient.fetch server clock true self ClientFacts.plan_top1 None world0
    = (Raise (ValueError ODataClient.colon_in_login),
       {| requests := 0; attempts := 1; slept := [] |})
    /\ Legacy.fetch clock server self "Document_Sale" [("top", VInt 1)] world0
       = (Raise (ValueError ODataClient.colon_in_login), world0).
Proof. intros self server clock. split; reflexivity. Qed.

Lemma fetch_errors_witness :
  fetch_error (fun _ _ => ODataClient.GetFails asyncio_TimeoutError) true
    ClientFacts.odata (RetryError asyncio_TimeoutError).
Proof.
  apply (fetch_errors (fun _ _ => ODataClient.GetFails asyncio_TimeoutError) (fun _ => 0)
           true ClientFacts.odata ClientFacts.plan_top1 None world0).
  reflexivity.
Defined.

Lemma legacy_fetch_address_witness :
  exists query,
    ODataUrlBuilder.build "https://example/odata" "Document_Sale"
      (Some (QueryTool.normalize_params (Some [("top", VInt 1)])))
    = Ok (ODataUrlBuilder.root_of "https://example/odata" "Document_Sale"
          +:+ "?" +:+ query)
    /\ AddressFacts.decode_query query
       = [Some ("$top", "1"); Some ("$format", "json")].
Proof.
  destruct (legacy_fetch_address (fun _ _ => ODataClient.GetFails asyncio_TimeoutError)
              (fun _ => 0) ClientFacts.odata "Document_Sale" [("top", VInt 1)] world0)
    as (query & Hq & Hd & _); [discriminate | discriminate |].
  exists query. split; [exact Hq | exact Hd].
Defined.

End FetchFacts.

(** ** The text of an answer *)

Module AnswerFacts.

Import LLM.

(** The text under a key, when there is one. *)
Definition text_of (j : option JSON) : option string :=
  match j with
  | Some (JString s) => Some s
  | _ => None
  end.

Lemma str_at_object ms key : str_at (JObject ms) key = Ok (text_of (Json.obj_get key ms)).
Proof.
  unfold str_at, py_in, getitem. cbn [bind].
  destruct (Json.obj_get key ms) as [[]|]; reflexivity.
Qed.

(** X22: on a payload that is an object, [_extract_llm_text] gives the
    first of: the content of the message of the first choice, the text
    of the first choice, the result of the payload, each when it is a
    text; and the client's error when none is.  Without choices (no
    key, or a value that counts as false) only the result is read. *)
Theorem extract_llm_text_order (ms : list (string * JSON)) :
  let payload := JObject ms in
  let fallback :=
    match text_of (Json.obj_get "result" ms) with
    | Some s => Ok s
    | None => Raise no_text
    end in
  (match Json.obj_get "choices" ms with
   | None => true
   | Some choices => negb (truthy choices)
   end = true ->
   _extract_llm_text payload = fallback)
  /\ (forall cm rest,
        Json.obj_get "choices" ms = Some (JArray (JObject cm :: rest)) ->
        match Json.obj_get "message" cm with
        | None | Some JNull | Some (JObject _) => True
        | _ => False
        end ->
        _extract_llm_text payload
        = match text_of (match Json.obj_get "message" cm with
                         | Some (JObject mm) => Json.obj_get "content" mm
                         | _ => None
                         end) with
          | Some s => Ok s
          | None =>
              match text_of (Json.obj_get "text" cm) with
              | Some s => Ok s
              | None => fallback
              end
          end).
Proof.
  intros payload fallback.
  assert (Hfall : result_or_fail payload = fallback).
  { unfold result_or_fail, payload, fallback. rewrite str_at_object. cbn [bind].
    reflexivity. }
  split.
  - intros H. unfold _extract_llm_text, payload at 1 2. cbn [py_in bind getitem].
    destruct (Json.obj_get "choices" ms) as [choices|]; cbn [bind andb]; [|exact Hfall].
    apply negb_true_iff in H. rewrite H. exact Hfall.
  - intros cm rest Hc Hm.
    unfold _extract_llm_text, payload at 1 2. cbn [py_in bind getitem].
    rewrite Hc. cbn [bind truthy andb getitem0 get].
    destruct (Json.obj_get "message" cm) as [[| | | | |mm]|]; try contradiction.
    + cbn [truthy]. rewrite !str_at_object. cbn [Json.obj_get text_of bind].
      destruct (text_of (Json.obj_get "text" cm)); [reflexivity | exact Hfall].
    + assert (Hcontent : str_at (if truthy (JObject mm) then JObject mm else JObject [])
                           "content"
                         = Ok (text_of (Json.obj_get "content" mm))).
      { destruct mm; [reflexivity|]. cbn [truthy]. apply str_at_object. }
      rewrite Hcontent. cbn [bind].
      destruct (text_of (Json.obj_get "content" mm)); [reflexivity|].
      rewrite str_at_object. cbn [bind].
      destruct (text_of (Json.obj_get "text" cm)); [reflexivity | exact Hfall].
    + cbn [truthy]. rewrite !str_at_object. cbn [Json.obj_get text_of bind].
      destruct (text_of (Json.obj_get "text" cm)); [reflexivity | exact Hfall].
Qed.

(** Numbers as [json.loads] reads them: a literal that underflows is
    the float zero, which counts as false, and the smallest double does
    not. *)
Example tiny_floats_are_false :
  option_map truthy (Json.loads "1e-400") = Some false
  /\ option_map truthy (Json.loads "2e-324") = Some false
  /\ option_map truthy (Json.loads "3e-324") = Some true
  /\ option_map truthy (Json.loads "-0") = Some false
  /\ option_map truthy (Json.loads "0.0e5") = Some false
  /\ option_map truthy (Json.loads "1e400") = Some true
  /\ option_map truthy (Json.loads "NaN") = Some true.
Proof. repeat split; vm_compute; reflexivity. Qed.

Lemma extract_llm_text_order_witness :
  _extract_llm_text
    (JObject [("choices", JArray [JObject [("message", JNull); ("text", JNumber (PyInt 1))]]);
              ("result", JString "{}")])
  = Ok "{}"
  /\ _extract_llm_text (JObject [("choices", JArray []); ("result", JNull)])
     = Raise no_text
  /\ _extract_llm_text
       (JObject [("choices", JNumber (PyFloat 1 (-400))); ("result", JString "C")])
     = Ok "C".
Proof.
  split; [|split].
  - apply (proj2 (extract_llm_text_order
                    [("choices", JArray [JObject [("message", JNull);
                                                  ("text", JNumber (PyInt 1))]]);
                     ("result", JString "{}")])
             [("message", JNull); ("text", JNumber (PyInt 1))] []);
      [reflexivity | exact I].
  - apply (proj1 (extract_llm_text_order [("choices", JArray []); ("result", JNull)])).
    reflexivity.
  - apply (proj1 (extract_llm_text_order
                    [("choices", JNumber (PyFloat 1 (-400))); ("result", JString "C")])).
    vm_compute. reflexivity.
Defined.

End AnswerFacts.

(** ** Entity names that pass the check of the plan *)

Module CheckedEntityFacts.

Import PyStr PyStrFacts TextFacts QuoteFacts Re Models.

Definition newline : string := String (ascii_of_N 10) "".

Lemma take_literal_exact lit (s m r : string) :
  take_literal false lit s = Some (m, r) -> m = lit /\ s = lit +:+ r.
Proof.
  revert s m r. induction lit as [|a lit IH]; intros s m r.
  - cbn. now intros [= <- <-].
  - destruct s as [|c s]; [discriminate|]. cbn [take_literal].
    destruct (Ascii.eqb_spec c a) as [->|]; [|discriminate].
    destruct (take_literal false lit s) as [[m' r']|] eqn:E; [|discriminate].
    intros [= <- <-]. destruct (IH _ _ _ E) as [-> ->]. now split.
Qed.

Lemma take_alternative_exact alts (s m r : string) :
  take_alternative false alts s = Some (m, r) -> In m alts /\ s = m +:+ r.
Proof.
  induction alts as [|a alts IH]; [discriminate|]. cbn [take_alternative].
  destruct (take_literal false a s) as [[m' r']|] eqn:E.
  - intros [= <- <-]. apply take_literal_exact in E as [-> ->]. split; [now left | reflexivity].
  - intros H. destruct (IH H) as [Hin Hs]. split; [now right | exact Hs].
Qed.

Lemma take_while_split n p (s m r : string) :
  take_while n p s = (m, r) -> s = m +:+ r /\ all_chars p m = true.
Proof.
  revert s m r. induction n as [|n IH]; intros s m r.
  - cbn. destruct s; intros [= <- <-]; now split.
  - destruct s as [|c s]; [cbn; intros [= <- <-]; now split|].
    cbn [take_while]. destruct (p c) eqn:Ec.
    + destruct (take_while n p s) as [m' r'] eqn:E. intros [= <- <-].
      destruct (IH _ _ _ E) as [-> Hm]. split; [reflexivity|].
      cbn [all_chars]. now rewrite Ec, Hm.
    + intros [= <- <-]. now split.
Qed.

Lemma isword_not_space c : isword c = true -> isspace c = false.
Proof.
  destruct c as [[] [] [] [] [] [] [] []]; intros H;
    first [reflexivity | discriminate H].
Qed.

Lemma rstrip_words (a run : string) :
  all_chars isword run = true -> run <> "" -> rstrip (a +:+ run) = a +:+ run.
Proof.
  intros Hw Hne.
  assert (Hrun : rstrip run = run).
  { clear Hne. induction run as [|c run IH]; [reflexivity|].
    cbn [all_chars] in Hw. apply andb_true_iff in Hw as [Hc Hw].
    destruct run as [|d run]; [apply rstrip_last; now apply isword_not_space|].
    apply rstrip_cons; [now apply IH | discriminate]. }
  induction a as [|c a IH]; [exact Hrun|].
  cbn [String.append]. apply rstrip_cons; [exact IH|].
  destruct a; [exact Hne | discriminate].
Qed.

Lemma rstrip_space_last c (x : string) :
  isspace c = true -> rstrip (x +:+ String c "") = rstrip x.
Proof.
  intros Hc. induction x as [|d x IH].
  - cbn. now rewrite Hc.
  - cbn [String.append rstrip]. now rewrite IH.
Qed.

Lemma lstrip_prefix p (rest : string) :
  In p prefixes -> lstrip (p +:+ rest) = p +:+ rest.
Proof.
  intros H. cbn in H.
  repeat (destruct H as [<-|H]; [reflexivity|]). destruct H.
Qed.

Lemma normalize_with_prefix p (name : string) :
  In p prefixes ->
  normalize_with prefixes (p +:+ "_" +:+ name) = p +:+ "_" +:+ lstrip_char "_" name.
Proof.
  intros H. cbn in H.
  repeat (destruct H as [<-|H]; [reflexivity|]). destruct H.
Qed.

Lemma prefix_not_empty p (rest : string) : In p prefixes -> p +:+ rest <> "".
Proof.
  intros H. cbn in H.
  repeat (destruct H as [<-|H]; [discriminate|]). destruct H.
Qed.

(** X7: an entity name the plan accepts is a prefix, an underscore and
    a name of word characters, with at most a line end after it; the
    URL builder writes it as the same prefix, one underscore and the
    name without the underscores it starts with.  So an accepted name
    that ends in its last word character, its name not starting with an
    underscore, reaches the address as it is. *)
Theorem checked_entity_is_kept (v checked : string) :
  validate_entity_format v = Ok checked ->
  checked = v
  /\ exists p name,
       In p prefixes /\ name <> "" /\ all_chars isword name = true
       /\ (v = p +:+ "_" +:+ name \/ v = (p +:+ "_" +:+ name) +:+ newline)
       /\ normalize_entity_name v = p +:+ "_" +:+ lstrip_char "_" name
       /\ (v = p +:+ "_" +:+ name -> startswith name "_" = false ->
           normalize_entity_name v = v).
Proof.
  unfold validate_entity_format, entity_format_matches.
  destruct (take_alternative false prefixes v) as [[p r1]|] eqn:E1; [|discriminate].
  destruct (take_literal false "_" r1) as [[u r2]|] eqn:E2; [|discriminate].
  destruct (take_while (String.length r2) isword r2) as [[|c run] r3] eqn:E3;
    [discriminate|].
  apply take_alternative_exact in E1 as [Hp ->].
  apply take_literal_exact in E2 as [-> ->].
  apply take_while_split in E3 as [-> Hw].
  set (name := String c run) in *.
  assert (Hname : name <> "") by discriminate.
  assert (Hstrip : strip (p +:+ "_" +:+ name) = p +:+ "_" +:+ name).
  { unfold strip. rewrite lstrip_prefix by exact Hp.
    rewrite <- (app_assoc p "_" name). now apply rstrip_words. }
  assert (Hnorm : normalize_entity_name (p +:+ "_" +:+ name)
                  = p +:+ "_" +:+ lstrip_char "_" name).
  { unfold normalize_entity_name.
    rewrite (eqb_empty_false _ (prefix_not_empty p _ Hp)), Hstrip.
    now apply normalize_with_prefix. }
  destruct (String.eqb_spec r3 "") as [->|Hr3].
  - intros [= <-]. split; [reflexivity|]. exists p, name.
    rewrite (app_nil_r name).
    repeat split; try assumption; [now left|].
    intros _ Hu. rewrite Hnorm. f_equal. f_equal.
    unfold name in *. cbn [startswith] in Hu. cbn [lstrip_char].
    apply andb_false_iff in Hu as [Hu|Hu]; [|discriminate Hu].
    now rewrite Ascii.eqb_sym, Hu.
  - destruct (String.eqb_spec r3 (String (ascii_of_N 10) "")) as [->|]; [|discriminate].
    intros [= <-]. split; [reflexivity|]. exists p, name.
    assert (Hv : p +:+ "_" +:+ name +:+ newline = (p +:+ "_" +:+ name) +:+ newline)
      by now rewrite !app_assoc.
    fold newline. rewrite Hv.
    assert (Hstrip' : strip ((p +:+ "_" +:+ name) +:+ newline) = p +:+ "_" +:+ name).
    { unfold strip. rewrite app_assoc, lstrip_prefix by exact Hp.
      rewrite <- app_assoc. unfold newline. rewrite rstrip_space_last by reflexivity.
      rewrite <- (app_assoc p "_" name). now apply rstrip_words. }
    repeat split; try assumption; [now right| |].
    + unfold normalize_entity_name.
      rewrite app_assoc, (eqb_empty_false _ (prefix_not_empty p _ Hp)), <- app_assoc.
      rewrite Hstrip'. now apply normalize_with_prefix.
    + intros Hsame. exfalso.
      apply (f_equal String.length) in Hsame. rewrite length_app in Hsame.
      cbn in Hsame. lia.
Qed.

Lemma checked_entity_is_kept_witness :
  "Catalog__Items" = "Catalog__Items"
  /\ exists p name,
       In p prefixes /\ name <> "" /\ all_chars isword name = true
       /\ ("Catalog__Items" = p +:+ "_" +:+ name
           \/ "Catalog__Items" = (p +:+ "_" +:+ name) +:+ newline)
       /\ normalize_entity_name "Catalog__Items" = p +:+ "_" +:+ lstrip_char "_" name
       /\ ("Catalog__Items" = p +:+ "_" +:+ name -> startswith name "_" = false ->
           normalize_entity_name "Catalog__Items" = "Catalog__Items").
Proof.
  apply (checked_entity_is_kept "Catalog__Items" "Catalog__Items"). reflexivity.
Defined.

End CheckedEntityFacts.

(** ** Rendered filters under the raw-parameter pass *)

Module RenderedFacts.

Import PyStr PyStrFacts TextFacts ODataFilterBuilder FilterFacts LiteralFacts PassFacts.

(** A text that has a [datetime] literal in it, in any case of the
    letters: the test [_normalize_filter_dates] makes first. *)
Definition has_datetime (s : string) : bool := contains (lower s) "datetime'".

Lemma startswith_app_l (a b p : string) :
  startswith a p = true -> startswith (a +:+ b) p = true.
Proof.
  revert a. induction p as [|c p IH]; intros a; [reflexivity|].
  destruct a as [|x a]; [discriminate|]. cbn [startswith String.append].
  intros H. apply andb_true_iff in H as [H1 H2].
  now rewrite H1, (IH _ H2).
Qed.

Lemma contains_app_l (a b sub : string) :
  contains a sub = true -> contains (a +:+ b) sub = true.
Proof.
  induction a as [|x a IH].
  - destruct sub; [now destruct b | discriminate].
  - cbn [contains String.append]. intros H. apply orb_true_iff in H as [H|H].
    + change (String x (a +:+ b)) with (String x a +:+ b).
      now rewrite (startswith_app_l _ b _ H).
    + rewrite (IH H). apply orb_true_r.
Qed.

Lemma contains_app_r (a b sub : string) :
  contains b sub = true -> contains (a +:+ b) sub = true.
Proof.
  intros H. induction a as [|x a IH]; [exact H|].
  cbn [String.append]. now apply contains_cons.
Qed.

Lemma has_datetime_app (a b : string) :
  has_datetime a = true \/ has_datetime b = true -> has_datetime (a +:+ b) = true.
Proof.
  unfold has_datetime. rewrite lower_app.
  intros [H|H]; [now apply contains_app_l | now apply contains_app_r].
Qed.

Lemma has_datetime_not_empty (s : string) : has_datetime s = true -> s <> "".
Proof. intros H ->. discriminate H. Qed.

Lemma render_condition_has c p :
  _render_condition c = Ok p -> value_type c = TDatetime -> has_datetime p = true.
Proof.
  unfold _render_condition, _format_value. intros H Ht. rewrite Ht in H.
  destruct (_normalize_datetime (value c)) as [n|]; [|discriminate H].
  cbn [bind] in H. injection H as <-.
  change (has_datetime
            (field c +:+ (" " +:+ (operator_value (operator c)
               +:+ (" " +:+ ("datetime'" +:+ (n +:+ "'")))))) = true).
  do 4 (apply has_datetime_app; right).
  apply has_datetime_app. now left.
Qed.

Lemma wrap_has p : has_datetime p = true -> has_datetime (wrap p) = true.
Proof.
  intros H. unfold wrap. destruct (parenthesized p); [exact H|].
  apply has_datetime_app. right. apply has_datetime_app. now left.
Qed.

Lemma join_has sep parts p :
  In p parts -> has_datetime p = true -> has_datetime (join sep parts) = true.
Proof.
  intros Hin Hp. induction parts as [|q parts IH]; [destruct Hin|].
  destruct parts as [|q' parts].
  - destruct Hin as [->|[]]. exact Hp.
  - change (join sep (q :: q' :: parts)) with (q +:+ sep +:+ join sep (q' :: parts)).
    apply has_datetime_app. destruct Hin as [->|Hin]; [now left|].
    right. apply has_datetime_app. right. now apply IH.
Qed.

Lemma assemble_has l parts p :
  In p parts -> has_datetime p = true -> has_datetime (assemble l parts) = true.
Proof.
  intros Hin Hp. destruct parts as [|q [|q' parts]].
  - destruct Hin.
  - destruct Hin as [->|[]]. exact Hp.
  - unfold assemble. apply (join_has _ _ (wrap p)); [|now apply wrap_has].
    now apply in_map.
Qed.

Lemma group_parts_has cs parts m e :
  group_parts cs = Ok parts -> In m cs -> member_expr m = Ok e ->
  has_datetime e = true ->
  exists p, In p parts /\ has_datetime p = true.
Proof.
  revert parts. induction cs as [|m' cs IH]; intros parts Hparts Hin He Hhas;
    [destruct Hin|].
  rewrite group_parts_cons in Hparts.
  destruct (member_expr m') as [e'|] eqn:Em; [|discriminate Hparts].
  destruct (group_parts cs) as [rest|]; [|discriminate Hparts].
  cbn [bind] in Hparts. injection Hparts as <-.
  destruct Hin as [->|Hin].
  - rewrite He in Em. injection Em as <-.
    assert (Hp : exists p, part_of m e = Some p /\ has_datetime p = true).
    { destruct m as [c|g]; cbn [part_of]; [eauto|].
      rewrite (eqb_empty_false _ (has_datetime_not_empty _ Hhas)).
      eexists. split; [reflexivity|].
      apply has_datetime_app. right. apply has_datetime_app. now left. }
    destruct Hp as (p & -> & Hp). exists p. split; [now left | exact Hp].
  - destruct (IH rest eq_refl Hin He Hhas) as (p & Hp & Hh).
    exists p. split; [|exact Hh]. destruct (part_of m' e'); [now right | exact Hp].
Qed.

Lemma group_parts_members cs parts m :
  group_parts cs = Ok parts -> In m cs -> exists e, member_expr m = Ok e.
Proof.
  revert parts. induction cs as [|m' cs IH]; intros parts Hparts Hin; [destruct Hin|].
  rewrite group_parts_cons in Hparts.
  destruct (member_expr m') as [e'|] eqn:Em; [|discriminate Hparts].
  destruct (group_parts cs) as [rest|]; [|discriminate Hparts].
  destruct Hin as [->|Hin]; [eauto | now apply (IH rest)].
Qed.

Lemma build_group_has g s :
  _build_group g = Ok s ->
  List.Exists (fun c => value_type c = TDatetime) (group_conditions g) ->
  has_datetime s = true.
Proof.
  revert s. induction g as [l cs IH] using group_ind. intros s.
  rewrite _build_group_unfold, group_conditions_unfold.
  destruct (group_parts cs) as [parts|] eqn:E; [|discriminate].
  cbn [bind]. intros [= <-] Hex.
  apply List.Exists_exists in Hex as (c & Hc & Ht).
  apply in_flat_map in Hc as (m & Hm & Hc).
  rewrite List.Forall_forall in IH. specialize (IH m Hm).
  assert (He : exists e, member_expr m = Ok e /\ has_datetime e = true).
  { destruct (member_expr m) as [e|e0] eqn:Em.
    - exists e. split; [reflexivity|].
      destruct m as [c'|g]; cbn [member_conditions member_expr] in *.
      + destruct Hc as [->|[]]. now apply (render_condition_has c).
      + apply IH; [exact Em|]. apply List.Exists_exists. eauto.
    - destruct (group_parts_members cs parts m E Hm) as (e & He).
      rewrite He in Em. discriminate Em. }
  destruct He as (e & He & Hhas).
  destruct (group_parts_has cs parts m e E Hm He Hhas) as (p & Hp & Hh).
  now apply (assemble_has l parts p).
Qed.

(** X28: a rendered filter that has a condition of type datetime is
    left as it is by the raw-parameter pass of the legacy client: the
    literal the renderer wrote switches the wrapping of dates off for
    the whole filter. *)
Theorem rendered_datetime_filter_is_kept (g : FilterGroup) (s : string) :
  List.Exists (fun c => value_type c = TDatetime) (group_conditions g) ->
  build (Some g) = Ok s ->
  has_datetime s = true /\ QueryTool._normalize_filter_dates s = s.
Proof.
  intros Hex Hb.
  assert (H : has_datetime s = true).
  { unfold build in Hb. destruct g as [l cs]. cbn [conditions] in Hb.
    destruct cs as [|m cs].
    - rewrite group_conditions_unfold in Hex. inversion Hex.
    - now apply (build_group_has (mkFilterGroup l (m :: cs))). }
  split; [exact H|].
  unfold QueryTool._normalize_filter_dates. unfold has_datetime in H. now rewrite H.
Qed.

Lemma rendered_datetime_filter_is_kept_witness :
  has_datetime "(Date ge datetime'2024-01-15T00:00:00') and (Code eq '2024-01-15')" = true
  /\ QueryTool._normalize_filter_dates
       "(Date ge datetime'2024-01-15T00:00:00') and (Code eq '2024-01-15')"
     = "(Date ge datetime'2024-01-15T00:00:00') and (Code eq '2024-01-15')".
Proof.
  apply (rendered_datetime_filter_is_kept
           (mkFilterGroup And
              [ Cond {| field := "Date"; operator := GE; value := VStr "15.01.2024";
                        value_type := TDatetime |};
                Cond {| field := "Code"; operator := EQ; value := VStr "2024-01-15";
                        value_type := TString |} ])).
  - apply List.Exists_cons_hd. reflexivity.
  - reflexivity.
Defined.

End RenderedFacts.

(** ** Dates written as text *)

Module WrappedDateFacts.

Import PyStr PyStrFacts TextFacts Quote QuoteFacts ODataFilterBuilder QueryTool PassFacts.

(** The characters of a date of the pattern: digits and hyphens. *)
Definition date_char (c : ascii) : bool := isdecimal c || is_char "-" c.

(** A piece of the pattern reads characters of a class off the head of
    the input, and reads the same with more text after it. *)
Definition reads_class (p : ascii -> bool) (f : string -> option (string * string)) : Prop :=
  forall s x r,
    f s = Some (x, r) ->
    all_chars p x = true /\ s = x +:+ r
    /\ forall t, f (s +:+ t) = Some (x, r +:+ t).

Lemma take_digits_class n : reads_class date_char (take_digits n).
Proof.
  induction n as [|n IH]; intros s x r.
  - cbn. intros [= <- <-]. split; [reflexivity|]. split; [reflexivity|].
    intros t. now destruct s.
  - destruct s as [|c s]; [discriminate|]. cbn [take_digits].
    destruct (isdecimal c) eqn:Ec; [|discriminate].
    destruct (take_digits n s) as [[ds r']|] eqn:E; [|discriminate].
    intros [= <- <-]. destruct (IH _ _ _ E) as (Ha & -> & Ht).
    split; [|split; [reflexivity|]].
    + cbn [all_chars]. unfold date_char at 1. now rewrite Ec, Ha.
    + intros t. cbn [String.append take_digits]. now rewrite Ec, Ht.
Qed.

Lemma take_char_class (p q : ascii -> bool) :
  (forall c, q c = true -> p c = true) -> reads_class p (take_char q).
Proof.
  intros Hq s x r. destruct s as [|c s]; [discriminate|]. cbn [take_char].
  destruct (q c) eqn:Ec; [|discriminate]. intros [= <- <-].
  split; [|split; [reflexivity|]].
  - cbn. now rewrite (Hq _ Ec).
  - intros t. cbn [String.append take_char]. now rewrite Ec.
Qed.

Lemma seq2_class p a b :
  reads_class p a -> reads_class p b -> reads_class p (seq2 a b).
Proof.
  intros Ha Hb s x r. unfold seq2.
  destruct (a s) as [[x1 r1]|] eqn:E1; [|discriminate].
  destruct (b r1) as [[x2 r2]|] eqn:E2; [|discriminate].
  intros [= <- <-].
  destruct (Ha _ _ _ E1) as (A1 & -> & T1). destruct (Hb _ _ _ E2) as (A2 & -> & T2).
  split; [|split].
  - now rewrite all_chars_app, A1, A2.
  - now rewrite app_assoc.
  - intros t. now rewrite T1, T2.
Qed.

Lemma date_part_re_class : reads_class date_char date_part_re.
Proof.
  assert (Hh : reads_class date_char (take_char (is_char "-"))).
  { apply take_char_class. intros c Hc. unfold date_char. rewrite Hc. apply orb_true_r. }
  unfold date_part_re.
  repeat (apply seq2_class; [first [apply take_digits_class | exact Hh]|]).
  apply take_digits_class.
Qed.

Lemma date_char_lower c : date_char c = true -> lower_char c = c.
Proof. destruct c as [[] [] [] [] [] [] [] []]; intros H; first [reflexivity | discriminate H]. Qed.

Lemma date_lower (d : string) : all_chars date_char d = true -> lower d = d.
Proof.
  induction d as [|c d IH]; [reflexivity|]. cbn [all_chars lower].
  intros H. apply andb_true_iff in H as [Hc Hd].
  now rewrite (date_char_lower _ Hc), (IH Hd).
Qed.

(** A text without a character of the pattern does not have the pattern. *)
Lemma startswith_inv (s p : string) : startswith s p = true -> exists r, s = p +:+ r.
Proof.
  revert s. induction p as [|c p IH]; intros s; [now exists s|].
  destruct s as [|x s]; [discriminate|]. cbn [startswith].
  intros H. apply andb_true_iff in H as [H1 H2].
  apply Ascii.eqb_eq in H1 as ->. destruct (IH _ H2) as (r & ->). now exists r.
Qed.

Lemma no_char_no_match c (pat s : string) :
  mem c pat = true -> mem c s = false -> contains s pat = false.
Proof.
  intros Hp. induction s as [|x s IH]; intros Hs.
  - destruct pat; [discriminate Hp | reflexivity].
  - cbn [contains]. cbn [mem] in Hs. apply orb_false_iff in Hs as [Hx Hs'].
    rewrite (IH Hs'), orb_false_r.
    destruct (startswith (String x s) pat) eqn:E; [|reflexivity].
    apply startswith_inv in E as (r & E).
    assert (H : mem c (String x s) = true) by (rewrite E, mem_app, Hp; reflexivity).
    cbn [mem] in H. now rewrite Hx, Hs' in H.
Qed.

(** A text with a [datetime] literal has the letter e before a quote. *)
Lemma contains_datetime_e (s : string) :
  contains s "datetime'" = true -> contains s "e'" = true.
Proof.
  induction s as [|x s IH]; [discriminate|]. cbn [contains].
  intros H. apply orb_true_iff in H as [H|H].
  - apply startswith_inv in H as (r & E). injection E as -> ->. reflexivity.
  - rewrite (IH H). apply orb_true_r.
Qed.

Lemma contains_e_quote (a rest : string) :
  mem "'" a = false ->
  contains (a +:+ String " " rest) "e'" = contains rest "e'".
Proof.
  induction a as [|x a IH]; intros Ha; [reflexivity|].
  cbn [mem] in Ha. apply orb_false_iff in Ha as [_ Ha].
  cbn [String.append contains]. rewrite (IH Ha).
  assert (E : startswith (String x (a +:+ String " " rest)) "e'" = false).
  { cbn [startswith]. destruct a as [|y a]; cbn [String.append].
    - cbn. apply andb_false_r.
    - cbn [mem] in Ha. apply orb_false_iff in Ha as [Hy _]. cbn [startswith].
      rewrite Hy. cbn. apply andb_false_r. }
  now rewrite E.
Qed.

(** The text passed by the scan, last character first. *)
Fixpoint passed (a before : string) : string :=
  match a with
  | EmptyString => before
  | String c a' => passed a' (String c before)
  end.

Lemma passed_app (a b before : string) :
  passed (a +:+ b) before = passed b (passed a before).
Proof. revert before. induction a as [|c a IH]; intros before; [reflexivity | apply IH]. Qed.

Lemma quoted_date_plain x (r : string) :
  Ascii.eqb "'" x = false -> quoted_date (String x r) = None.
Proof. destruct x as [[] [] [] [] [] [] [] []]; intros H; first [reflexivity | discriminate H]. Qed.

(** The scan copies a text without a quote. *)
Lemma sub_dates_plain (a before s : string) :
  mem "'" a = false ->
  sub_dates 0 before (a +:+ s) = a +:+ sub_dates 0 (passed a before) s.
Proof.
  revert before. induction a as [|x a IH]; intros before Ha; [reflexivity|].
  cbn [mem] in Ha. apply orb_false_iff in Ha as [Hx Ha].
  cbn [String.append sub_dates passed].
  rewrite (quoted_date_plain _ _ Hx).
  destruct (startswith before "emitetad" || startswith before "'");
    now rewrite (IH _ Ha).
Qed.

Lemma sub_dates_skips (before s : string) : sub_dates (String.length s) before s = "".
Proof.
  revert before. induction s as [|c s IH]; intros before; [reflexivity|].
  cbn [String.length sub_dates]. apply IH.
Qed.

Lemma _repl_date (d : string) :
  all_chars date_char d = true -> _repl d = "datetime'" +:+ d +:+ "T00:00:00'".
Proof.
  intros Hd. unfold _repl.
  rewrite (no_char_no_match "T" "T" d eq_refl (all_chars_mem _ _ "T"%char Hd eq_refl)).
  rewrite (no_char_no_match "t" "t" d eq_refl (all_chars_mem _ _ "t"%char Hd eq_refl)).
  cbn. now rewrite app_assoc.
Qed.

(** The date literal at the end of a text, after a space. *)
Lemma sub_dates_at_date (before d : string) :
  date_part_re d = Some (d, "") ->
  sub_dates 0 (String " " before) (String "'" (d +:+ "'"))
  = "datetime'" +:+ d +:+ "T00:00:00'".
Proof.
  intros Hd. destruct (date_part_re_class _ _ _ Hd) as (Hc & _ & Ht).
  cbn [sub_dates].
  change (startswith (String " " before) "emitetad" || startswith (String " " before) "'")
    with false.
  cbn iota. unfold quoted_date. rewrite (Ht "'"). cbn [String.append].
  change (time_part_re "'") with (@None (string * string)). cbn iota.
  replace (String.length (String "'" (d +:+ "'")) - String.length "" - 1)%nat
    with (String.length (d +:+ "'")) by (cbn [String.length]; lia).
  now rewrite sub_dates_skips, app_nil_r, _repl_date.
Qed.

Lemma wrapped_text (a d : string) :
  mem "'" a = false -> date_part_re d = Some (d, "") ->
  _normalize_filter_dates (a +:+ " '" +:+ d +:+ "'")
  = a +:+ " datetime'" +:+ d +:+ "T00:00:00'".
Proof.
  intros Ha Hd. destruct (date_part_re_class _ _ _ Hd) as (Hc & _ & _).
  unfold _normalize_filter_dates.
  assert (Hno : contains (lower (a +:+ " '" +:+ d +:+ "'")) "datetime'" = false).
  { destruct (contains _ "datetime'") eqn:E; [|reflexivity].
    apply contains_datetime_e in E. rewrite lower_app in E.
    change (lower (" '" +:+ d +:+ "'")) with (String " " (lower (String "'" (d +:+ "'")))) in E.
    rewrite contains_e_quote in E.
    - rewrite (no_char_no_match "e" "e'") in E; [discriminate E | reflexivity|].
      change (String "'" (d +:+ "'")) with ("'" +:+ d +:+ "'").
      rewrite !lower_app, (date_lower _ Hc), !mem_app.
      now rewrite (all_chars_mem _ _ "e"%char Hc eq_refl).
    - rewrite mem_lower_plain; [exact Ha | reflexivity|].
      intros c. destruct c as [[] [] [] [] [] [] [] []]; intros H;
        first [reflexivity | discriminate H]. }
  rewrite Hno.
  change (a +:+ " '" +:+ d +:+ "'") with (a +:+ " " +:+ String "'" (d +:+ "'")).
  rewrite <- (app_assoc a " "), sub_dates_plain
    by (rewrite mem_app, Ha; reflexivity).
  rewrite passed_app. cbn [passed].
  rewrite (sub_dates_at_date _ _ Hd). now rewrite app_assoc.
Qed.

Lemma replace_char_date (d : string) :
  all_chars date_char d = true -> replace_char "'" "''" d = d.
Proof.
  induction d as [|x d IH]; [reflexivity|]. cbn [all_chars replace_char].
  intros H. apply andb_true_iff in H as [Hx Hc]. rewrite (IH Hc).
  destruct (Ascii.eqb_spec x "'") as [->|]; [discriminate Hx | reflexivity].
Qed.

(** X29: a date written as text becomes a date for the legacy client.
    A condition of type string whose value is a date of the form
    [YYYY-MM-DD], on a field without a quote, is rendered as a
    comparison with a text literal, and the raw-parameter pass turns it
    into a comparison with the [datetime] literal of that day at
    midnight. *)
Theorem text_date_is_wrapped (c : FilterCondition) (d : string) :
  value_type c = TString -> value c = VStr d ->
  mem "'" (field c) = false ->
  date_part_re d = Some (d, "") ->
  _render_condition c
  = Ok (field c +:+ " " +:+ operator_value (operator c) +:+ " '" +:+ d +:+ "'")
  /\ _normalize_filter_dates
       (field c +:+ " " +:+ operator_value (operator c) +:+ " '" +:+ d +:+ "'")
     = field c +:+ " " +:+ operator_value (operator c)
       +:+ " datetime'" +:+ d +:+ "T00:00:00'".
Proof.
  intros Ht Hv Hf Hd. destruct (date_part_re_class _ _ _ Hd) as (Hc & _ & _).
  split.
  - unfold _render_condition, _format_value. rewrite Ht, Hv. cbn [py_str bind].
    now rewrite (replace_char_date _ Hc).
  - assert (Hm : mem "'" (field c +:+ " " +:+ operator_value (operator c)) = false).
    { rewrite !mem_app, Hf. now destruct (operator c). }
    pose proof (wrapped_text _ d Hm Hd) as H.
    rewrite !app_assoc in H. exact H.
Qed.

Lemma text_date_is_wrapped_witness :
  _render_condition {| field := "Date"; operator := GE; value := VStr "2024-01-15";
                       value_type := TString |}
  = Ok "Date ge '2024-01-15'"
  /\ _normalize_filter_dates "Date ge '2024-01-15'"
     = "Date ge datetime'2024-01-15T00:00:00'".
Proof.
  apply (text_date_is_wrapped
           {| field := "Date"; operator := GE; value := VStr "2024-01-15";
              value_type := TString |} "2024-01-15"); reflexivity.
Defined.

End WrappedDateFacts.
